(** * Envelope-budgeting backend: ledger and budgeting engine

    A shallow embedding of the services of the budgeting backend
    (budget.service.ts with its category service, categoryGroup.service.ts,
    account.service.ts, goal.service.ts, payee.service.ts and
    transaction.service.ts) and the properties of the ledger that follow
    from the code.

    Modelling decisions, fixed once for the whole development:

    - Money.  [Prisma.Decimal] values are exact decimals; they are embedded
      as integers [Z] counted in the smallest unit of the currency, so
      [add], [minus], [abs], [negated], [lessThan], [Decimal.min] and
      [Decimal.max], which run in JavaScript, are the operations of [Z].
      The database is SQLite, which keeps a Decimal column as a binary
      floating-point number and evaluates [increment], [decrement] and
      [_sum] in floating point.  [incrementEntry], [decrementEntry] and
      [aggregateSum] below compute the exact result, which is what the
      database stores only where the floating-point operation does not
      round (whole amounts, a sum of at most one row).  No theorem of this
      development rests on the value of such a result elsewhere: the
      theorems speak of entries that are set or left alone, of balances of
      the same rows, of at most one row or of whole amounts, and of values
      that are read and passed on.
    - Identifiers are strings.  A JavaScript test [if (id)] on a value of
      type [string | null | undefined] is [truthy]: it fails for a missing
      value and for the empty string.  A string is the sequence of the bytes
      of its UTF-8 encoding.
    - The database is a record of tables.  Tables with a primary key that
      are only read by key are finite maps; tables that are scanned
      ([findFirst], [findMany], [deleteMany], [aggregate]) are lists of rows
      in insertion order.  The BudgetEntry table is keyed by its unique
      constraint (categoryId, year, month); the row id returned by
      [getOrCreateBudgetEntry] is in one-to-one correspondence with that key.
    - [prisma.$transaction] commits the writes of its body when the body
      returns and discards them when the body throws.
    - Fresh identifiers ([uuid()]) are modelled by a deterministic choice of a
      string that does not occur among the identifiers already in use.
    - Foreign keys act as the migrations declare them: a delete that is
      RESTRICTed by a referring row fails, and a SET NULL column is cleared.
    - The Prisma client checks a query against the schema before it runs
      it: a query that includes a relation the model does not have is
      refused with a PrismaClientValidationError, whatever the tables
      hold. *)

From Stdlib Require Import ZArith Lia List Bool.
From stdpp Require Import gmap strings list fin_maps.

Open Scope Z_scope.

(** ** Identifiers, errors and the transaction monad *)

Abbreviation Id := string (only parsing).

(** [if (x)] for [x : string | null | undefined]. *)
Definition truthy (o : option Id) : bool :=
  match o with
  | Some s => negb (String.eqb s "")
  | None => false
  end.

(** [a || null] for an optional string. *)
Definition orNull (o : option Id) : option Id :=
  if truthy o then o else None.

(** The messages of the [HttpException]s thrown by the modelled code.
    [StoreFailure] and [UnknownInclude] stand for errors of the Prisma
    client, which are no [HttpException]s: the error handler answers them
    with status 500.  [UnknownInclude] is the PrismaClientValidationError
    for a query that includes a relation missing from the schema. *)
Inductive Message : Type :=
| BudgetNotFound
| BudgetForbidden
| CategoryNotFoundInBudget
| CategoryGroupNotFound
| CategoryNotInGroup
| AssignNegative
| MoveSameCategory
| MoveNotPositive
| InsufficientAssigned
| SourceAccountNotFound
| SourceAccountForbidden
| TransferAccountRequired
| TransferSameAccount
| TransferDestinationNotFound
| TransferCategoryNotAllowed
| TransferCategoryRequired
| SplitHeaderCategory
| SplitCategoryNotFound
| SplitSumMismatch
| SplitsRequired
| PayeeNameEmpty
| TransactionNotFound
| TransactionForbidden
| NewAccountInvalid
| SplitAmountChange
| AccountNotFound
| AccountForbidden
| GoalAmountRequired
| GoalDateRequired
| GoalFundingRequired
| GoalTypeUnsupported
| StoreFailure
| AccountForbiddenOrNotFound
| NoUpdateData
| PayeeNotFound
| PayeeForbidden
| PayeeNameExists
| GoalNotFound
| CategoryHasEntries
| GroupHasCategories
| UnknownInclude.

Record HttpException : Type := HttpError { status : Z; message : Message }.

Inductive Result (A : Type) : Type :=
| Ok (a : A)
| Throw (e : HttpException).
Arguments Ok {A} a.
Arguments Throw {A} e.

Definition isOk {A} (r : Result A) : bool :=
  match r with Ok _ => true | Throw _ => false end.

Definition isThrow {A} (r : Result A) : bool := negb (isOk r).

(** ** Dates

    Only the calendar month of a date is observed by the engine.  A date is
    the number of whole months since the start of year 0 in local time,
    together with the milliseconds elapsed in that month. *)

Record Date : Type := mkDate { date_months : Z; date_ms : Z }.

Definition getFullYear (d : Date) : Z := date_months d / 12.
Definition getMonth (d : Date) : Z := date_months d mod 12.

(** [new Date(year, monthIndex, 1)]: a month index outside 0..11 carries
    into the year. *)
Definition newDate (year monthIndex : Z) : Date :=
  {| date_months := 12 * year + monthIndex; date_ms := 0 |}.

(** ** Rows of the ledger store *)

Inductive AccountType : Type :=
| CHECKING | SAVINGS | CREDIT_CARD | CASH | LINE_OF_CREDIT
| INVESTMENT | MORTGAGE | OTHER_ASSET | OTHER_LIABILITY.

Inductive ClearedStatus : Type := CLEARED | UNCLEARED | RECONCILED.

Inductive GoalType : Type :=
| TARGET_BALANCE | TARGET_BALANCE_BY_DATE | MONTHLY_FUNDING.

Global Instance AccountType_eq_dec : EqDecision AccountType.
Proof. solve_decision. Defined.
Global Instance ClearedStatus_eq_dec : EqDecision ClearedStatus.
Proof. solve_decision. Defined.
Global Instance GoalType_eq_dec : EqDecision GoalType.
Proof. solve_decision. Defined.

Record Budget : Type := mkBudget {
  budget_name : string;
  budget_userId : Id
}.

Record Account : Type := mkAccount {
  account_name : string;
  account_type : AccountType;
  onBudget : bool;
  (* stored, denormalised balance columns *)
  stored_balance : Z;
  stored_clearedBalance : Z;
  stored_unclearedBalance : Z;
  isClosed : bool;
  account_budgetId : Id;
  paymentCategoryId : option Id;
  officialName : option string;
  note : option string
}.

Record CategoryGroup : Type := mkCategoryGroup {
  group_name : string;
  group_budgetId : Id
}.

Record Category : Type := mkCategory {
  category_name : string;
  categoryGroupId : Id
}.

Record Goal : Type := mkGoal {
  goal_name : option string;
  goal_type : GoalType;
  targetAmount : option Z;
  targetDate : option string;
  monthlyFundingAmount : option Z
}.

Record Payee : Type := mkPayee {
  payee_id : Id;
  payee_name : string;
  payee_budgetId : Id
}.

Record Transaction : Type := mkTransaction {
  id : Id;
  date : Date;
  amount : Z;
  memo : option string;
  cleared : ClearedStatus;
  approved : bool;
  isTransfer : bool;
  transferAccountId : option Id;
  transferGroupId : option Id;
  isSplit : bool;
  accountId : Id;
  payeeId : option Id;
  categoryId : option Id;
  budgetId : Id;
  plaidTransactionId : option Id
}.

Record SplitTransaction : Type := mkSplit {
  split_transactionId : Id;
  split_categoryId : Id;
  split_amount : Z;
  split_memo : option string
}.

(** Key of the unique constraint [@@unique([categoryId, year, month])]. *)
Abbreviation EntryKey := (Id * Z * Z)%type (only parsing).

Record Store : Type := mkStore {
  budgets : gmap Id Budget;
  accounts : gmap Id Account;
  categoryGroups : gmap Id CategoryGroup;
  categories : gmap Id Category;
  goals : gmap Id Goal;                (* keyed by the unique categoryId *)
  budgetEntries : gmap EntryKey Z;     (* assignedAmount *)
  payees : list Payee;
  transactions : list Transaction;
  splitTransactions : list SplitTransaction
}.

Definition with_budgetEntries (f : gmap EntryKey Z -> gmap EntryKey Z) (s : Store) : Store :=
  {| budgets := budgets s; accounts := accounts s;
     categoryGroups := categoryGroups s; categories := categories s;
     goals := goals s; budgetEntries := f (budgetEntries s);
     payees := payees s; transactions := transactions s;
     splitTransactions := splitTransactions s |}.

Definition with_goals (f : gmap Id Goal -> gmap Id Goal) (s : Store) : Store :=
  {| budgets := budgets s; accounts := accounts s;
     categoryGroups := categoryGroups s; categories := categories s;
     goals := f (goals s); budgetEntries := budgetEntries s;
     payees := payees s; transactions := transactions s;
     splitTransactions := splitTransactions s |}.

Definition with_payees (f : list Payee -> list Payee) (s : Store) : Store :=
  {| budgets := budgets s; accounts := accounts s;
     categoryGroups := categoryGroups s; categories := categories s;
     goals := goals s; budgetEntries := budgetEntries s;
     payees := f (payees s); transactions := transactions s;
     splitTransactions := splitTransactions s |}.

Definition with_transactions (f : list Transaction -> list Transaction) (s : Store) : Store :=
  {| budgets := budgets s; accounts := accounts s;
     categoryGroups := categoryGroups s; categories := categories s;
     goals := goals s; budgetEntries := budgetEntries s;
     payees := payees s; transactions := f (transactions s);
     splitTransactions := splitTransactions s |}.

Definition with_splitTransactions
    (f : list SplitTransaction -> list SplitTransaction) (s : Store) : Store :=
  {| budgets := budgets s; accounts := accounts s;
     categoryGroups := categoryGroups s; categories := categories s;
     goals := goals s; budgetEntries := budgetEntries s;
     payees := payees s; transactions := transactions s;
     splitTransactions := f (splitTransactions s) |}.

Definition with_accounts (f : gmap Id Account -> gmap Id Account) (s : Store) : Store :=
  {| budgets := budgets s; accounts := f (accounts s);
     categoryGroups := categoryGroups s; categories := categories s;
     goals := goals s; budgetEntries := budgetEntries s;
     payees := payees s; transactions := transactions s;
     splitTransactions := splitTransactions s |}.

Definition with_categoryGroups
    (f : gmap Id CategoryGroup -> gmap Id CategoryGroup) (s : Store) : Store :=
  {| budgets := budgets s; accounts := accounts s;
     categoryGroups := f (categoryGroups s); categories := categories s;
     goals := goals s; budgetEntries := budgetEntries s;
     payees := payees s; transactions := transactions s;
     splitTransactions := splitTransactions s |}.

Definition with_categories (f : gmap Id Category -> gmap Id Category) (s : Store) : Store :=
  {| budgets := budgets s; accounts := accounts s;
     categoryGroups := categoryGroups s; categories := f (categories s);
     goals := goals s; budgetEntries := budgetEntries s;
     payees := payees s; transactions := transactions s;
     splitTransactions := splitTransactions s |}.

(** The primary keys in use in a table held as a finite map. *)
Definition keys {A} (m : gmap Id A) : list Id := map fst (map_to_list m).

(** ** The monad of database code

    A computation reads and writes the store and may throw. *)

Definition Tx (A : Type) : Type := Store -> Result (A * Store).

Definition ret {A} (a : A) : Tx A := fun s => Ok (a, s).

Definition bind {A B} (c : Tx A) (k : A -> Tx B) : Tx B :=
  fun s =>
    match c s with
    | Ok (a, s') => k a s'
    | Throw e => Throw e
    end.

Definition throw {A} (code : Z) (m : Message) : Tx A :=
  fun _ => Throw (HttpError code m).

Definition gets {A} (f : Store -> A) : Tx A := fun s => Ok (f s, s).

Definition modify (f : Store -> Store) : Tx unit := fun s => Ok (tt, f s).

Notation "x <- c ;; k" := (bind c (fun x => k))
  (at level 100, c at next level, right associativity).
Notation "c ;;; k" := (bind c (fun _ => k))
  (at level 100, right associativity).

(** [if (cond) throw new HttpException(code, m)]. *)
Definition throwIf (cond : bool) (code : Z) (m : Message) : Tx unit :=
  if cond then throw code m else ret tt.

(** [prisma.$transaction(body)]: all writes of [body] or none.  Service
    methods that perform a single write behave the same way. *)
Definition run {A} (body : Tx A) (s : Store) : Result A * Store :=
  match body s with
  | Ok (a, s') => (Ok a, s')
  | Throw e => (Throw e, s)
  end.

(** A fresh identifier: longer than every identifier in use. *)
Fixpoint xs (n : nat) : string :=
  match n with
  | O => EmptyString
  | S n' => String (Ascii.ascii_of_nat 120) (xs n')
  end.

Definition uuid (used : list Id) : Id :=
  xs (S (list_max (map String.length used))).

(** The assigned amount of a category in a month, 0 when no row exists. *)
Definition assignedOf (s : Store) (categoryId : Id) (year month : Z) : Z :=
  default 0 (budgetEntries s !! (categoryId, year, month)).

(** [category.categoryGroup.budgetId] of a category row. *)
Definition categoryBudgetId (s : Store) (categoryId : Id) : option Id :=
  match categories s !! categoryId with
  | Some c =>
      match categoryGroups s !! categoryGroupId c with
      | Some g => Some (group_budgetId g)
      | None => None
      end
  | None => None
  end.

(** [!category || category.categoryGroup.budgetId !== budgetId] negated. *)
Definition categoryInBudget (s : Store) (categoryId budgetId : Id) : bool :=
  match categoryBudgetId s categoryId with
  | Some b => bool_decide (b = budgetId)
  | None => false
  end.

(** ** budget.service.ts *)

Module BudgetService.

Definition getBudgetById (userId budgetId : Id) : Tx Budget :=
  budget <- gets (fun s => budgets s !! budgetId) ;;
  match budget with
  | None => throw 404 BudgetNotFound
  | Some b =>
      if bool_decide (budget_userId b <> userId)
      then throw 403 BudgetForbidden
      else ret b
  end.

Definition getOrCreateBudgetEntry (budgetId categoryId : Id) (year month : Z)
    : Tx (EntryKey * Z) :=
  inBudget <- gets (fun s => categoryInBudget s categoryId budgetId) ;;
  throwIf (negb inBudget) 404 CategoryNotFoundInBudget ;;;
  existingEntry <- gets (fun s => budgetEntries s !! (categoryId, year, month)) ;;
  match existingEntry with
  | Some a => ret ((categoryId, year, month), a)
  | None =>
      modify (with_budgetEntries (insert (categoryId, year, month) 0)) ;;;
      ret ((categoryId, year, month), 0)
  end.

(** [tx.budgetEntry.update({ where: { id }, data: { assignedAmount:
    { increment: d } } })] and the same with [decrement].  The database
    adds and subtracts in floating point; the exact result below is what it
    stores when that operation does not round. *)
Definition incrementEntry (k : EntryKey) (d : Z) : Tx unit :=
  modify (with_budgetEntries (alter (fun a => a + d) k)).

Definition decrementEntry (k : EntryKey) (d : Z) : Tx unit :=
  modify (with_budgetEntries (alter (fun a => a - d) k)).




Record MoveMoneyDto : Type := mkMove {
  fromCategoryId : Id;
  toCategoryId : Id;
  move_year : Z;
  move_month : Z;
  moveAmount : Z
}.

Definition moveMoneyBody (userId budgetId : Id) (dto : MoveMoneyDto) : Tx unit :=
  throwIf (bool_decide (fromCategoryId dto = toCategoryId dto)) 400 MoveSameCategory ;;;
  throwIf ((moveAmount dto <? 0) || (moveAmount dto =? 0)) 400 MoveNotPositive ;;;
  (* prisma.$transaction *)
  getBudgetById userId budgetId ;;;
  fromEntry <- getOrCreateBudgetEntry budgetId (fromCategoryId dto)
                 (move_year dto) (move_month dto) ;;
  toEntry <- getOrCreateBudgetEntry budgetId (toCategoryId dto)
               (move_year dto) (move_month dto) ;;
  throwIf (snd fromEntry <? moveAmount dto) 400 InsufficientAssigned ;;;
  decrementEntry (fst fromEntry) (moveAmount dto) ;;;
  incrementEntry (fst toEntry) (moveAmount dto).

Definition moveMoney (userId budgetId : Id) (dto : MoveMoneyDto)
    : Store -> Result unit * Store :=
  run (moveMoneyBody userId budgetId dto).

Definition adjustBudgetsForCreditSpending
    (budgetId spendingCategoryId paymentCategoryId : Id) (amount year month : Z)
    : Tx unit :=
  if (amount <? 0) || (amount =? 0) then ret tt
  else if bool_decide (spendingCategoryId = paymentCategoryId) then ret tt
  else
    spendingEntry <- getOrCreateBudgetEntry budgetId spendingCategoryId year month ;;
    paymentEntry <- getOrCreateBudgetEntry budgetId paymentCategoryId year month ;;
    let availableToMove := Z.max 0 (snd spendingEntry) in
    let amountToMove := Z.min amount availableToMove in
    decrementEntry (fst spendingEntry) amount ;;;
    if 0 <? amountToMove
    then incrementEntry (fst paymentEntry) amountToMove
    else ret tt.

Definition revertBudgetAdjustmentForCreditSpending
    (budgetId spendingCategoryId paymentCategoryId : Id) (amount year month : Z)
    : Tx unit :=
  if (amount <? 0) || (amount =? 0) then ret tt
  else if bool_decide (spendingCategoryId = paymentCategoryId) then ret tt
  else
    spendingEntry <- getOrCreateBudgetEntry budgetId spendingCategoryId year month ;;
    paymentEntry <- getOrCreateBudgetEntry budgetId paymentCategoryId year month ;;
    let amountToRevert := amount in
    incrementEntry (fst spendingEntry) amountToRevert ;;;
    decrementEntry (fst paymentEntry) amountToRevert.

Definition handleCreditCardPayment
    (budgetId paymentCategoryId : Id) (amount year month : Z) : Tx unit :=
  if (amount <? 0) || (amount =? 0) then ret tt
  else
    paymentEntry <- getOrCreateBudgetEntry budgetId paymentCategoryId year month ;;
    decrementEntry (fst paymentEntry) amount.

Definition revertCreditCardPayment
    (budgetId paymentCategoryId : Id) (amount year month : Z) : Tx unit :=
  if (amount <? 0) || (amount =? 0) then ret tt
  else
    paymentEntry <- getOrCreateBudgetEntry budgetId paymentCategoryId year month ;;
    incrementEntry (fst paymentEntry) amount.

Definition handleCreditCardRefundToCategory
    (budgetId spendingCategoryId paymentCategoryId : Id) (amount year month : Z)
    : Tx unit :=
  if (amount <? 0) || (amount =? 0) then ret tt
  else if bool_decide (spendingCategoryId = paymentCategoryId) then ret tt
  else
    spendingEntry <- getOrCreateBudgetEntry budgetId spendingCategoryId year month ;;
    paymentEntry <- getOrCreateBudgetEntry budgetId paymentCategoryId year month ;;
    incrementEntry (fst spendingEntry) amount ;;;
    decrementEntry (fst paymentEntry) amount.

Definition revertCreditCardRefundToCategory
    (budgetId spendingCategoryId paymentCategoryId : Id) (amount year month : Z)
    : Tx unit :=
  if (amount <? 0) || (amount =? 0) then ret tt
  else if bool_decide (spendingCategoryId = paymentCategoryId) then ret tt
  else
    spendingEntry <- getOrCreateBudgetEntry budgetId spendingCategoryId year month ;;
    paymentEntry <- getOrCreateBudgetEntry budgetId paymentCategoryId year month ;;
    decrementEntry (fst spendingEntry) amount ;;;
    incrementEntry (fst paymentEntry) amount.

Definition handleCreditCardRefundToTBB
    (budgetId paymentCategoryId : Id) (amount year month : Z) : Tx unit :=
  if (amount <? 0) || (amount =? 0) then ret tt
  else
    paymentEntry <- getOrCreateBudgetEntry budgetId paymentCategoryId year month ;;
    decrementEntry (fst paymentEntry) amount.

Definition revertCreditCardRefundToTBB
    (budgetId paymentCategoryId : Id) (amount year month : Z) : Tx unit :=
  if (amount <? 0) || (amount =? 0) then ret tt
  else
    paymentEntry <- getOrCreateBudgetEntry budgetId paymentCategoryId year month ;;
    incrementEntry (fst paymentEntry) amount.

End BudgetService.

(** [getBudgetView] of budget.service.ts: the read model of one month. *)

Module BudgetView.

Record BudgetViewCategoryData : Type := mkCategoryData {
  view_categoryId : Id;
  view_categoryName : string;
  view_categoryGroupId : Id;
  assigned : Z;
  activity : Z;
  available : Z;
  isOverspent : bool
}.

Record BudgetViewCategoryGroupData : Type := mkGroupData {
  groupId : Id;
  groupName : string;
  group_categories : list BudgetViewCategoryData
}.

Record BudgetViewResponse : Type := mkView {
  view_month : Z;
  view_year : Z;
  toBeBudgeted : Z;
  totalIncome : Z;
  totalAssigned : Z;
  totalActivity : Z;
  totalAvailable : Z;
  view_categoryGroups : list BudgetViewCategoryGroupData
}.

(** [categoryGroup.findMany({ where: { budgetId }, include: { categories } })].
    The rows come in the enumeration order of the tables; the [orderBy]
    clauses only permute them. *)
Definition fetchedCategories (s : Store) (gid : Id) : list (Id * Category) :=
  filter (fun c => categoryGroupId (snd c) = gid) (map_to_list (categories s)).

Definition fetchedCategoryGroups (s : Store) (budgetId : Id)
    : list (Id * CategoryGroup * list (Id * Category)) :=
  map (fun g => (fst g, snd g, fetchedCategories s (fst g)))
      (filter (fun g => group_budgetId (snd g) = budgetId)
              (map_to_list (categoryGroups s))).

(** [new Map(budgetEntriesCurrentMonth.map(e => [e.categoryId,
    e.assignedAmount]))] over the entries selected by
    [{ category: { categoryGroup: { budgetId } }, year, month }]. *)
Definition budgetEntryMap (s : Store) (budgetId : Id) (year month : Z)
    (categoryId : Id) : option Z :=
  if categoryInBudget s categoryId budgetId
  then budgetEntries s !! (categoryId, year, month)
  else None.


(** [transaction.findMany({ where: { budgetId, date, isTransfer: false },
    include: { splits: true } } as any)].  The Transaction model has no
    relation [splits]: the schema calls the split rows [splitTransactions].
    The cast hides this from the type checker, and the client refuses the
    query when it is made, before any row is read. *)
Definition fetchedTransactions (b : Id) (year month : Z)
    : Tx (list (Transaction * list SplitTransaction)) :=
  throw 500 UnknownInclude.

Definition isIncome (t : Transaction * list SplitTransaction) : bool :=
  negb (isSplit (fst t)) && negb (truthy (categoryId (fst t)))
  && (0 <? amount (fst t)).

Definition categoryActivity (txs : list (Transaction * list SplitTransaction))
    (cid : Id) : Z :=
  fold_left
    (fun activity t =>
       if isSplit (fst t)
       then fold_left
              (fun activity' sp =>
                 if bool_decide (split_categoryId sp = cid)
                 then activity' + split_amount sp else activity')
              (snd t) activity
       else if bool_decide (categoryId (fst t) = Some cid)
            then activity + amount (fst t) else activity)
    txs 0.

Definition categoryData (s : Store) (b : Id) (year month : Z)
    (txs : list (Transaction * list SplitTransaction))
    (gid : Id) (c : Id * Category) : BudgetViewCategoryData :=
  let assigned := default 0 (budgetEntryMap s b year month (fst c)) in
  let activity := categoryActivity txs (fst c) in
  let available := assigned + activity in
  {| view_categoryId := fst c;
     view_categoryName := category_name (snd c);
     view_categoryGroupId := gid;
     assigned := assigned;
     activity := activity;
     available := available;
     isOverspent := available <? 0 |}.

(** The view.  The three queries are awaited together ([Promise.all]), so
    the view is computed only when all of them return.  The goal-progress
    percentages (floating point) and the [localeCompare] ordering of the
    categories inside a group are not part of the model. *)
Definition getBudgetViewBody (userId b : Id) (year month : Z) : Tx BudgetViewResponse :=
  BudgetService.getBudgetById userId b ;;;
  s <- gets (fun s => s) ;;
  let categoryGroups := fetchedCategoryGroups s b in
  transactionsCurrentMonth <- fetchedTransactions b year month ;;
  let incomeTransactions := filter (fun t => isIncome t) transactionsCurrentMonth in
  let totalIncome :=
    fold_left (fun sum t => sum + amount (fst t)) incomeTransactions 0 in
  let categoriesData :=
    flat_map (fun g => map (categoryData s b year month transactionsCurrentMonth
                              (fst (fst g)))
                           (snd g))
             categoryGroups in
  let totalAssigned := fold_left (fun acc c => acc + assigned c) categoriesData 0 in
  let totalActivity := fold_left (fun acc c => acc + activity c) categoriesData 0 in
  let responseCategoryGroups :=
    map (fun g =>
           {| groupId := fst (fst g);
              groupName := group_name (snd (fst g));
              group_categories :=
                map (categoryData s b year month transactionsCurrentMonth
                       (fst (fst g)))
                    (snd g) |})
        categoryGroups in
  let toBeBudgeted := totalIncome - totalAssigned in
  let totalAvailable := fold_left (fun sum c => sum + available c) categoriesData 0 in
  ret {| view_month := month;
         view_year := year;
         toBeBudgeted := toBeBudgeted;
         totalIncome := totalIncome;
         totalAssigned := totalAssigned;
         totalActivity := totalActivity;
         totalAvailable := totalAvailable;
         view_categoryGroups := responseCategoryGroups |}.

Definition getBudgetView (userId b : Id) (year month : Z)
    : Store -> Result BudgetViewResponse * Store :=
  run (getBudgetViewBody userId b year month).

End BudgetView.

(** ** account.service.ts *)

Module AccountService.

Record CalculatedBalances : Type := mkBalances {
  balance : Z;
  clearedBalance : Z;
  unclearedBalance : Z
}.

(** [prisma.transaction.aggregate({ _sum: { amount: true }, where })]:
    [null] when no row matches.  The database sums in floating point; the
    exact sum below is what it returns when no addition rounds, as for a
    single row. *)
Definition aggregateSum (where_ : Transaction -> bool) (s : Store) : option Z :=
  match filter (fun t => where_ t = true) (transactions s) with
  | [] => None
  | rows => Some (fold_right (fun t acc => amount t + acc) 0 rows)
  end.

Definition isClearedOrReconciled (t : Transaction) : bool :=
  bool_decide (cleared t = CLEARED) || bool_decide (cleared t = RECONCILED).

Definition calculateAccountBalances (aid : Id) (s : Store) : CalculatedBalances :=
  let totalBalance :=
    default 0 (aggregateSum (fun t => bool_decide (accountId t = aid)) s) in
  let clearedBalance :=
    default 0 (aggregateSum (fun t => bool_decide (accountId t = aid)
                                      && isClearedOrReconciled t) s) in
  let unclearedBalance := totalBalance - clearedBalance in
  {| balance := totalBalance;
     clearedBalance := clearedBalance;
     unclearedBalance := unclearedBalance |}.

(** [Omit<Account, 'balance' | 'clearedBalance' | 'unclearedBalance'> &
    CalculatedBalances]: the row without its stored balance columns,
    extended with the calculated ones. *)
Record AccountWithCalculatedBalance : Type := mkAccountResponse {
  resp_id : Id;
  resp_name : string;
  resp_type : AccountType;
  resp_onBudget : bool;
  resp_isClosed : bool;
  resp_budgetId : Id;
  resp_paymentCategoryId : option Id;
  resp_balances : CalculatedBalances
}.

Definition withBalances (aid : Id) (a : Account) (s : Store)
    : AccountWithCalculatedBalance :=
  {| resp_id := aid;
     resp_name := account_name a;
     resp_type := account_type a;
     resp_onBudget := onBudget a;
     resp_isClosed := isClosed a;
     resp_budgetId := account_budgetId a;
     resp_paymentCategoryId := paymentCategoryId a;
     resp_balances := calculateAccountBalances aid s |}.

Definition getAccountByIdBody (userId aid : Id) : Tx AccountWithCalculatedBalance :=
  account <- gets (fun s => accounts s !! aid) ;;
  match account with
  | None => throw 404 AccountNotFound
  | Some a =>
      budget <- gets (fun s => budgets s !! account_budgetId a) ;;
      match budget with
      | None => throw 500 StoreFailure (* excluded by the foreign key *)
      | Some b =>
          throwIf (bool_decide (budget_userId b <> userId)) 403 AccountForbidden ;;;
          gets (withBalances aid a)
      end
  end.

Definition getAccountById (userId aid : Id)
    : Store -> Result AccountWithCalculatedBalance * Store :=
  run (getAccountByIdBody userId aid).

Definition getAllAccountsForBudgetBody (userId b : Id)
    : Tx (list AccountWithCalculatedBalance) :=
  BudgetService.getBudgetById userId b ;;;
  gets (fun s =>
          map (fun a => withBalances (fst a) (snd a) s)
              (filter (fun a => account_budgetId (snd a) = b /\ isClosed (snd a) = false)
                      (map_to_list (accounts s)))).

Definition getAllAccountsForBudget (userId b : Id)
    : Store -> Result (list AccountWithCalculatedBalance) * Store :=
  run (getAllAccountsForBudgetBody userId b).

(** The default [onBudget] status of an account type. *)
Definition getDefaultOnBudgetStatus (type : AccountType) : bool :=
  match type with
  | CHECKING | SAVINGS | CASH | CREDIT_CARD | LINE_OF_CREDIT => true
  | INVESTMENT | MORTGAGE | OTHER_ASSET | OTHER_LIABILITY => false
  end.

(** The request of [createAccount]; an absent field is [None]. *)
Record CreateAccountDto : Type := mkCreateAccount {
  ca_name : string;
  ca_type : AccountType;
  ca_balance : option Z;
  ca_budgetId : Id;
  ca_onBudget : option bool;
  ca_note : option string;
  ca_officialName : option string
}.

Definition paymentGroupName : string := "Credit Card Payments".

(** [tx.account.update({ where: { id }, data: { paymentCategoryId } })] *)
Definition linkPaymentCategory (paymentCategory : Id) (a : Account) : Account :=
  {| account_name := account_name a; account_type := account_type a;
     onBudget := onBudget a; stored_balance := stored_balance a;
     stored_clearedBalance := stored_clearedBalance a;
     stored_unclearedBalance := stored_unclearedBalance a;
     isClosed := isClosed a; account_budgetId := account_budgetId a;
     paymentCategoryId := Some paymentCategory;
     officialName := officialName a; note := note a |}.

(** The block "Auto-create Payment Category for Credit Cards" of
    [createAccount]: find or create the group, create the category, link
    the account. *)
Definition createPaymentCategory (accountId : Id) (account : Account) : Tx Account :=
  let budgetId := account_budgetId account in
  paymentGroup <-
    gets (fun s => find (fun g => bool_decide (group_budgetId (snd g) = budgetId)
                                  && bool_decide (group_name (snd g) = paymentGroupName))
                        (map_to_list (categoryGroups s))) ;;
  paymentGroupId <-
    (match paymentGroup with
     | Some g => ret (fst g)
     | None =>
         newId <- gets (fun s => uuid (keys (categoryGroups s))) ;;
         modify (with_categoryGroups
                   (insert newId {| group_name := paymentGroupName;
                                    group_budgetId := budgetId |})) ;;;
         ret newId
     end) ;;
  paymentCategory <- gets (fun s => uuid (keys (categories s))) ;;
  modify (with_categories
            (insert paymentCategory
                    {| category_name := String.append (account_name account) " Payments";
                       categoryGroupId := paymentGroupId |})) ;;;
  modify (with_accounts (alter (linkPaymentCategory paymentCategory) accountId)) ;;;
  ret (linkPaymentCategory paymentCategory account).

(** The row of the initial balance: [date] is the time of the call. *)
Definition initialBalanceRow (newId accountId budgetId : Id) (now : Date)
    (initialBalance : Z) : Transaction :=
  {| id := newId; date := now; amount := initialBalance;
     memo := Some "Initial Balance"%string; cleared := CLEARED; approved := true;
     isTransfer := false; transferAccountId := None; transferGroupId := None;
     isSplit := false; accountId := accountId; payeeId := None;
     categoryId := None; budgetId := budgetId; plaidTransactionId := None |}.

Definition createAccountBody (userId : Id) (createDto : CreateAccountDto) (now : Date)
    : Tx AccountWithCalculatedBalance :=
  let budgetId := ca_budgetId createDto in
  BudgetService.getBudgetById userId budgetId ;;;
  let isOnBudget :=
    default (getDefaultOnBudgetStatus (ca_type createDto)) (ca_onBudget createDto) in
  (* prisma.$transaction *)
  accountId <- gets (fun s => uuid (keys (accounts s))) ;;
  let account :=
    {| account_name := ca_name createDto; account_type := ca_type createDto;
       onBudget := isOnBudget; stored_balance := 0;
       stored_clearedBalance := 0; stored_unclearedBalance := 0;
       isClosed := false; account_budgetId := budgetId;
       paymentCategoryId := None;
       officialName := ca_officialName createDto; note := ca_note createDto |} in
  modify (with_accounts (insert accountId account)) ;;;
  account <-
    (if bool_decide (account_type account = CREDIT_CARD)
     then createPaymentCategory accountId account
     else ret account) ;;
  (match ca_balance createDto with
   | Some initialBalance =>
       if negb (initialBalance =? 0)
       then
         newId <- gets (fun s => uuid (map id (transactions s))) ;;
         modify (with_transactions
                   (fun ts => ts ++ [initialBalanceRow newId accountId budgetId now
                                       initialBalance]))
       else ret tt
   | None => ret tt
   end) ;;;
  (* the response, with the balances calculated after the commit *)
  gets (withBalances accountId account).

Definition createAccount (userId : Id) (createDto : CreateAccountDto) (now : Date)
    : Store -> Result AccountWithCalculatedBalance * Store :=
  run (createAccountBody userId createDto now).












End AccountService.

(** ** category.service.ts and categoryGroup.service.ts (ownership checks) *)

Module CategoryService.

Definition getCategoryGroupById (userId b gid : Id) : Tx CategoryGroup :=
  BudgetService.getBudgetById userId b ;;;
  group <- gets (fun s => categoryGroups s !! gid) ;;
  match group with
  | None => throw 404 CategoryGroupNotFound
  | Some g =>
      if bool_decide (group_budgetId g <> b)
      then throw 404 CategoryGroupNotFound
      else ret g
  end.

Definition getCategoryById (userId b gid cid : Id) : Tx Category :=
  getCategoryGroupById userId b gid ;;;
  category <- gets (fun s => categories s !! cid) ;;
  match category with
  | None => throw 404 CategoryNotInGroup
  | Some c =>
      if bool_decide (categoryGroupId c <> gid)
      then throw 404 CategoryNotInGroup
      else ret c
  end.

(** The [sortOrder] column of categories and groups is not part of the
    rows of the store. *)
Definition createCategoryBody (userId b gid : Id) (name : string) : Tx (Id * Category) :=
  getCategoryGroupById userId b gid ;;;
  newId <- gets (fun s => uuid (keys (categories s))) ;;
  let category := {| category_name := name; categoryGroupId := gid |} in
  modify (with_categories (insert newId category)) ;;;
  ret (newId, category).

Definition createCategory (userId b gid : Id) (name : string)
    : Store -> Result (Id * Category) * Store :=
  run (createCategoryBody userId b gid name).

(** [transaction.categoryId] and [account.paymentCategoryId] are set to
    null when their category is deleted (ON DELETE SET NULL). *)
Definition clearCategory (cid : Id) (t : Transaction) : Transaction :=
  {| id := id t; date := date t; amount := amount t; memo := memo t;
     cleared := cleared t; approved := approved t; isTransfer := isTransfer t;
     transferAccountId := transferAccountId t;
     transferGroupId := transferGroupId t; isSplit := isSplit t;
     accountId := accountId t; payeeId := payeeId t;
     categoryId := if bool_decide (categoryId t = Some cid) then None else categoryId t;
     budgetId := budgetId t; plaidTransactionId := plaidTransactionId t |}.

Definition clearPaymentCategory (cid : Id) (a : Account) : Account :=
  {| account_name := account_name a; account_type := account_type a;
     onBudget := onBudget a; stored_balance := stored_balance a;
     stored_clearedBalance := stored_clearedBalance a;
     stored_unclearedBalance := stored_unclearedBalance a;
     isClosed := isClosed a; account_budgetId := account_budgetId a;
     paymentCategoryId :=
       if bool_decide (paymentCategoryId a = Some cid) then None
       else paymentCategoryId a;
     officialName := officialName a; note := note a |}.

(** [prisma.budgetEntry.count({ where: { categoryId } })] *)
Definition entryCount (cid : Id) (s : Store) : nat :=
  length (filter (fun e => fst (fst (fst e)) = cid) (map_to_list (budgetEntries s))).

(** [prisma.category.delete]: the goal and the split rows of a category
    restrict its deletion (ON DELETE RESTRICT), and the failure surfaces as
    a 500. *)
Definition deleteCategoryBody (userId b gid cid : Id) : Tx unit :=
  getCategoryById userId b gid cid ;;;
  entryCount <- gets (entryCount cid) ;;
  throwIf (0 <? Z.of_nat entryCount) 400 CategoryHasEntries ;;;
  restricted <-
    gets (fun s => bool_decide (is_Some (goals s !! cid))
                   || existsb (fun sp => bool_decide (split_categoryId sp = cid))
                              (splitTransactions s)) ;;
  throwIf restricted 500 StoreFailure ;;;
  modify (with_transactions (map (clearCategory cid))) ;;;
  modify (with_accounts (fmap (clearPaymentCategory cid))) ;;;
  modify (with_categories (delete cid)).

Definition deleteCategory (userId b gid cid : Id) : Store -> Result unit * Store :=
  run (deleteCategoryBody userId b gid cid).

End CategoryService.

(** ** categoryGroup.service.ts *)

Module CategoryGroupService.

Definition createCategoryGroupBody (userId b : Id) (name : string)
    : Tx (Id * CategoryGroup) :=
  BudgetService.getBudgetById userId b ;;;
  newId <- gets (fun s => uuid (keys (categoryGroups s))) ;;
  let group := {| group_name := name; group_budgetId := b |} in
  modify (with_categoryGroups (insert newId group)) ;;;
  ret (newId, group).

Definition createCategoryGroup (userId b : Id) (name : string)
    : Store -> Result (Id * CategoryGroup) * Store :=
  run (createCategoryGroupBody userId b name).

(** [prisma.category.count({ where: { categoryGroupId } })] *)
Definition categoriesCount (gid : Id) (s : Store) : nat :=
  length (filter (fun c => categoryGroupId (snd c) = gid) (map_to_list (categories s))).

Definition deleteCategoryGroupBody (userId b gid : Id) : Tx unit :=
  CategoryService.getCategoryGroupById userId b gid ;;;
  categoriesCount <- gets (categoriesCount gid) ;;
  throwIf (0 <? Z.of_nat categoriesCount) 400 GroupHasCategories ;;;
  modify (with_categoryGroups (delete gid)).

Definition deleteCategoryGroup (userId b gid : Id) : Store -> Result unit * Store :=
  run (deleteCategoryGroupBody userId b gid).

End CategoryGroupService.

(** ** goal.service.ts *)

Module GoalService.

(** The [type] of a request is a [GoalType] for a well-typed caller; any
    other value reaches the [default] branch of the validation. *)
Inductive DtoGoalType : Type :=
| Known (t : GoalType)
| Unsupported.

Record UpsertGoalDto : Type := mkGoalDto {
  dto_name : option string;
  dto_type : DtoGoalType;
  dto_targetAmount : option Z;
  dto_targetDate : option string;
  dto_monthlyFundingAmount : option Z
}.

(** [x === undefined || x === null || x <= 0] *)
Definition missingOrNonPositive (x : option Z) : bool :=
  match x with
  | None => true
  | Some v => v <=? 0
  end.

(** [validateGoalDto] mutates its argument; the validated request is
    returned. *)
Definition validateGoalDto (dto : UpsertGoalDto) : Result UpsertGoalDto :=
  match dto_type dto with
  | Known TARGET_BALANCE =>
      if missingOrNonPositive (dto_targetAmount dto)
      then Throw (HttpError 400 GoalAmountRequired)
      else Ok {| dto_name := dto_name dto; dto_type := dto_type dto;
                 dto_targetAmount := dto_targetAmount dto;
                 dto_targetDate := None;
                 dto_monthlyFundingAmount := None |}
  | Known TARGET_BALANCE_BY_DATE =>
      if missingOrNonPositive (dto_targetAmount dto)
      then Throw (HttpError 400 GoalAmountRequired)
      else if negb (truthy (dto_targetDate dto))
      then Throw (HttpError 400 GoalDateRequired)
      else Ok {| dto_name := dto_name dto; dto_type := dto_type dto;
                 dto_targetAmount := dto_targetAmount dto;
                 dto_targetDate := dto_targetDate dto;
                 dto_monthlyFundingAmount := None |}
  | Known MONTHLY_FUNDING =>
      if missingOrNonPositive (dto_monthlyFundingAmount dto)
      then Throw (HttpError 400 GoalFundingRequired)
      else Ok {| dto_name := dto_name dto; dto_type := dto_type dto;
                 dto_targetAmount := None;
                 dto_targetDate := None;
                 dto_monthlyFundingAmount := dto_monthlyFundingAmount dto |}
  | Unsupported => Throw (HttpError 400 GoalTypeUnsupported)
  end.

(** The row written by [prisma.goal.upsert]: the three type-specific
    columns are given explicitly (a value or [null]) by the validated
    request, so create and update write the same columns; an absent
    [name] leaves the stored name of an existing row in place.  The date is
    kept as the string of the request and stands for
    [new Date(targetDate)]: the model covers the requests whose date
    string parses, the client refuses the others. *)
Definition goalData (old : option Goal) (t : GoalType) (dto : UpsertGoalDto) : Goal :=
  {| goal_name :=
       match dto_name dto, old with
       | None, Some g => goal_name g
       | n, _ => n
       end;
     goal_type := t;
     targetAmount := dto_targetAmount dto;
     targetDate := if truthy (dto_targetDate dto) then dto_targetDate dto else None;
     monthlyFundingAmount := dto_monthlyFundingAmount dto |}.

Definition upsertGoalForCategoryBody (userId b gid cid : Id) (upsertDto : UpsertGoalDto)
    : Tx Goal :=
  CategoryService.getCategoryById userId b gid cid ;;;
  match validateGoalDto upsertDto with
  | Throw e => fun _ => Throw e
  | Ok dto =>
      match dto_type dto with
      | Unsupported => throw 400 GoalTypeUnsupported
      | Known t =>
          old <- gets (fun s => goals s !! cid) ;;
          let g := goalData old t dto in
          modify (with_goals (insert cid g)) ;;;
          ret g
      end
  end.

Definition upsertGoalForCategory (userId b gid cid : Id) (upsertDto : UpsertGoalDto)
    : Store -> Result Goal * Store :=
  run (upsertGoalForCategoryBody userId b gid cid upsertDto).





End GoalService.

(** ** payee.service.ts *)

Module PayeeService.

(** The code points that [String.prototype.trim] strips, each by the
    bytes of its UTF-8 encoding: the WhiteSpace of ECMAScript (TAB, VT, FF,
    SP, NBSP, ZWNBSP and the space separators of Unicode) and its
    LineTerminator (LF, CR, LS, PS). *)
Definition whiteSpace : list (list N) :=
  [ [9]; [10]; [11]; [12]; [13]; [32];
    [194; 160];      (* U+00A0 *)
    [225; 154; 128]; (* U+1680 *)
    [226; 128; 128]; [226; 128; 129]; [226; 128; 130]; [226; 128; 131];
    [226; 128; 132]; [226; 128; 133]; [226; 128; 134]; [226; 128; 135];
    [226; 128; 136]; [226; 128; 137]; [226; 128; 138]; (* U+2000 to U+200A *)
    [226; 128; 168]; [226; 128; 169]; (* U+2028, U+2029 *)
    [226; 128; 175]; (* U+202F *)
    [226; 129; 159]; (* U+205F *)
    [227; 128; 128]; (* U+3000 *)
    [239; 187; 191]  (* U+FEFF *) ]%N.

Fixpoint startsWith (prefix l : list N) : bool :=
  match prefix, l with
  | [], _ => true
  | p :: prefix', x :: l' => (p =? x)%N && startsWith prefix' l'
  | _ :: _, [] => false
  end.

(** Strip the code points of [spaces] from the front, one at a time; each
    step removes at least one byte, so [length l] steps are enough. *)
Fixpoint stripFront (spaces : list (list N)) (steps : nat) (l : list N) : list N :=
  match steps with
  | O => l
  | S steps' =>
      match find (fun space => startsWith space l) spaces with
      | Some space => stripFront spaces steps' (skipn (length space) l)
      | None => l
      end
  end.

Definition trimStart (l : list N) : list N :=
  stripFront whiteSpace (length l) l.

Definition trimEnd (l : list N) : list N :=
  rev (stripFront (map (@rev N) whiteSpace) (length l) (rev l)).

Definition bytesOf (s : string) : list N :=
  map Ascii.N_of_ascii (String.list_ascii_of_string s).

Definition stringOf (l : list N) : string :=
  String.string_of_list_ascii (map Ascii.ascii_of_N l).

(** [String.prototype.trim]. *)
Definition trim (s : string) : string := stringOf (trimEnd (trimStart (bytesOf s))).

Definition findOrCreatePayeeByName (b : Id) (payeeName : string) : Tx Payee :=
  throwIf (String.eqb (trim payeeName) "") 400 PayeeNameEmpty ;;;
  let normalizedName := trim payeeName in
  existingPayee <-
    gets (fun s => find (fun p => bool_decide (payee_budgetId p = b)
                                  && bool_decide (payee_name p = normalizedName))
                        (payees s)) ;;
  match existingPayee with
  | Some p => ret p
  | None =>
      newId <- gets (fun s => uuid (map payee_id (payees s))) ;;
      let p := {| payee_id := newId; payee_name := normalizedName;
                  payee_budgetId := b |} in
      modify (with_payees (fun ps => ps ++ [p])) ;;;
      ret p
  end.

Definition getPayeeById (userId payeeId : Id) : Tx Payee :=
  payee <- gets (fun s => find (fun p => bool_decide (payee_id p = payeeId))
                               (payees s)) ;;
  match payee with
  | None => throw 404 PayeeNotFound
  | Some p =>
      budget <- gets (fun s => budgets s !! payee_budgetId p) ;;
      match budget with
      | None => throw 500 StoreFailure (* excluded by the foreign key *)
      | Some bg =>
          throwIf (bool_decide (budget_userId bg <> userId)) 403 PayeeForbidden ;;;
          ret p
      end
  end.

Definition rename (name : string) (p : Payee) : Payee :=
  {| payee_id := payee_id p; payee_name := name; payee_budgetId := payee_budgetId p |}.

Definition updatePayeeBody (userId payeeId : Id) (name : string) : Tx Payee :=
  throwIf (String.eqb (trim name) "") 400 PayeeNameEmpty ;;;
  let normalizedName := trim name in
  existingPayee <- getPayeeById userId payeeId ;;
  conflictingPayee <-
    gets (fun s => find (fun p => bool_decide (payee_budgetId p
                                               = payee_budgetId existingPayee)
                                  && bool_decide (payee_name p = normalizedName))
                        (payees s)) ;;
  throwIf (match conflictingPayee with
           | Some c => bool_decide (payee_id c <> payeeId)
           | None => false
           end) 409 PayeeNameExists ;;;
  modify (with_payees (map (fun p => if bool_decide (payee_id p = payeeId)
                                     then rename normalizedName p else p))) ;;;
  ret (rename normalizedName existingPayee).

Definition updatePayee (userId payeeId : Id) (name : string)
    : Store -> Result Payee * Store :=
  run (updatePayeeBody userId payeeId name).

End PayeeService.

(** ** transaction.service.ts *)

Module TransactionService.

Inductive CcBudgetType : Type :=
| NONE | SPENDING | REFUND_TO_CAT | REFUND_TO_TBB | PAYMENT.

Global Instance CcBudgetType_eq_dec : EqDecision CcBudgetType.
Proof. solve_decision. Defined.

(** [Decimal.isNegative] and [Decimal.isPositive]; the latter holds for
    zero.  A negative zero is not represented. *)
Definition isNegative (a : Z) : bool := a <? 0.
Definition isPositive (a : Z) : bool := 0 <=? a.

(** The string behind an identifier that has passed an [if (id)] test. *)
Definition idOf (o : option Id) : Id := default EmptyString o.

Definition getCcBudgetType (transaction : Transaction) (account : option Account)
    : CcBudgetType :=
  match account with
  | None => NONE
  | Some a =>
      if negb (bool_decide (account_type a = CREDIT_CARD)) then NONE
      else if negb (truthy (paymentCategoryId a)) then NONE
      else if negb (isTransfer transaction) && isNegative (amount transaction)
              && truthy (categoryId transaction)
              && bool_decide (categoryId transaction <> paymentCategoryId a)
      then SPENDING
      else if negb (isTransfer transaction) && isPositive (amount transaction)
              && truthy (categoryId transaction)
              && bool_decide (categoryId transaction <> paymentCategoryId a)
      then REFUND_TO_CAT
      else if negb (isTransfer transaction) && isPositive (amount transaction)
              && (negb (truthy (categoryId transaction))
                  || bool_decide (categoryId transaction = paymentCategoryId a))
      then REFUND_TO_TBB
      else NONE
  end.

Record SplitDto : Type := mkSplitDto {
  sd_categoryId : Id;
  sd_amount : Z;
  sd_memo : option string
}.

(** The request of [createTransaction].  [c_date] is the parsed [date];
    an absent flag is [false] and an absent [splits] array is empty. *)
Record CreateTransactionDto : Type := mkCreateDto {
  c_accountId : Id;
  c_date : Date;
  c_amount : Z;
  c_payeeName : option string;
  c_payeeId : option Id;
  c_categoryId : option Id;
  c_cleared : option ClearedStatus;
  c_approved : option bool;
  c_memo : option string;
  c_isTransfer : bool;
  c_transferAccountId : option Id;
  c_isSplit : bool;
  c_splits : list SplitDto
}.

(** [TransactionResponse | TransactionResponse[]] *)
Inductive Created : Type :=
| One (t : Transaction)
| Many (ts : list Transaction).

Definition validateCategory (b cid : Id) (m : Message) : Tx unit :=
  inBudget <- gets (fun s => categoryInBudget s cid b) ;;
  throwIf (negb inBudget) 404 m.

(** Step 2 of [createTransaction]: the destination account and the
    category rule of the transfer. *)
Definition validateTransfer (b : Id) (sourceAccount : Account)
    (dto : CreateTransactionDto) : Tx Account :=
  throwIf (negb (truthy (c_transferAccountId dto))) 400 TransferAccountRequired ;;;
  throwIf (bool_decide (idOf (c_transferAccountId dto) = c_accountId dto))
          400 TransferSameAccount ;;;
  destinationAccount <- gets (fun s => accounts s !! idOf (c_transferAccountId dto)) ;;
  match destinationAccount with
  | None => throw 404 TransferDestinationNotFound
  | Some dest =>
      throwIf (bool_decide (account_budgetId dest <> b))
              404 TransferDestinationNotFound ;;;
      let sourceOnBudget := onBudget sourceAccount in
      let destOnBudget := onBudget dest in
      (if sourceOnBudget && destOnBudget then
         throwIf (truthy (c_categoryId dto)) 400 TransferCategoryNotAllowed
       else if sourceOnBudget && negb destOnBudget then
         throwIf (negb (truthy (c_categoryId dto))) 400 TransferCategoryRequired ;;;
         validateCategory b (idOf (c_categoryId dto)) CategoryNotFoundInBudget
       else if negb sourceOnBudget && destOnBudget then
         if truthy (c_categoryId dto)
         then validateCategory b (idOf (c_categoryId dto)) CategoryNotFoundInBudget
         else ret tt
       else ret tt) ;;;
      ret dest
  end.

(** [providedPayeeId || null], then find-or-create by name. *)
Definition resolvePayee (b : Id) (providedPayeeId : option Id)
    (payeeName : option string) : Tx (option Id) :=
  let payeeId := orNull providedPayeeId in
  if negb (truthy payeeId) && truthy payeeName
  then payee <- PayeeService.findOrCreatePayeeByName b (idOf payeeName) ;;
       ret (Some (payee_id payee))
  else ret payeeId.

(** Steps 3 and 4: payee and category of a non-transfer. *)
Definition validateNonTransfer (b : Id) (dto : CreateTransactionDto) : Tx unit :=
  resolvePayee b (c_payeeId dto) (c_payeeName dto) ;;;
  (if truthy (c_categoryId dto) && negb (c_isSplit dto)
   then validateCategory b (idOf (c_categoryId dto)) CategoryNotFoundInBudget
   else ret tt) ;;;
  throwIf (c_isSplit dto && truthy (c_categoryId dto)) 400 SplitHeaderCategory.

(** [tx.transaction.create({ data })]: the row gets a fresh id; the
    foreign keys of the payee and of the category are checked. *)
Definition createRow (data : Transaction) : Tx Transaction :=
  s <- gets (fun s => s) ;;
  let payeeOk :=
    match payeeId data with
    | Some p => existsb (fun r => bool_decide (payee_id r = p)) (payees s)
    | None => true
    end in
  let categoryOk :=
    match categoryId data with
    | Some c => bool_decide (is_Some (categories s !! c))
    | None => true
    end in
  throwIf (negb (payeeOk && categoryOk)) 500 StoreFailure ;;;
  let row :=
    {| id := uuid (map id (transactions s));
       date := date data; amount := amount data; memo := memo data;
       cleared := cleared data; approved := approved data;
       isTransfer := isTransfer data;
       transferAccountId := transferAccountId data;
       transferGroupId := transferGroupId data;
       isSplit := isSplit data; accountId := accountId data;
       payeeId := payeeId data; categoryId := categoryId data;
       budgetId := budgetId data;
       plaidTransactionId := plaidTransactionId data |} in
  modify (with_transactions (fun ts => ts ++ [row])) ;;;
  ret row.

Fixpoint createRows (rows : list Transaction) : Tx (list Transaction) :=
  match rows with
  | [] => ret []
  | txData :: rest =>
      createdTx <- createRow txData ;;
      others <- createRows rest ;;
      ret (createdTx :: others)
  end.

(** Step 5: the rows to create.  [commonData] is shared by all of them. *)
Definition transactionsToCreate (b : Id) (sourceAccount : Account)
    (destinationAccount : option Account) (groupId : option Id)
    (dto : CreateTransactionDto) : Tx (list Transaction) :=
  let commonData (aid : Id) (amt : Z) (payee cat other : option Id) :=
    {| id := EmptyString;
       date := c_date dto; amount := amt; memo := c_memo dto;
       cleared := default UNCLEARED (c_cleared dto);
       approved := default false (c_approved dto);
       isTransfer := c_isTransfer dto;
       transferAccountId := other;
       transferGroupId := groupId;
       isSplit := c_isSplit dto; accountId := aid;
       payeeId := payee; categoryId := cat;
       budgetId := b;
       plaidTransactionId := None |} in
  match c_isTransfer dto, destinationAccount with
  | true, Some dest =>
      ret [ commonData (c_accountId dto) (- Z.abs (c_amount dto)) None
              (if onBudget sourceAccount && negb (onBudget dest)
               then c_categoryId dto else None)
              (Some (idOf (c_transferAccountId dto)));
            commonData (idOf (c_transferAccountId dto)) (Z.abs (c_amount dto)) None
              (if negb (onBudget sourceAccount) && onBudget dest
               then c_categoryId dto else None)
              (Some (c_accountId dto)) ]
  | _, _ =>
      payeeId <- resolvePayee b (c_payeeId dto) (c_payeeName dto) ;;
      ret [ commonData (c_accountId dto) (c_amount dto) payeeId
              (if c_isSplit dto then None else c_categoryId dto)
              None ]
  end.

(** The loop of step 6; returns [splitTotal]. *)
Fixpoint createSplits (b txId : Id) (splits : list SplitDto) (splitTotal : Z)
    : Tx Z :=
  match splits with
  | [] => ret splitTotal
  | split :: rest =>
      validateCategory b (sd_categoryId split) SplitCategoryNotFound ;;;
      modify (with_splitTransactions
                (fun sps => sps ++ [ {| split_transactionId := txId;
                                        split_categoryId := sd_categoryId split;
                                        split_amount := sd_amount split;
                                        split_memo := sd_memo split |} ])) ;;;
      createSplits b txId rest (splitTotal + sd_amount split)
  end.

Definition createSplitTransactions (b : Id) (primaryTransaction : Transaction)
    (dto : CreateTransactionDto) : Tx unit :=
  if c_isSplit dto && negb (c_isTransfer dto) && (0 <? Z.of_nat (length (c_splits dto)))
  then
    splitTotal <- createSplits b (id primaryTransaction) (c_splits dto) 0 ;;
    throwIf (negb (splitTotal =? amount primaryTransaction)) 400 SplitSumMismatch
  else if c_isSplit dto && negb (c_isTransfer dto)
  then throw 400 SplitsRequired
  else ret tt.

(** Budget adjustments for a transaction on a credit-card account. *)
Definition adjustForCreditCard (b : Id) (primaryTransaction : Transaction)
    (year month : Z) : Tx unit :=
  account <- gets (fun s => accounts s !! accountId primaryTransaction) ;;
  match account with
  | Some a =>
      if bool_decide (account_type a = CREDIT_CARD) then
        if truthy (paymentCategoryId a) then
          let pc := idOf (paymentCategoryId a) in
          if negb (isTransfer primaryTransaction)
             && isNegative (amount primaryTransaction)
             && truthy (categoryId primaryTransaction)
          then
            if bool_decide (categoryId primaryTransaction <> paymentCategoryId a)
            then BudgetService.adjustBudgetsForCreditSpending b
                   (idOf (categoryId primaryTransaction)) pc
                   (Z.abs (amount primaryTransaction)) year month
            else ret tt
          else if negb (isTransfer primaryTransaction)
                  && isPositive (amount primaryTransaction)
          then
            let refundAmount := amount primaryTransaction in
            if truthy (categoryId primaryTransaction) then
              if bool_decide (categoryId primaryTransaction <> paymentCategoryId a)
              then BudgetService.handleCreditCardRefundToCategory b
                     (idOf (categoryId primaryTransaction)) pc refundAmount year month
              else BudgetService.handleCreditCardRefundToTBB b pc refundAmount year month
            else BudgetService.handleCreditCardRefundToTBB b pc refundAmount year month
          else ret tt
        else ret tt
      else ret tt
  | None => ret tt
  end.

(** Transfers to a credit card from a budget account (card payments). *)
Definition adjustForCardPayment (b : Id) (primaryTransaction : Transaction)
    (sourceAccount : Account) (destinationAccount : option Account)
    (createdTransactions : list Transaction) (dto : CreateTransactionDto)
    (year month : Z) : Tx unit :=
  match destinationAccount with
  | Some dest =>
      if isTransfer primaryTransaction
         && bool_decide (length createdTransactions = 2%nat)
      then
        if onBudget sourceAccount && bool_decide (account_type dest = CREDIT_CARD)
        then
          ccAccount <- gets (fun s => accounts s !! idOf (c_transferAccountId dto)) ;;
          match ccAccount with
          | Some cc =>
              if truthy (paymentCategoryId cc)
              then BudgetService.handleCreditCardPayment b
                     (idOf (paymentCategoryId cc)) (Z.abs (c_amount dto)) year month
              else ret tt
          | None => ret tt
          end
        else ret tt
      else ret tt
  | None => ret tt
  end.

Definition createTransactionBody (userId : Id) (dto : CreateTransactionDto)
    : Tx Created :=
  let transactionDate := c_date dto in
  groupId <- gets (fun s => if c_isTransfer dto
                            then Some (uuid (omap transferGroupId (transactions s)))
                            else None) ;;
  sourceAccount <- gets (fun s => accounts s !! c_accountId dto) ;;
  match sourceAccount with
  | None => throw 404 SourceAccountNotFound
  | Some sourceAccount =>
      budget <- gets (fun s => budgets s !! account_budgetId sourceAccount) ;;
      match budget with
      | None => throw 500 StoreFailure (* excluded by the foreign key *)
      | Some budget =>
          throwIf (bool_decide (budget_userId budget <> userId))
                  403 SourceAccountForbidden ;;;
          let b := account_budgetId sourceAccount in
          let year := getFullYear transactionDate in
          let month := getMonth transactionDate + 1 in
          destinationAccount <-
            (if c_isTransfer dto
             then dest <- validateTransfer b sourceAccount dto ;; ret (Some dest)
             else validateNonTransfer b dto ;;; ret None) ;;
          rows <- transactionsToCreate b sourceAccount destinationAccount groupId dto ;;
          createdTransactions <- createRows rows ;;
          match createdTransactions with
          | [] => throw 500 StoreFailure (* there is always a first row *)
          | primaryTransaction :: _ =>
              createSplitTransactions b primaryTransaction dto ;;;
              adjustForCreditCard b primaryTransaction year month ;;;
              adjustForCardPayment b primaryTransaction sourceAccount
                destinationAccount createdTransactions dto year month ;;;
              ret (if c_isTransfer dto
                   then Many createdTransactions
                   else One primaryTransaction)
          end
      end
  end.

Definition createTransaction (userId : Id) (dto : CreateTransactionDto)
    : Store -> Result Created * Store :=
  run (createTransactionBody userId dto).

(** The request of [updateTransaction].  An absent field is [None]; a
    field that is present may still hold [null] or an empty string. *)
Record UpdateTransactionDto : Type := mkUpdateDto {
  u_accountId : option Id;
  u_date : option Date;
  u_amount : option Z;
  u_payeeName : option (option string);
  u_payeeId : option (option Id);
  u_categoryId : option (option Id);
  u_cleared : option ClearedStatus;
  u_approved : option bool;
  u_memo : option (option string)
}.

(** [Prisma.TransactionUpdateInput] as built by [updateTransaction]. *)
Record TransactionUpdateInput : Type := mkUpdateInput {
  upd_date : option Date;
  upd_amount : option Z;
  upd_memo : option (option string);
  upd_cleared : option ClearedStatus;
  upd_approved : option bool;
  upd_payee : option (option Id);      (* connect: { id } *)
  upd_category : option (option Id);   (* connect: { id } or disconnect *)
  upd_account : option Id              (* connect: { id } *)
}.

Definition applyUpdate (data : TransactionUpdateInput) (t : Transaction) : Transaction :=
  {| id := id t;
     date := default (date t) (upd_date data);
     amount := default (amount t) (upd_amount data);
     memo := default (memo t) (upd_memo data);
     cleared := default (cleared t) (upd_cleared data);
     approved := default (approved t) (upd_approved data);
     isTransfer := isTransfer t;
     transferAccountId := transferAccountId t;
     transferGroupId := transferGroupId t;
     isSplit := isSplit t;
     accountId := default (accountId t) (upd_account data);
     payeeId := default (payeeId t) (upd_payee data);
     categoryId := default (categoryId t) (upd_category data);
     budgetId := budgetId t;
     plaidTransactionId := plaidTransactionId t |}.

(** [tx.transaction.update({ where: { id }, data })].  Connecting a payee
    needs an id of an existing payee. *)
Definition updateRow (transactionId : Id) (data : TransactionUpdateInput)
    (existingTransaction : Transaction) : Tx Transaction :=
  s <- gets (fun s => s) ;;
  let payeeOk :=
    match upd_payee data with
    | Some (Some p) => existsb (fun r => bool_decide (payee_id r = p)) (payees s)
    | Some None => false
    | None => true
    end in
  throwIf (negb payeeOk) 500 StoreFailure ;;;
  modify (with_transactions
            (map (fun t => if bool_decide (id t = transactionId)
                           then applyUpdate data t else t))) ;;;
  ret (applyUpdate data existingTransaction).

Definition revertOld (b : Id) (oldCcBudgetType : CcBudgetType)
    (existingTransaction : Transaction) (existingAccount : Account)
    (existingYear existingMonth : Z) : Tx unit :=
  if bool_decide (oldCcBudgetType <> NONE) then
    let oldPaymentCategoryId := paymentCategoryId existingAccount in
    if truthy oldPaymentCategoryId then
      let oldAmount := Z.abs (amount existingTransaction) in
      match oldCcBudgetType with
      | SPENDING =>
          BudgetService.revertBudgetAdjustmentForCreditSpending b
            (idOf (categoryId existingTransaction)) (idOf oldPaymentCategoryId)
            oldAmount existingYear existingMonth
      | REFUND_TO_CAT =>
          BudgetService.revertCreditCardRefundToCategory b
            (idOf (categoryId existingTransaction)) (idOf oldPaymentCategoryId)
            oldAmount existingYear existingMonth
      | REFUND_TO_TBB =>
          BudgetService.revertCreditCardRefundToTBB b (idOf oldPaymentCategoryId)
            oldAmount existingYear existingMonth
      | _ => ret tt
      end
    else ret tt
  else ret tt.

Definition applyNew (b : Id) (newCcBudgetType : CcBudgetType)
    (updatedTransaction : Transaction) (finalAccount : Account)
    (finalYear finalMonth : Z) : Tx unit :=
  if bool_decide (newCcBudgetType <> NONE) then
    let newPaymentCategoryId := paymentCategoryId finalAccount in
    if truthy newPaymentCategoryId then
      let newAmount := Z.abs (amount updatedTransaction) in
      match newCcBudgetType with
      | SPENDING =>
          BudgetService.adjustBudgetsForCreditSpending b
            (idOf (categoryId updatedTransaction)) (idOf newPaymentCategoryId)
            newAmount finalYear finalMonth
      | REFUND_TO_CAT =>
          BudgetService.handleCreditCardRefundToCategory b
            (idOf (categoryId updatedTransaction)) (idOf newPaymentCategoryId)
            newAmount finalYear finalMonth
      | REFUND_TO_TBB =>
          BudgetService.handleCreditCardRefundToTBB b (idOf newPaymentCategoryId)
            newAmount finalYear finalMonth
      | _ => ret tt
      end
    else ret tt
  else ret tt.

Definition findTransaction (transactionId : Id) (s : Store) : option Transaction :=
  find (fun t => bool_decide (id t = transactionId)) (transactions s).

Definition updateTransactionBody (userId transactionId : Id)
    (updateDto : UpdateTransactionDto) : Tx Transaction :=
  existingTransaction <- gets (findTransaction transactionId) ;;
  match existingTransaction with
  | None => throw 404 TransactionNotFound
  | Some existingTransaction =>
  existingAccount <- gets (fun s => accounts s !! accountId existingTransaction) ;;
  match existingAccount with
  | None => throw 404 TransactionNotFound
  | Some existingAccount =>
  budget <- gets (fun s => budgets s !! budgetId existingTransaction) ;;
  match budget with
  | None => throw 500 StoreFailure (* excluded by the foreign key *)
  | Some budget =>
      throwIf (bool_decide (budget_userId budget <> userId)) 403 TransactionForbidden ;;;
      let b := budgetId existingTransaction in
      let existingYear := getFullYear (date existingTransaction) in
      let existingMonth := getMonth (date existingTransaction) + 1 in
      let oldCcBudgetType := getCcBudgetType existingTransaction (Some existingAccount) in
      (* payee *)
      payee <-
        (if bool_decide (is_Some (u_payeeId updateDto))
            || bool_decide (is_Some (u_payeeName updateDto))
         then
           p <- resolvePayee b (mjoin (u_payeeId updateDto))
                  (mjoin (u_payeeName updateDto)) ;;
           ret (Some p)
         else ret None) ;;
      (* category, only if not split *)
      category <-
        (match u_categoryId updateDto with
         | Some c =>
             if negb (isSplit existingTransaction) then
               if truthy c
               then validateCategory b (idOf c) CategoryNotFoundInBudget ;;;
                    ret (Some (Some (idOf c)))
               else ret (Some None)
             else ret None
         | None => ret None
         end) ;;
      (* account *)
      account <-
        (match u_accountId updateDto with
         | Some aid =>
             if bool_decide (aid <> accountId existingTransaction) then
               potentiallyNewAccount <- gets (fun s => accounts s !! aid) ;;
               match potentiallyNewAccount with
               | None => throw 403 NewAccountInvalid
               | Some a =>
                   throwIf (bool_decide (account_budgetId a <> b)) 403 NewAccountInvalid ;;;
                   ret (Some aid, a)
               end
             else ret (None, existingAccount)
         | None => ret (None, existingAccount)
         end) ;;
      let finalAccount := snd account in
      throwIf (bool_decide (is_Some (u_amount updateDto)) && isSplit existingTransaction)
              400 SplitAmountChange ;;;
      let dataToUpdate :=
        {| upd_date := u_date updateDto;
           upd_amount := u_amount updateDto;
           upd_memo := u_memo updateDto;
           upd_cleared := u_cleared updateDto;
           upd_approved := u_approved updateDto;
           upd_payee := payee;
           upd_category := category;
           upd_account := fst account |} in
      updatedTransaction <- updateRow transactionId dataToUpdate existingTransaction ;;
      let newCcBudgetType := getCcBudgetType updatedTransaction (Some finalAccount) in
      let finalYear := getFullYear (date updatedTransaction) in
      let finalMonth := getMonth (date updatedTransaction) + 1 in
      revertOld b oldCcBudgetType existingTransaction existingAccount
        existingYear existingMonth ;;;
      applyNew b newCcBudgetType updatedTransaction finalAccount finalYear finalMonth ;;;
      ret updatedTransaction
  end end end.

Definition updateTransaction (userId transactionId : Id)
    (updateDto : UpdateTransactionDto) : Store -> Result Transaction * Store :=
  run (updateTransactionBody userId transactionId updateDto).

(** The reversal of the budget adjustments in [deleteTransaction]. *)
Definition revertOnDelete (existingTransaction : Transaction)
    (account1 account2 : option Account) (year month : Z) : Tx unit :=
  let isCard (a : option Account) :=
    match a with
    | Some a => bool_decide (account_type a = CREDIT_CARD)
    | None => false
    end in
  let b := budgetId existingTransaction in
  if negb (isTransfer existingTransaction) && isCard account1
     && isNegative (amount existingTransaction)
     && truthy (categoryId existingTransaction)
  then
    let pc := account1 ≫= paymentCategoryId in
    if truthy pc && bool_decide (categoryId existingTransaction <> pc)
    then BudgetService.revertBudgetAdjustmentForCreditSpending b
           (idOf (categoryId existingTransaction)) (idOf pc)
           (Z.abs (amount existingTransaction)) year month
    else ret tt
  else if negb (isTransfer existingTransaction) && isCard account1
          && isPositive (amount existingTransaction)
  then
    let pc := account1 ≫= paymentCategoryId in
    if truthy pc then
      let refundAmount := amount existingTransaction in
      if truthy (categoryId existingTransaction) then
        if bool_decide (categoryId existingTransaction <> pc)
        then BudgetService.revertCreditCardRefundToCategory b
               (idOf (categoryId existingTransaction)) (idOf pc) refundAmount year month
        else BudgetService.revertCreditCardRefundToTBB b (idOf pc) refundAmount year month
      else BudgetService.revertCreditCardRefundToTBB b (idOf pc) refundAmount year month
    else ret tt
  else
    match account1, account2 with
    | Some a1, Some a2 =>
        if isTransfer existingTransaction then
          let paymentAmount := Z.abs (amount existingTransaction) in
          let pc :=
            if bool_decide (account_type a1 = CREDIT_CARD) && onBudget a2
            then paymentCategoryId a1
            else if onBudget a1 && bool_decide (account_type a2 = CREDIT_CARD)
            then paymentCategoryId a2
            else None in
          if truthy pc
          then BudgetService.revertCreditCardPayment b (idOf pc) paymentAmount year month
          else ret tt
        else ret tt
    | _, _ => ret tt
    end.

Definition deleteTransactionBody (userId transactionId : Id) : Tx unit :=
  existingTransaction <- gets (findTransaction transactionId) ;;
  match existingTransaction with
  | None => throw 404 TransactionNotFound
  | Some existingTransaction =>
  budget <- gets (fun s => budgets s !! budgetId existingTransaction) ;;
  match budget with
  | None => throw 500 StoreFailure (* excluded by the foreign key *)
  | Some budget =>
      throwIf (bool_decide (budget_userId budget <> userId)) 403 TransactionForbidden ;;;
      pairedTransactionId <-
        gets (fun s =>
                if isTransfer existingTransaction
                   && truthy (transferGroupId existingTransaction)
                then orNull
                       (id <$> find (fun t =>
                                       bool_decide (transferGroupId t
                                                    = transferGroupId existingTransaction)
                                       && bool_decide (id t <> transactionId))
                                    (transactions s))
                else None) ;;
      let idsToDelete :=
        transactionId :: match pairedTransactionId with
                         | Some p => [p]
                         | None => []
                         end in
      let year := getFullYear (date existingTransaction) in
      let month := getMonth (date existingTransaction) + 1 in
      account1 <- gets (fun s => accounts s !! accountId existingTransaction) ;;
      account2 <-
        gets (fun s => if truthy pairedTransactionId
                       then accounts s !! idOf (transferAccountId existingTransaction)
                       else None) ;;
      revertOnDelete existingTransaction account1 account2 year month ;;;
      modify (with_splitTransactions
                (filter (fun sp => split_transactionId sp ∉ idsToDelete))) ;;;
      modify (with_transactions (filter (fun t => id t ∉ idsToDelete)))
  end end.

Definition deleteTransaction (userId transactionId : Id)
    : Store -> Result unit * Store :=
  run (deleteTransactionBody userId transactionId).

(** [getTransactions]: the rows of the budget, of one account when
    [accountId] is given.  The query asks for
    [include: { payee: true, category: true, splits: true } as any], and
    the Transaction model has no relation [splits], so the client refuses
    it as it refuses the query of the budget view. *)
Definition getTransactionsBody (userId b : Id) (accountId_ : option Id)
    : Tx (list (Transaction * list SplitTransaction)) :=
  BudgetService.getBudgetById userId b ;;;
  (if truthy accountId_
   then AccountService.getAccountByIdBody userId (idOf accountId_) ;;; ret tt
   else ret tt) ;;;
  throw 500 UnknownInclude.

Definition getTransactions (userId b : Id) (accountId_ : option Id)
    : Store -> Result (list (Transaction * list SplitTransaction)) * Store :=
  run (getTransactionsBody userId b accountId_).

End TransactionService.


(** ** Vocabulary of the properties *)

(** The entries table after [getOrCreateBudgetEntry] on key [k]. *)
Definition ensureM (k : EntryKey) (es : gmap EntryKey Z) : gmap EntryKey Z :=
  match es !! k with Some _ => es | None => <[k := 0]> es end.

Definition bumpM (k : EntryKey) (d : Z) (es : gmap EntryKey Z) : gmap EntryKey Z :=
  <[k := default 0 (es !! k) + d]> es.

Definition bump (k : EntryKey) (d : Z) (s : Store) : Store :=
  with_budgetEntries (bumpM k d) s.

Definition ensureEntry (k : EntryKey) (s : Store) : Store :=
  with_budgetEntries (ensureM k) s.

(** [amount.isNegative() || amount.isZero()] *)
Definition nonPositive (a : Z) : bool := (a <? 0) || (a =? 0).

Definition ownsBudget (s : Store) (userId b : Id) : bool :=
  match budgets s !! b with
  | Some bg => bool_decide (budget_userId bg = userId)
  | None => false
  end.


(** The sum of a list of amounts. *)
Definition sumZ (l : list Z) : Z := foldr Z.add 0 l.

(** The ownership chain checked by [CategoryService.getCategoryById]. *)
Definition categoryOwned (s : Store) (userId b gid cid : Id) : bool :=
  ownsBudget s userId b
  && match categoryGroups s !! gid with
     | Some g => bool_decide (group_budgetId g = b)
     | None => false
     end
  && match categories s !! cid with
     | Some c => bool_decide (categoryGroupId c = gid)
     | None => false
     end.

(** The shape of a stored goal: the fields of its type hold a value, the
    other type-specific fields are null. *)
Definition goalShape (g : Goal) : Prop :=
  match goal_type g with
  | TARGET_BALANCE =>
      (exists a, targetAmount g = Some a /\ 0 < a)
      /\ targetDate g = None /\ monthlyFundingAmount g = None
  | TARGET_BALANCE_BY_DATE =>
      (exists a, targetAmount g = Some a /\ 0 < a)
      /\ (exists d, targetDate g = Some d /\ d <> EmptyString)
      /\ monthlyFundingAmount g = None
  | MONTHLY_FUNDING =>
      (exists a, monthlyFundingAmount g = Some a /\ 0 < a)
      /\ targetAmount g = None /\ targetDate g = None
  end.

(** The request lacks the field required by its type. *)
Definition missingRequired (dto : GoalService.UpsertGoalDto) : Prop :=
  match GoalService.dto_type dto with
  | GoalService.Known TARGET_BALANCE => GoalService.dto_targetAmount dto = None
  | GoalService.Known TARGET_BALANCE_BY_DATE =>
      GoalService.dto_targetAmount dto = None \/ GoalService.dto_targetDate dto = None
  | GoalService.Known MONTHLY_FUNDING => GoalService.dto_monthlyFundingAmount dto = None
  | GoalService.Unsupported => False
  end.

(** The two rows persisted for a transfer request from account [a] to
    account [dest]. *)
Definition transferSourceRow (s : Store) (a dest : Account)
    (dto : TransactionService.CreateTransactionDto) : Transaction :=
  {| id := uuid (map id (transactions s));
     date := TransactionService.c_date dto;
     amount := - Z.abs (TransactionService.c_amount dto);
     memo := TransactionService.c_memo dto;
     cleared := default UNCLEARED (TransactionService.c_cleared dto);
     approved := default false (TransactionService.c_approved dto);
     isTransfer := true;
     transferAccountId :=
       Some (TransactionService.idOf (TransactionService.c_transferAccountId dto));
     transferGroupId := Some (uuid (omap transferGroupId (transactions s)));
     isSplit := TransactionService.c_isSplit dto;
     accountId := TransactionService.c_accountId dto;
     payeeId := None;
     categoryId := if onBudget a && negb (onBudget dest)
                   then TransactionService.c_categoryId dto else None;
     budgetId := account_budgetId a;
     plaidTransactionId := None |}.

Definition transferDestinationRow (s : Store) (a dest : Account)
    (dto : TransactionService.CreateTransactionDto) : Transaction :=
  {| id := uuid (map id (transactions s ++ [transferSourceRow s a dest dto]));
     date := TransactionService.c_date dto;
     amount := Z.abs (TransactionService.c_amount dto);
     memo := TransactionService.c_memo dto;
     cleared := default UNCLEARED (TransactionService.c_cleared dto);
     approved := default false (TransactionService.c_approved dto);
     isTransfer := true;
     transferAccountId := Some (TransactionService.c_accountId dto);
     transferGroupId := Some (uuid (omap transferGroupId (transactions s)));
     isSplit := TransactionService.c_isSplit dto;
     accountId := TransactionService.idOf (TransactionService.c_transferAccountId dto);
     payeeId := None;
     categoryId := if negb (onBudget a) && onBudget dest
                   then TransactionService.c_categoryId dto else None;
     budgetId := account_budgetId a;
     plaidTransactionId := None |}.

(** The foreign key of an optional category reference. *)
Definition categoryRefOk (s : Store) (c : option Id) : bool :=
  match c with
  | Some c => bool_decide (is_Some (categories s !! c))
  | None => true
  end.

(** A transfer request that passed the checks of its accounts: the source
    account is owned by the caller, the destination is given, differs from
    the source and lies in the same budget. *)
Definition transferAccountsOk (s : Store) (userId : Id)
    (dto : TransactionService.CreateTransactionDto) (a dest : Account) : Prop :=
  TransactionService.c_isTransfer dto = true
  /\ accounts s !! TransactionService.c_accountId dto = Some a
  /\ ownsBudget s userId (account_budgetId a) = true
  /\ truthy (TransactionService.c_transferAccountId dto) = true
  /\ TransactionService.idOf (TransactionService.c_transferAccountId dto)
     <> TransactionService.c_accountId dto
  /\ accounts s !! TransactionService.idOf (TransactionService.c_transferAccountId dto)
     = Some dest
  /\ account_budgetId dest = account_budgetId a.

(** The payment category linked to an account belongs to the budget of the
    account (established by account creation). *)
Definition paymentLinksOk (s : Store) : Prop :=
  forall aid acc,
    accounts s !! aid = Some acc ->
    truthy (paymentCategoryId acc) = true ->
    categoryInBudget s (TransactionService.idOf (paymentCategoryId acc))
      (account_budgetId acc) = true.

(** The card-payment adjustment of a transfer: the effect of the block
    "Handle Transfers TO Credit Card" on the store [s2] that holds the pair. *)
Definition transferPayment (s2 : Store) (a dest : Account)
    (dto : TransactionService.CreateTransactionDto) : Result (unit * Store) :=
  if onBudget a && bool_decide (account_type dest = CREDIT_CARD)
  then if truthy (paymentCategoryId dest)
       then BudgetService.handleCreditCardPayment (account_budgetId a)
              (TransactionService.idOf (paymentCategoryId dest))
              (Z.abs (TransactionService.c_amount dto))
              (getFullYear (TransactionService.c_date dto))
              (getMonth (TransactionService.c_date dto) + 1) s2
       else Ok (tt, s2)
  else Ok (tt, s2).

(** Referential integrity of the SplitTransaction table: every split row
    belongs to a stored transaction. *)
Definition splitsLinked (s : Store) : Prop :=
  forall sp, sp ∈ splitTransactions s ->
             exists t, t ∈ transactions s /\ id t = split_transactionId sp.

(** A credit-card account with a linked payment category. *)
Definition cardWithPayment (a : Account) : Prop :=
  account_type a = CREDIT_CARD /\ truthy (paymentCategoryId a) = true.


(** ** Example stores *)

(** The store of the example: a budget of user [u] with the categories [A]
    (30 assigned in April 2024) and [B] (nothing assigned). *)
Definition moveStore : Store :=
  {| budgets := {[ "b" := mkBudget "Home" "u" ]};
     accounts := ∅;
     categoryGroups := {[ "g" := mkCategoryGroup "Everyday" "b" ]};
     categories := {[ "A" := mkCategory "Groceries" "g"; "B" := mkCategory "Rent" "g" ]};
     goals := ∅;
     budgetEntries := {[ ("A", 2024, 4) := 30 ]};
     payees := [];
     transactions := [];
     splitTransactions := [] |}.


(** An account with three transactions: cleared 100, uncleared -40 and
    reconciled 5, and stored balance columns that were never refreshed. *)
Definition balanceTx (i : Id) (a : Z) (c : ClearedStatus) : Transaction :=
  {| id := i; date := newDate 2024 3; amount := a; memo := None; cleared := c;
     approved := true; isTransfer := false; transferAccountId := None;
     transferGroupId := None; isSplit := false; accountId := "acc";
     payeeId := None; categoryId := None; budgetId := "b";
     plaidTransactionId := None |}.

Definition balanceStore : Store :=
  {| budgets := {[ "b" := mkBudget "Home" "u" ]};
     accounts := {[ "acc" := mkAccount "Checking" CHECKING true 999 999 999 false "b" None None None ]};
     categoryGroups := ∅; categories := ∅; goals := ∅; budgetEntries := ∅;
     payees := [];
     transactions := [ balanceTx "t1" 100 CLEARED; balanceTx "t2" (-40) UNCLEARED;
                       balanceTx "t3" 5 RECONCILED ];
     splitTransactions := [] |}.

(** A monthly-funding request that also carries a target amount and date. *)
Definition fundingDto : GoalService.UpsertGoalDto :=
  GoalService.mkGoalDto (Some "Rent") (GoalService.Known MONTHLY_FUNDING)
    (Some 500) (Some "2025-01-01") (Some 100).

(** A budget in April 2024 with plain income of 1000, a split inflow of 100
    (its header has no category; its two children are categorised), an
    outflow of 60 on Groceries, and 200 assigned to Groceries. *)
Definition viewTx (i : Id) (a : Z) (split : bool) (cat : option Id) : Transaction :=
  {| id := i; date := newDate 2024 3; amount := a; memo := None; cleared := CLEARED;
     approved := true; isTransfer := false; transferAccountId := None;
     transferGroupId := None; isSplit := split; accountId := "acc";
     payeeId := None; categoryId := cat; budgetId := "b";
     plaidTransactionId := None |}.

Definition viewStore : Store :=
  {| budgets := {[ "b" := mkBudget "Home" "u" ]};
     accounts := {[ "acc" := mkAccount "Checking" CHECKING true 0 0 0 false "b" None None None ]};
     categoryGroups := {[ "g" := mkCategoryGroup "Everyday" "b" ]};
     categories := {[ "A" := mkCategory "Groceries" "g"; "B" := mkCategory "Rent" "g" ]};
     goals := ∅;
     budgetEntries := {[ ("A", 2024, 4) := 200 ]};
     payees := [];
     transactions := [ viewTx "t1" 1000 false None; viewTx "t2" 100 true None;
                       viewTx "t3" (-60) false (Some "A") ];
     splitTransactions := [ mkSplit "t2" "A" 70 None; mkSplit "t2" "B" 30 None ] |}.

(** A budget with a checking account, a credit card linked to the payment
    category [P], a tracking account, and 200 assigned to Groceries ([A]) in
    April 2024. *)
Definition cardStore : Store :=
  {| budgets := {[ "b" := mkBudget "Home" "u" ]};
     accounts := {[ "chk" := mkAccount "Checking" CHECKING true 0 0 0 false "b" None None None;
                    "cc" := mkAccount "Visa" CREDIT_CARD true 0 0 0 false "b" (Some "P") None None;
                    "inv" := mkAccount "Broker" INVESTMENT false 0 0 0 false "b" None None None;
                    "mtg" := mkAccount "Mortgage" MORTGAGE false 0 0 0 false "b" None None None ]};
     categoryGroups := {[ "g" := mkCategoryGroup "Everyday" "b";
                          "pg" := mkCategoryGroup "Credit Card Payments" "b" ]};
     categories := {[ "A" := mkCategory "Groceries" "g";
                      "B" := mkCategory "Rent" "g";
                      "P" := mkCategory "Visa Payments" "pg" ]};
     goals := ∅;
     budgetEntries := {[ ("A", 2024, 4) := 200 ]};
     payees := [];
     transactions := [];
     splitTransactions := [] |}.

Definition plainDto (account : Id) (amt : Z) (cat : option Id)
    : TransactionService.CreateTransactionDto :=
  {| TransactionService.c_accountId := account;
     TransactionService.c_date := newDate 2024 3;
     TransactionService.c_amount := amt;
     TransactionService.c_payeeName := None;
     TransactionService.c_payeeId := None;
     TransactionService.c_categoryId := cat;
     TransactionService.c_cleared := None;
     TransactionService.c_approved := None;
     TransactionService.c_memo := None;
     TransactionService.c_isTransfer := false;
     TransactionService.c_transferAccountId := None;
     TransactionService.c_isSplit := false;
     TransactionService.c_splits := [] |}.

Definition transferDto (from to : Id) (amt : Z) (cat : option Id) (split : bool)
    (splits : list TransactionService.SplitDto)
    : TransactionService.CreateTransactionDto :=
  {| TransactionService.c_accountId := from;
     TransactionService.c_date := newDate 2024 3;
     TransactionService.c_amount := amt;
     TransactionService.c_payeeName := None;
     TransactionService.c_payeeId := None;
     TransactionService.c_categoryId := cat;
     TransactionService.c_cleared := None;
     TransactionService.c_approved := None;
     TransactionService.c_memo := None;
     TransactionService.c_isTransfer := true;
     TransactionService.c_transferAccountId := Some to;
     TransactionService.c_isSplit := split;
     TransactionService.c_splits := splits |}.

Definition splitDto (account : Id) (amt : Z) (splits : list TransactionService.SplitDto)
    : TransactionService.CreateTransactionDto :=
  {| TransactionService.c_accountId := account;
     TransactionService.c_date := newDate 2024 3;
     TransactionService.c_amount := amt;
     TransactionService.c_payeeName := None;
     TransactionService.c_payeeId := None;
     TransactionService.c_categoryId := None;
     TransactionService.c_cleared := None;
     TransactionService.c_approved := None;
     TransactionService.c_memo := None;
     TransactionService.c_isTransfer := false;
     TransactionService.c_transferAccountId := None;
     TransactionService.c_isSplit := true;
     TransactionService.c_splits := splits |}.

(** Update requests on the first transaction of [balanceStore]: a new amount,
    and a payee given by a name that is not known yet. *)
Definition emptyUpdate : TransactionService.UpdateTransactionDto :=
  {| TransactionService.u_accountId := None;
     TransactionService.u_date := None;
     TransactionService.u_amount := None;
     TransactionService.u_payeeName := None;
     TransactionService.u_payeeId := None;
     TransactionService.u_categoryId := None;
     TransactionService.u_cleared := None;
     TransactionService.u_approved := None;
     TransactionService.u_memo := None |}.

Definition amountUpdate (amt : Z) : TransactionService.UpdateTransactionDto :=
  {| TransactionService.u_accountId := None;
     TransactionService.u_date := None;
     TransactionService.u_amount := Some amt;
     TransactionService.u_payeeName := None;
     TransactionService.u_payeeId := None;
     TransactionService.u_categoryId := None;
     TransactionService.u_cleared := None;
     TransactionService.u_approved := None;
     TransactionService.u_memo := None |}.

Definition payeeUpdate (name : string) : TransactionService.UpdateTransactionDto :=
  {| TransactionService.u_accountId := None;
     TransactionService.u_date := None;
     TransactionService.u_amount := None;
     TransactionService.u_payeeName := Some (Some name);
     TransactionService.u_payeeId := None;
     TransactionService.u_categoryId := None;
     TransactionService.u_cleared := None;
     TransactionService.u_approved := None;
     TransactionService.u_memo := None |}.

Definition twoSplits : list TransactionService.SplitDto :=
  [ TransactionService.mkSplitDto "A" (-70) None;
    TransactionService.mkSplitDto "B" (-30) None ].

(** ** Vocabulary of the further properties *)

(** The group that holds the payment categories of a budget, when there is
    one: the group found by [createAccount]. *)
Definition paymentGroupOf (s : Store) (b : Id) : option (Id * CategoryGroup) :=
  find (fun g => bool_decide (group_budgetId (snd g) = b)
                 && bool_decide (group_name (snd g) = AccountService.paymentGroupName))
       (map_to_list (categoryGroups s)).

(** The foreign key of [Transaction.accountId]: every transaction belongs
    to a stored account. *)
Definition transactionsLinked (s : Store) : Prop :=
  forall t, t ∈ transactions s -> is_Some (accounts s !! accountId t).

(** The constraints of the Payee table: the primary key, and
    [@@unique([budgetId, name])]. *)
Definition payeeIdsUnique (s : Store) : Prop := NoDup (map payee_id (payees s)).

Definition payeeKey (p : Payee) : Id * string := (payee_budgetId p, payee_name p).

Definition payeeNamesUnique (s : Store) : Prop := NoDup (map payeeKey (payees s)).

(** The ownership chain checked by [getCategoryGroupById]: the group is
    one of the caller's budget [b]. *)
Definition groupOwned (s : Store) (userId b gid : Id) : bool :=
  ownsBudget s userId b
  && match categoryGroups s !! gid with
     | Some g => bool_decide (group_budgetId g = b)
     | None => false
     end.

(** ** Further example stores *)

(** A budget of user [u] with the payees Grocer and Baker. *)
Definition payeeStore : Store :=
  {| budgets := {[ "b" := mkBudget "Home" "u" ]};
     accounts := ∅; categoryGroups := ∅; categories := ∅; goals := ∅;
     budgetEntries := ∅;
     payees := [ mkPayee "p1" "Grocer" "b"; mkPayee "p2" "Baker" "b" ];
     transactions := [];
     splitTransactions := [] |}.

(** A request for a credit card with an initial balance of -120. *)
Definition cardDto : AccountService.CreateAccountDto :=
  AccountService.mkCreateAccount "Amex" CREDIT_CARD (Some (-120)) "b" None None None.


(** A refund of 30 on the credit card of [cardStore], without a category. *)
Definition cardRefund : Transaction :=
  {| id := "t9"; date := newDate 2024 3; amount := 30; memo := None;
     cleared := CLEARED; approved := true; isTransfer := false;
     transferAccountId := None; transferGroupId := None;
     isSplit := false; accountId := "cc"; payeeId := None;
     categoryId := None; budgetId := "b"; plaidTransactionId := None |}.

Definition visa : Account :=
  mkAccount "Visa" CREDIT_CARD true 0 0 0 false "b" (Some "P") None None.



(** A no-break space (U+00A0) in UTF-8. *)
Definition nbsp : string := PayeeService.stringOf [194; 160]%N.

(** * Properties *)

(** ** Reasoning principles for the monad *)

Lemma throwIf_Ok cond code m s r :
  throwIf cond code m s = Ok r <-> cond = false /\ r = (tt, s).
Proof.
  unfold throwIf, throw, ret. destruct cond; split; intros H.
  - discriminate.
  - destruct H; discriminate.
  - inversion H; auto.
  - destruct H as [_ ->]. reflexivity.
Qed.


Lemma with_budgetEntries_ext f g s :
  f (budgetEntries s) = g (budgetEntries s) ->
  with_budgetEntries f s = with_budgetEntries g s.
Proof. intros H. unfold with_budgetEntries. rewrite H. reflexivity. Qed.

Lemma lookup_ensureM k es i :
  ensureM k es !! i = if decide (k = i) then Some (default 0 (es !! k)) else es !! i.
Proof.
  unfold ensureM. destruct (es !! k) eqn:E.
  - destruct (decide (k = i)); subst; simpl; congruence.
  - rewrite lookup_insert. destruct (decide (k = i)); reflexivity.
Qed.

Lemma lookup_bumpM k d es i :
  bumpM k d es !! i = if decide (k = i) then Some (default 0 (es !! k) + d) else es !! i.
Proof. unfold bumpM. apply lookup_insert. Qed.

Lemma alter_ensureM k d es :
  alter (fun a => a + d) k (ensureM k es) = bumpM k d es.
Proof.
  apply map_eq; intros i. rewrite lookup_bumpM.
  destruct (decide (k = i)) as [<-|N].
  - rewrite lookup_alter_eq, lookup_ensureM. rewrite decide_True by reflexivity. reflexivity.
  - rewrite lookup_alter_ne by exact N. rewrite lookup_ensureM.
    rewrite decide_False by exact N. reflexivity.
Qed.

Lemma categoryInBudget_entries f s c b :
  categoryInBudget (with_budgetEntries f s) c b = categoryInBudget s c b.
Proof. reflexivity. Qed.

Section BudgetEntries.
Import BudgetService.

Lemma getOrCreateBudgetEntry_eq b c y m s :
  getOrCreateBudgetEntry b c y m s =
  if categoryInBudget s c b
  then Ok (((c, y, m), assignedOf s c y m), ensureEntry (c, y, m) s)
  else Throw (HttpError 404 CategoryNotFoundInBudget).
Proof.
  unfold getOrCreateBudgetEntry, bind, gets, throwIf, throw, ret, modify,
    assignedOf, ensureEntry, ensureM, with_budgetEntries.
  destruct (categoryInBudget s c b); cbn [negb]; [|reflexivity].
  destruct s as [bs acs gs cs gl es ps ts sps].
  cbn [budgets accounts categoryGroups categories goals budgetEntries payees
       transactions splitTransactions].
  destruct (es !! (c, y, m)); reflexivity.
Qed.

Lemma incrementEntry_eq k d s :
  incrementEntry k d s = Ok (tt, with_budgetEntries (alter (fun a => a + d) k) s).
Proof. reflexivity. Qed.

End BudgetEntries.

Ltac entries_eq :=
  apply map_eq; intros ?;
  repeat (rewrite ?lookup_alter, ?lookup_bumpM, ?lookup_ensureM, ?lookup_alter,
            ?lookup_insert);
  repeat (case_decide; subst; simpl in *; try congruence);
  rewrite ?lookup_alter, ?lookup_bumpM, ?lookup_ensureM;
  repeat (case_decide; subst; simpl in *; try congruence);
  try (destruct (_ !! _); simpl; f_equal; lia).

Section EntryMoves.
Import BudgetService.

Lemma with_budgetEntries_compose f g s :
  with_budgetEntries f (with_budgetEntries g s) = with_budgetEntries (fun es => f (g es)) s.
Proof. reflexivity. Qed.

Lemma single_move b pc d y m s :
  bind (getOrCreateBudgetEntry b pc y m)
       (fun paymentEntry => incrementEntry (fst paymentEntry) d) s =
  if categoryInBudget s pc b
  then Ok (tt, bump (pc, y, m) d s)
  else Throw (HttpError 404 CategoryNotFoundInBudget).
Proof.
  unfold bind. rewrite getOrCreateBudgetEntry_eq.
  destruct (categoryInBudget s pc b); [|reflexivity].
  cbn [fst snd]. rewrite incrementEntry_eq. do 2 f_equal.
  unfold ensureEntry, bump. rewrite with_budgetEntries_compose.
  apply with_budgetEntries_ext. apply alter_ensureM.
Qed.

Lemma pair_move b sc pc d1 d2 y m s :
  sc <> pc ->
  bind (getOrCreateBudgetEntry b sc y m)
       (fun spendingEntry =>
          bind (getOrCreateBudgetEntry b pc y m)
               (fun paymentEntry =>
                  bind (incrementEntry (fst spendingEntry) d1)
                       (fun _ => incrementEntry (fst paymentEntry) d2))) s =
  if categoryInBudget s sc b
  then if categoryInBudget s pc b
       then Ok (tt, bump (pc, y, m) d2 (bump (sc, y, m) d1 s))
       else Throw (HttpError 404 CategoryNotFoundInBudget)
  else Throw (HttpError 404 CategoryNotFoundInBudget).
Proof.
  intros N. unfold bind at 1. rewrite getOrCreateBudgetEntry_eq.
  destruct (categoryInBudget s sc b) eqn:E1; [|reflexivity].
  unfold bind at 1. rewrite getOrCreateBudgetEntry_eq.
  unfold ensureEntry at 1. rewrite categoryInBudget_entries.
  destruct (categoryInBudget s pc b) eqn:E2; [|reflexivity].
  cbn [fst snd]. unfold bind. rewrite !incrementEntry_eq. do 2 f_equal.
  unfold ensureEntry, bump. rewrite !with_budgetEntries_compose.
  apply with_budgetEntries_ext.
  assert (K : (sc, y, m) <> (pc, y, m)) by congruence.
  entries_eq.
Qed.
End EntryMoves.

Section Adjustments.
Import BudgetService.

Lemma adjustBudgetsForCreditSpending_eq b sc pc a y m s :
  adjustBudgetsForCreditSpending b sc pc a y m s =
  if nonPositive a then Ok (tt, s)
  else if bool_decide (sc = pc) then Ok (tt, s)
  else if categoryInBudget s sc b
  then if categoryInBudget s pc b
       then Ok (tt, bump (pc, y, m) (Z.min a (Z.max 0 (assignedOf s sc y m)))
                      (bump (sc, y, m) (- a) s))
       else Throw (HttpError 404 CategoryNotFoundInBudget)
  else Throw (HttpError 404 CategoryNotFoundInBudget).
Proof.
  unfold adjustBudgetsForCreditSpending, nonPositive.
  destruct ((a <? 0) || (a =? 0)) eqn:Ea; [reflexivity|].
  case_bool_decide as N; [reflexivity|].
  apply orb_false_iff in Ea as [Ea1 Ea2].
  unfold bind at 1. rewrite getOrCreateBudgetEntry_eq.
  destruct (categoryInBudget s sc b) eqn:E1; [|reflexivity].
  unfold bind at 1. rewrite getOrCreateBudgetEntry_eq.
  unfold ensureEntry at 1. rewrite categoryInBudget_entries.
  destruct (categoryInBudget s pc b) eqn:E2; [|reflexivity].
  cbn [fst snd]. unfold bind.
  change (decrementEntry (sc, y, m) a) with (incrementEntry (sc, y, m) (- a)).
  rewrite incrementEntry_eq.
  assert (K : (sc, y, m) <> (pc, y, m)) by congruence.
  destruct (0 <? Z.min a (Z.max 0 (assignedOf s sc y m))) eqn:Em.
  - rewrite incrementEntry_eq. do 2 f_equal.
    unfold ensureEntry, bump. rewrite !with_budgetEntries_compose.
    apply with_budgetEntries_ext. entries_eq.
  - unfold ret. do 2 f_equal.
    assert (Z.min a (Z.max 0 (assignedOf s sc y m)) = 0) as -> by lia.
    unfold ensureEntry, bump. rewrite !with_budgetEntries_compose.
    apply with_budgetEntries_ext. entries_eq.
Qed.

Lemma pair_eq (f : Id -> Id -> Id -> Z -> Z -> Z -> Tx unit) d1 d2 :
  (forall b sc pc a y m,
      f b sc pc a y m =
      if (a <? 0) || (a =? 0) then ret tt
      else if bool_decide (sc = pc) then ret tt
      else
        bind (getOrCreateBudgetEntry b sc y m)
          (fun spendingEntry =>
             bind (getOrCreateBudgetEntry b pc y m)
               (fun paymentEntry =>
                  bind (incrementEntry (fst spendingEntry) (d1 a))
                    (fun _ => incrementEntry (fst paymentEntry) (d2 a))))) ->
  forall b sc pc a y m s,
    f b sc pc a y m s =
    if nonPositive a then Ok (tt, s)
    else if bool_decide (sc = pc) then Ok (tt, s)
    else if categoryInBudget s sc b
    then if categoryInBudget s pc b
         then Ok (tt, bump (pc, y, m) (d2 a) (bump (sc, y, m) (d1 a) s))
         else Throw (HttpError 404 CategoryNotFoundInBudget)
    else Throw (HttpError 404 CategoryNotFoundInBudget).
Proof.
  intros Hf b sc pc a y m s. rewrite Hf. unfold nonPositive.
  destruct ((a <? 0) || (a =? 0)); [reflexivity|].
  case_bool_decide as N; [reflexivity|].
  apply pair_move. exact N.
Qed.

Lemma revertBudgetAdjustmentForCreditSpending_eq b sc pc a y m s :
  revertBudgetAdjustmentForCreditSpending b sc pc a y m s =
  if nonPositive a then Ok (tt, s)
  else if bool_decide (sc = pc) then Ok (tt, s)
  else if categoryInBudget s sc b
  then if categoryInBudget s pc b
       then Ok (tt, bump (pc, y, m) (- a) (bump (sc, y, m) a s))
       else Throw (HttpError 404 CategoryNotFoundInBudget)
  else Throw (HttpError 404 CategoryNotFoundInBudget).
Proof.
  apply (pair_eq revertBudgetAdjustmentForCreditSpending (fun a => a) (fun a => - a)).
  reflexivity.
Qed.

Lemma handleCreditCardRefundToCategory_eq b sc pc a y m s :
  handleCreditCardRefundToCategory b sc pc a y m s =
  if nonPositive a then Ok (tt, s)
  else if bool_decide (sc = pc) then Ok (tt, s)
  else if categoryInBudget s sc b
  then if categoryInBudget s pc b
       then Ok (tt, bump (pc, y, m) (- a) (bump (sc, y, m) a s))
       else Throw (HttpError 404 CategoryNotFoundInBudget)
  else Throw (HttpError 404 CategoryNotFoundInBudget).
Proof.
  apply (pair_eq handleCreditCardRefundToCategory (fun a => a) (fun a => - a)).
  reflexivity.
Qed.

Lemma revertCreditCardRefundToCategory_eq b sc pc a y m s :
  revertCreditCardRefundToCategory b sc pc a y m s =
  if nonPositive a then Ok (tt, s)
  else if bool_decide (sc = pc) then Ok (tt, s)
  else if categoryInBudget s sc b
  then if categoryInBudget s pc b
       then Ok (tt, bump (pc, y, m) a (bump (sc, y, m) (- a) s))
       else Throw (HttpError 404 CategoryNotFoundInBudget)
  else Throw (HttpError 404 CategoryNotFoundInBudget).
Proof.
  apply (pair_eq revertCreditCardRefundToCategory (fun a => - a) (fun a => a)).
  reflexivity.
Qed.

Lemma single_eq (f : Id -> Id -> Z -> Z -> Z -> Tx unit) d :
  (forall b pc a y m,
      f b pc a y m =
      if (a <? 0) || (a =? 0) then ret tt
      else bind (getOrCreateBudgetEntry b pc y m)
             (fun paymentEntry => incrementEntry (fst paymentEntry) (d a))) ->
  forall b pc a y m s,
    f b pc a y m s =
    if nonPositive a then Ok (tt, s)
    else if categoryInBudget s pc b
    then Ok (tt, bump (pc, y, m) (d a) s)
    else Throw (HttpError 404 CategoryNotFoundInBudget).
Proof.
  intros Hf b pc a y m s. rewrite Hf. unfold nonPositive.
  destruct ((a <? 0) || (a =? 0)); [reflexivity|].
  apply single_move.
Qed.

Lemma handleCreditCardPayment_eq b pc a y m s :
  handleCreditCardPayment b pc a y m s =
  if nonPositive a then Ok (tt, s)
  else if categoryInBudget s pc b
  then Ok (tt, bump (pc, y, m) (- a) s)
  else Throw (HttpError 404 CategoryNotFoundInBudget).
Proof. apply (single_eq handleCreditCardPayment (fun a => - a)). reflexivity. Qed.

Lemma revertCreditCardPayment_eq b pc a y m s :
  revertCreditCardPayment b pc a y m s =
  if nonPositive a then Ok (tt, s)
  else if categoryInBudget s pc b
  then Ok (tt, bump (pc, y, m) a s)
  else Throw (HttpError 404 CategoryNotFoundInBudget).
Proof. apply (single_eq revertCreditCardPayment (fun a => a)). reflexivity. Qed.

Lemma handleCreditCardRefundToTBB_eq b pc a y m s :
  handleCreditCardRefundToTBB b pc a y m s =
  if nonPositive a then Ok (tt, s)
  else if categoryInBudget s pc b
  then Ok (tt, bump (pc, y, m) (- a) s)
  else Throw (HttpError 404 CategoryNotFoundInBudget).
Proof. apply (single_eq handleCreditCardRefundToTBB (fun a => - a)). reflexivity. Qed.

Lemma revertCreditCardRefundToTBB_eq b pc a y m s :
  revertCreditCardRefundToTBB b pc a y m s =
  if nonPositive a then Ok (tt, s)
  else if categoryInBudget s pc b
  then Ok (tt, bump (pc, y, m) a s)
  else Throw (HttpError 404 CategoryNotFoundInBudget).
Proof. apply (single_eq revertCreditCardRefundToTBB (fun a => a)). reflexivity. Qed.

Lemma moveMoneyBody_eq userId b dto s :
  moveMoneyBody userId b dto s =
  let y := move_year dto in
  let m := move_month dto in
  if bool_decide (fromCategoryId dto = toCategoryId dto)
  then Throw (HttpError 400 MoveSameCategory)
  else if nonPositive (moveAmount dto)
  then Throw (HttpError 400 MoveNotPositive)
  else match budgets s !! b with
       | None => Throw (HttpError 404 BudgetNotFound)
       | Some bg =>
           if bool_decide (budget_userId bg <> userId)
           then Throw (HttpError 403 BudgetForbidden)
           else if negb (categoryInBudget s (fromCategoryId dto) b
                         && categoryInBudget s (toCategoryId dto) b)
           then Throw (HttpError 404 CategoryNotFoundInBudget)
           else if assignedOf s (fromCategoryId dto) y m <? moveAmount dto
           then Throw (HttpError 400 InsufficientAssigned)
           else Ok (tt, bump (toCategoryId dto, y, m) (moveAmount dto)
                          (bump (fromCategoryId dto, y, m) (- moveAmount dto) s))
       end.
Proof.
  unfold moveMoneyBody, nonPositive. cbv zeta.
  unfold bind at 1. unfold throwIf at 1.
  case_bool_decide as N; [reflexivity|]. unfold ret at 1.
  unfold bind at 1. unfold throwIf at 1.
  destruct ((moveAmount dto <? 0) || (moveAmount dto =? 0)); [reflexivity|].
  unfold ret at 1. unfold bind at 1. unfold getBudgetById, bind at 1, gets at 1.
  destruct (budgets s !! b) as [bg|]; [|reflexivity].
  case_bool_decide; [reflexivity|]. unfold ret at 1.
  unfold bind at 1. rewrite getOrCreateBudgetEntry_eq.
  destruct (categoryInBudget s (fromCategoryId dto) b) eqn:E1; [|reflexivity].
  unfold bind at 1. rewrite getOrCreateBudgetEntry_eq.
  unfold ensureEntry at 1. rewrite categoryInBudget_entries.
  destruct (categoryInBudget s (toCategoryId dto) b) eqn:E2; [|reflexivity].
  cbn [fst snd andb negb]. unfold bind at 1. unfold throwIf.
  destruct (assignedOf s (fromCategoryId dto) (move_year dto) (move_month dto)
            <? moveAmount dto); [reflexivity|].
  unfold ret, bind.
  change (decrementEntry ?k ?a) with (incrementEntry k (- a)).
  rewrite !incrementEntry_eq. do 2 f_equal.
  unfold ensureEntry, bump. rewrite !with_budgetEntries_compose.
  apply with_budgetEntries_ext.
  assert (K : (fromCategoryId dto, move_year dto, move_month dto)
              <> (toCategoryId dto, move_year dto, move_month dto)) by congruence.
  entries_eq.
Qed.
End Adjustments.

Section MoveMoney.
Import BudgetService.

(** [moveMoney] rejects a request whose source and destination are the
    same category, whose amount is zero or negative, or whose source category
    holds less for the month than the requested amount; a rejected request
    leaves the store unchanged.  When the budget is the caller's and both
    categories belong to it, a request with distinct categories and a
    positive amount is refused with the insufficient-amount error exactly
    when the source holds less than the amount, and is accepted otherwise.
    An accepted request writes the entries of the two categories for the
    month and nothing else. *)
Theorem moveMoney_rejects (userId b : Id) (dto : MoveMoneyDto) (s : Store) :
  let r := fst (moveMoney userId b dto s) in
  let s' := snd (moveMoney userId b dto s) in
  let src := fromCategoryId dto in
  let dst := toCategoryId dto in
  let y := move_year dto in
  let m := move_month dto in
  let amt := moveAmount dto in
  ((src = dst \/ amt <= 0 \/ assignedOf s src y m < amt) -> isThrow r = true)
  /\ (isThrow r = true -> s' = s)
  /\ (ownsBudget s userId b = true ->
      categoryInBudget s src b = true -> categoryInBudget s dst b = true ->
      src <> dst -> 0 < amt ->
      if assignedOf s src y m <? amt
      then r = Throw (HttpError 400 InsufficientAssigned)
      else r = Ok tt)
  /\ (r = Ok tt ->
      (forall k, k <> (src, y, m) -> k <> (dst, y, m) ->
                 budgetEntries s' !! k = budgetEntries s !! k)
      /\ accounts s' = accounts s /\ categories s' = categories s
      /\ categoryGroups s' = categoryGroups s /\ goals s' = goals s
      /\ payees s' = payees s /\ transactions s' = transactions s
      /\ splitTransactions s' = splitTransactions s).
Proof.
  cbv zeta. unfold moveMoney, run. rewrite moveMoneyBody_eq. cbv zeta.
  unfold nonPositive, ownsBudget.
  case_bool_decide as N.
  { cbn. repeat split; try discriminate; auto. intros; congruence. }
  destruct ((moveAmount dto <? 0) || (moveAmount dto =? 0)) eqn:Ea.
  { cbn. repeat split; try discriminate; auto.
    intros. apply orb_true_iff in Ea. lia. }
  apply orb_false_iff in Ea as [Ea1 Ea2].
  destruct (budgets s !! b) as [bg|].
  2:{ cbn. repeat split; try discriminate; auto. }
  case_bool_decide as U.
  { cbn. repeat split; try discriminate; auto.
    intros H. apply bool_decide_eq_true in H. congruence. }
  destruct (categoryInBudget s (fromCategoryId dto) b) eqn:E1.
  2:{ cbn. repeat split; try discriminate; auto. }
  destruct (categoryInBudget s (toCategoryId dto) b) eqn:E2.
  2:{ cbn. repeat split; try discriminate; auto. }
  cbn [andb negb].
  destruct (assignedOf s (fromCategoryId dto) (move_year dto) (move_month dto)
            <? moveAmount dto) eqn:El.
  { cbn. repeat split; try discriminate; auto. }
  cbn [fst snd isOk isThrow negb].
  split; [intros [H|[H|H]]; [congruence | lia | lia]|].
  split; [discriminate|].
  split; [reflexivity|].
  intros _. split; [|repeat split; reflexivity].
  intros k K1 K2. unfold bump. cbn [with_budgetEntries budgetEntries].
  rewrite !lookup_bumpM.
  rewrite decide_False by congruence. rewrite decide_False by congruence.
  reflexivity.
Qed.

(** The example of the specification: 50 cannot be moved out of a category
    that holds 30, and nothing changes; 20 can. *)
Lemma moveMoney_rejects_witness :
  fst (moveMoney "u" "b" (mkMove "A" "B" 2024 4 50) moveStore)
    = Throw (HttpError 400 InsufficientAssigned)
  /\ snd (moveMoney "u" "b" (mkMove "A" "B" 2024 4 50) moveStore) = moveStore
  /\ fst (moveMoney "u" "b" (mkMove "A" "B" 2024 4 20) moveStore) = Ok tt.
Proof.
  pose proof (moveMoney_rejects "u" "b" (mkMove "A" "B" 2024 4 50) moveStore)
    as (_ & H2 & H3 & _).
  pose proof (moveMoney_rejects "u" "b" (mkMove "A" "B" 2024 4 20) moveStore)
    as (_ & _ & G3 & _).
  cbv zeta in *.
  assert (E1 : fst (moveMoney "u" "b" (mkMove "A" "B" 2024 4 50) moveStore)
               = Throw (HttpError 400 InsufficientAssigned)).
  { apply H3; try reflexivity; try discriminate. }
  split; [exact E1|].
  split; [apply H2; rewrite E1; reflexivity|].
  apply G3; try reflexivity; try discriminate.
Defined.
End MoveMoney.

(** ** Account balances *)

Section Balances.
Import AccountService.

Lemma fold_right_amount (l : list Transaction) :
  fold_right (fun t acc => amount t + acc) 0 l = sumZ (map amount l).
Proof.
  unfold sumZ. induction l as [|x l IH]; [reflexivity|].
  cbn [fold_right map foldr]. rewrite IH. reflexivity.
Qed.

Lemma aggregateSum_default (p : Transaction -> bool) s :
  default 0 (aggregateSum p s)
  = sumZ (map amount (filter (fun t => p t = true) (transactions s))).
Proof.
  unfold aggregateSum.
  destruct (filter (fun t => p t = true) (transactions s)) as [|t l] eqn:E;
    [reflexivity|].
  cbn [default]. apply fold_right_amount.
Qed.

End Balances.

(** ** Goals *)

Section Goals.
Import GoalService.

Lemma getCategoryById_eq userId b gid cid s :
  (exists c, CategoryService.getCategoryById userId b gid cid s = Ok (c, s)
             /\ categoryOwned s userId b gid cid = true)
  \/ (exists e, CategoryService.getCategoryById userId b gid cid s = Throw e
                /\ categoryOwned s userId b gid cid = false).
Proof.
  unfold CategoryService.getCategoryById, CategoryService.getCategoryGroupById,
    BudgetService.getBudgetById, categoryOwned, ownsBudget, bind, gets, throw, ret.
  destruct (budgets s !! b) as [bg|]; [|right; eexists; split; reflexivity].
  destruct (decide (budget_userId bg = userId)) as [U|U].
  2:{ rewrite bool_decide_eq_true_2 by exact U.
      rewrite (bool_decide_eq_false_2 _ U). right; eexists; split; reflexivity. }
  rewrite (bool_decide_eq_false_2 (budget_userId bg <> userId)) by tauto.
  rewrite (bool_decide_eq_true_2 _ U).
  destruct (categoryGroups s !! gid) as [g|]; [|right; eexists; split; reflexivity].
  destruct (decide (group_budgetId g = b)) as [G|G].
  2:{ rewrite bool_decide_eq_true_2 by exact G.
      rewrite (bool_decide_eq_false_2 _ G). right; eexists; split; reflexivity. }
  rewrite (bool_decide_eq_false_2 (group_budgetId g <> b)) by tauto.
  rewrite (bool_decide_eq_true_2 _ G).
  destruct (categories s !! cid) as [c|]; [|right; eexists; split; reflexivity].
  destruct (decide (categoryGroupId c = gid)) as [C|C].
  2:{ rewrite bool_decide_eq_true_2 by exact C.
      rewrite (bool_decide_eq_false_2 _ C). right; eexists; split; reflexivity. }
  rewrite (bool_decide_eq_false_2 (categoryGroupId c <> gid)) by tauto.
  rewrite (bool_decide_eq_true_2 _ C).
  left; eexists; split; reflexivity.
Qed.

(** C9. A goal accepted by upsertGoal is stored under its category with the
    declared type and with exactly the fields of that type populated:
    target-balance has a positive targetAmount and null targetDate and
    monthlyFundingAmount; target-balance-by-date has a positive targetAmount
    and a targetDate and a null monthlyFundingAmount; monthly-funding has a
    positive monthlyFundingAmount and null targetAmount and targetDate.  A
    request that lacks the field required by its type is rejected and
    nothing is stored; when the category is owned by the caller the
    rejection is a validation error (status 400). *)
Theorem upsertGoal_shape (userId b gid cid : Id) (dto : UpsertGoalDto) (s : Store) :
  let r := fst (upsertGoalForCategory userId b gid cid dto s) in
  let s' := snd (upsertGoalForCategory userId b gid cid dto s) in
  (forall g, r = Ok g ->
     goals s' !! cid = Some g
     /\ dto_type dto = Known (goal_type g)
     /\ goalShape g)
  /\ (missingRequired dto ->
      isThrow r = true /\ s' = s
      /\ (categoryOwned s userId b gid cid = true ->
          exists m, r = Throw (HttpError 400 m))).
Proof.
  cbv zeta. unfold upsertGoalForCategory, run, upsertGoalForCategoryBody.
  unfold bind.
  destruct (getCategoryById_eq userId b gid cid s) as [(c & -> & Ho)|(e & -> & Ho)].
  2:{ cbn. split; [discriminate|]. intros _. repeat split. intros; congruence. }
  unfold validateGoalDto, missingRequired, goalShape, missingOrNonPositive.
  destruct dto as [nm ty ta td mf]; cbn [dto_type dto_targetAmount dto_targetDate
    dto_monthlyFundingAmount dto_name].
  destruct ty as [[| |]|].
  - destruct ta as [a|].
    + destruct (a <=? 0) eqn:Ea.
      * cbn. split; [discriminate|]. intros; discriminate.
      * cbn. split; [|intros; discriminate].
        intros g [= <-]. cbn. rewrite lookup_insert_eq.
        repeat split. exists a. split; [reflexivity|lia].
    + cbn. split; [discriminate|]. intros _. repeat split. intros _. eauto.
  - destruct ta as [a|].
    + destruct (a <=? 0) eqn:Ea.
      * cbn. split; [discriminate|]. intros [?|?]; [discriminate|].
        repeat split. intros _. eauto.
      * cbn [negb]. destruct (truthy td) eqn:Et.
        -- cbn -[truthy]. rewrite ?Et. split; [|intros [?|?]; subst; discriminate].
           intros g [= <-]. cbn -[truthy]. rewrite lookup_insert_eq, ?Et.
           repeat split; [exists a; split; [reflexivity|lia]|].
           destruct td as [d|]; [|discriminate]. exists d. split; [reflexivity|].
           intros ->. discriminate.
        -- cbn. split; [discriminate|]. intros _. repeat split. intros _. eauto.
    + cbn. split; [discriminate|]. intros _. repeat split. intros _. eauto.
  - destruct mf as [a|].
    + destruct (a <=? 0) eqn:Ea.
      * cbn. split; [discriminate|]. intros; discriminate.
      * cbn. split; [|intros; discriminate].
        intros g [= <-]. cbn. rewrite lookup_insert_eq.
        repeat split. exists a. split; [reflexivity|lia].
    + cbn. split; [discriminate|]. intros _. repeat split. intros _. eauto.
  - cbn. split; [discriminate|]. intros [].
Qed.
End Goals.

(** ** Lists *)

Section ListFacts.


End ListFacts.

(** ** The budget view *)

Section BudgetViewTotals.
Import BudgetView.

Lemma getBudgetById_eq userId b s :
  BudgetService.getBudgetById userId b s =
  match budgets s !! b with
  | None => Throw (HttpError 404 BudgetNotFound)
  | Some bg => if bool_decide (budget_userId bg <> userId)
               then Throw (HttpError 403 BudgetForbidden)
               else Ok (bg, s)
  end.
Proof.
  unfold BudgetService.getBudgetById, bind, gets, throw, ret.
  destruct (budgets s !! b) as [bg|]; [|reflexivity].
  case_bool_decide; reflexivity.
Qed.

Lemma getBudgetView_eq userId b year month s :
  BudgetView.getBudgetView userId b year month s
  = (match budgets s !! b with
     | None => Throw (HttpError 404 BudgetNotFound)
     | Some bg => if bool_decide (budget_userId bg <> userId)
                  then Throw (HttpError 403 BudgetForbidden)
                  else Throw (HttpError 500 UnknownInclude)
     end, s).
Proof.
  unfold getBudgetView, run, getBudgetViewBody. unfold bind at 1.
  rewrite getBudgetById_eq.
  destruct (budgets s !! b) as [bg|]; [|reflexivity].
  case_bool_decide; reflexivity.
Qed.

(** C4.  [getBudgetView] never returns a view.  An unknown budget is answered
    with 404 and a budget of another user with 403; for the owner the query
    for the month's transactions is refused by the client, because it
    includes a relation [splits] that the Transaction model does not have,
    whatever the budget holds and whatever the month.  The store is never
    changed. *)
Theorem getBudgetView_never_returns (userId b : Id) (year month : Z) (s : Store) :
  let r := fst (getBudgetView userId b year month s) in
  snd (getBudgetView userId b year month s) = s
  /\ isThrow r = true
  /\ (ownsBudget s userId b = true -> r = Throw (HttpError 500 UnknownInclude))
  /\ (forall bg, budgets s !! b = Some bg -> budget_userId bg <> userId ->
        r = Throw (HttpError 403 BudgetForbidden))
  /\ (budgets s !! b = None -> r = Throw (HttpError 404 BudgetNotFound)).
Proof.
  cbv zeta. rewrite getBudgetView_eq. unfold ownsBudget. cbn [fst snd].
  split; [reflexivity|].
  destruct (budgets s !! b) as [bg|] eqn:Hb.
  - destruct (decide (budget_userId bg = userId)) as [U|U].
    + rewrite (bool_decide_eq_false_2 (budget_userId bg <> userId)) by tauto.
      rewrite (bool_decide_eq_true_2 _ U).
      split; [reflexivity|]. split; [reflexivity|].
      split; [|discriminate]. intros bg' [= <-] Hne. contradiction.
    + rewrite bool_decide_eq_true_2 by exact U.
      rewrite (bool_decide_eq_false_2 _ U).
      split; [reflexivity|]. split; [discriminate|].
      split; [reflexivity|discriminate].
  - split; [reflexivity|]. split; [discriminate|].
    split; [discriminate|reflexivity].
Qed.

End BudgetViewTotals.

Section BudgetViewExamples.
Import BudgetView.

(** The owner asks for April 2024 of a budget with income, a split inflow,
    an outflow and 200 assigned. *)
Lemma getBudgetView_never_returns_example :
  getBudgetView "u" "b" 2024 4 viewStore
  = (Throw (HttpError 500 UnknownInclude), viewStore).
Proof.
  pose proof (getBudgetView_never_returns "u" "b" 2024 4 viewStore)
    as (H1 & _ & H3 & _).
  cbv zeta in H3. rewrite <- H1 at 2. rewrite <- (H3 eq_refl).
  destruct (getBudgetView "u" "b" 2024 4 viewStore). reflexivity.
Defined.
End BudgetViewExamples.

(** ** Transactions: frames of the steps of [createTransaction] *)

Section TransactionSteps.
Import TransactionService.

Lemma with_payees_id s : with_payees (fun ps => ps) s = s.
Proof. destruct s; reflexivity. Qed.

Lemma findOrCreatePayeeByName_frame b n s p s' :
  PayeeService.findOrCreatePayeeByName b n s = Ok (p, s') ->
  exists f, s' = with_payees f s.
Proof.
  unfold PayeeService.findOrCreatePayeeByName, bind, throwIf, throw, ret, gets, modify.
  destruct (String.eqb (PayeeService.trim n) ""); [discriminate|].
  destruct (find _ (payees s)).
  - intros [= _ <-]. exists (fun ps => ps). symmetry. apply with_payees_id.
  - intros [= _ <-]. eexists. reflexivity.
Qed.

Lemma resolvePayee_frame b pid pname s r s' :
  resolvePayee b pid pname s = Ok (r, s') -> exists f, s' = with_payees f s.
Proof.
  unfold resolvePayee.
  destruct (negb (truthy (orNull pid)) && truthy pname).
  - unfold bind.
    destruct (PayeeService.findOrCreatePayeeByName b (idOf pname) s) as [[p s1]|e] eqn:E;
      [|discriminate].
    unfold ret. intros [= _ <-]. eapply findOrCreatePayeeByName_frame, E.
  - unfold ret. intros [= _ <-]. exists (fun ps => ps). symmetry. apply with_payees_id.
Qed.

Lemma validateCategory_Ok b cid m s r :
  validateCategory b cid m s = Ok r <-> categoryInBudget s cid b = true /\ r = (tt, s).
Proof.
  unfold validateCategory, bind, gets, throwIf, throw, ret.
  destruct (categoryInBudget s cid b); cbn [negb]; split;
    try discriminate; try (intros [? ?]; discriminate).
  - intros [= <-]. auto.
  - intros [_ ->]. reflexivity.
Qed.

(** The row that [createRow] stores for [data]. *)
Lemma createRow_Ok data s row s' :
  createRow data s = Ok (row, s') ->
  id row = uuid (map id (transactions s))
  /\ date row = date data /\ amount row = amount data
  /\ isTransfer row = isTransfer data /\ isSplit row = isSplit data
  /\ transferAccountId row = transferAccountId data
  /\ transferGroupId row = transferGroupId data
  /\ accountId row = accountId data /\ categoryId row = categoryId data
  /\ budgetId row = budgetId data
  /\ s' = with_transactions (fun ts => ts ++ [row]) s.
Proof.
  unfold createRow, bind, gets, throwIf, throw, ret, modify.
  destruct (negb _); [discriminate|].
  intros [= <- <-]. cbn. repeat split; reflexivity.
Qed.

Lemma createSplits_frame b txId splits total s r s' :
  createSplits b txId splits total s = Ok (r, s') ->
  s' = with_splitTransactions
         (fun sps => sps ++ map (fun sp => {| split_transactionId := txId;
                                              split_categoryId := sd_categoryId sp;
                                              split_amount := sd_amount sp;
                                              split_memo := sd_memo sp |}) splits) s
  /\ r = total + sumZ (map sd_amount splits).
Proof.
  revert total s. induction splits as [|sp splits IH]; intros total s.
  - cbn [createSplits]. unfold ret. intros [= <- <-]. split.
    + cbn [map]. destruct s; unfold with_splitTransactions; cbn.
      rewrite app_nil_r. reflexivity.
    + unfold sumZ; cbn. lia.
  - cbn [createSplits]. unfold bind at 1.
    destruct (validateCategory b (sd_categoryId sp) SplitCategoryNotFound s)
      as [[u s1]|e] eqn:E; [|discriminate].
    apply validateCategory_Ok in E as [_ [= -> ->]].
    unfold bind at 1, modify at 1. intros H. apply IH in H as [-> ->].
    split.
    + unfold with_splitTransactions; cbn. rewrite <- app_assoc. reflexivity.
    + unfold sumZ; cbn. lia.
Qed.
End TransactionSteps.

Tactic Notation "inv_bind" hyp(H) "as" ident(a) ident(s1) ident(E) :=
  match type of H with
  | bind ?c ?k ?s = Ok _ =>
      unfold bind at 1 in H;
      destruct (c s) as [[a s1]|?] eqn:E; [|discriminate H]
  end.

Section CreateSingle.
Import TransactionService.

Lemma createTransaction_single_inv userId dto s r s' :
  createTransactionBody userId dto s = Ok (r, s') ->
  c_isTransfer dto = false ->
  exists a bg fp t s3,
    accounts s !! c_accountId dto = Some a
    /\ budgets s !! account_budgetId a = Some bg
    /\ budget_userId bg = userId
    /\ r = One t
    /\ (id t = uuid (map id (transactions s))
        /\ date t = c_date dto /\ amount t = c_amount dto
        /\ isTransfer t = false /\ isSplit t = c_isSplit dto
        /\ accountId t = c_accountId dto
        /\ categoryId t = (if c_isSplit dto then None else c_categoryId dto)
        /\ budgetId t = account_budgetId a
        /\ transferGroupId t = None)
    /\ (c_isSplit dto && truthy (c_categoryId dto) = false)
    /\ (truthy (c_categoryId dto) = true ->
        categoryInBudget s (idOf (c_categoryId dto)) (account_budgetId a) = true)
    /\ createSplitTransactions (account_budgetId a) t dto
         (with_transactions (fun ts => ts ++ [t]) (with_payees fp s)) = Ok (tt, s3)
    /\ adjustForCreditCard (account_budgetId a) t (getFullYear (c_date dto))
         (getMonth (c_date dto) + 1) s3 = Ok (tt, s').
Proof.
  intros H NT. unfold createTransactionBody in H. cbv zeta in H.
  rewrite NT in H.
  unfold bind at 1, gets at 1 in H. unfold bind at 1, gets at 1 in H.
  destruct (accounts s !! c_accountId dto) as [a|] eqn:Ea; [|discriminate H].
  unfold bind at 1, gets at 1 in H.
  destruct (budgets s !! account_budgetId a) as [bg|] eqn:Eb; [|discriminate H].
  inv_bind H as u0 s0 E0. apply throwIf_Ok in E0 as [Eu [= -> ->]].
  apply bool_decide_eq_false in Eu. apply dec_stable in Eu.
  inv_bind H as dest sv Ev. inv_bind Ev as u1 sv1 Ev1.
  unfold ret in Ev. injection Ev as <- <-.
  (* validateNonTransfer *)
  unfold validateNonTransfer in Ev1.
  inv_bind Ev1 as p1 sp1 Ep1. apply resolvePayee_frame in Ep1 as [f1 ->].
  inv_bind Ev1 as u2 sc1 Ec1.
  assert (Hcat : sc1 = with_payees f1 s
                 /\ (truthy (c_categoryId dto) = true -> c_isSplit dto = false ->
                     categoryInBudget s (idOf (c_categoryId dto)) (account_budgetId a)
                     = true)).
  { destruct (truthy (c_categoryId dto) && negb (c_isSplit dto)) eqn:Ec.
    - apply validateCategory_Ok in Ec1 as [Hc [= _ ->]]. split; [reflexivity|].
      intros _ _. exact Hc.
    - unfold ret in Ec1. injection Ec1 as _ <-. split; [reflexivity|].
      intros Ht Hs. rewrite Ht, Hs in Ec. discriminate. }
  destruct Hcat as [-> Hcat]. clear Ec1.
  apply throwIf_Ok in Ev1 as [Esp [= _ ->]].
  (* rows *)
  inv_bind H as rows sr Er. unfold transactionsToCreate in Er. rewrite NT in Er.
  inv_bind Er as p2 sp2 Ep2. apply resolvePayee_frame in Ep2 as [f2 ->].
  unfold ret in Er. injection Er as <- <-.
  inv_bind H as created sk Ek. cbn [createRows] in Ek.
  inv_bind Ek as t st Et.
  apply createRow_Ok in Et
    as (Hid & Hd & Ham & Htr & Hsp & _ & Hg & Hacc & Hc & Hb & ->).
  cbn [id date amount isTransfer isSplit transferGroupId accountId categoryId budgetId]
    in Hid, Hd, Ham, Htr, Hsp, Hg, Hacc, Hc, Hb.
  unfold bind, ret in Ek. injection Ek as <- <-.
  inv_bind H as u3 s3 Es. destruct u3.
  inv_bind H as u4 s4 Ea4. destruct u4.
  inv_bind H as u5 s5 Ea5. unfold adjustForCardPayment, ret in Ea5.
  injection Ea5 as _ <-.
  unfold ret in H. injection H as <- <-.
  exists a, bg, (fun ps => f2 (f1 ps)), t, s3.
  repeat split; try assumption; try reflexivity.
  intros Ht. apply Hcat; [exact Ht|].
  rewrite Ht, andb_true_r in Esp. exact Esp.
Qed.
End CreateSingle.

(** ** Results of [run] and optional identifiers *)

Section RunFacts.
Import TransactionService.

Lemma run_Ok {A} (body : Tx A) s r s' :
  run body s = (Ok r, s') <-> body s = Ok (r, s').
Proof.
  unfold run. destruct (body s) as [[a s1]|e]; split; intros H;
    try discriminate; inversion H; reflexivity.
Qed.

Lemma truthy_Some c : c <> EmptyString -> truthy (Some c) = true.
Proof.
  intros N. unfold truthy. apply negb_true_iff. apply String.eqb_neq. exact N.
Qed.

Lemma idOf_Some c : idOf (Some c) = c.
Proof. reflexivity. Qed.

End RunFacts.

(** ** Fresh identifiers *)

Section Fresh.

Lemma length_xs n : String.length (xs n) = n.
Proof. induction n as [|n IH]; [reflexivity|]. cbn [xs String.length]. rewrite IH. reflexivity. Qed.

Lemma uuid_fresh (used : list Id) : uuid used ∉ used.
Proof.
  intros Hin. unfold uuid in Hin.
  assert (Hle : (String.length (xs (S (list_max (map String.length used))))
                 <= list_max (map String.length used))%nat).
  { assert (F : Forall (fun k => (k <= list_max (map String.length used))%nat)
                       (map String.length used))
      by (apply list_max_le; reflexivity).
    rewrite Forall_forall in F. apply F.
    apply list_elem_of_fmap. eexists. split; [reflexivity|exact Hin]. }
  rewrite length_xs in Hle. lia.
Qed.

Lemma uuid_nonempty (used : list Id) : uuid used <> EmptyString.
Proof. unfold uuid. cbn [xs]. discriminate. Qed.

Lemma find_app_fresh {A} (p : A -> bool) (l : list A) (x : A) :
  (forall y, y ∈ l -> p y = false) -> p x = true -> find p (l ++ [x]) = Some x.
Proof.
  intros Hl Hx. induction l as [|y l IH].
  - cbn. rewrite Hx. reflexivity.
  - cbn [app find]. rewrite (Hl y) by left. apply IH.
    intros z Hz. apply Hl. right. exact Hz.
Qed.

Lemma filter_all {A} (P : A -> Prop) `{!forall x, Decision (P x)} (l : list A) :
  (forall x, x ∈ l -> P x) -> filter P l = l.
Proof.
  induction l as [|x l IH]; intros Hall; [reflexivity|].
  rewrite filter_cons. rewrite decide_True by (apply Hall; left).
  rewrite IH; [reflexivity|]. intros y Hy. apply Hall. right. exact Hy.
Qed.

Lemma findTransaction_created (s : Store) (f : list Payee -> list Payee) (t : Transaction) :
  id t = uuid (map id (transactions s)) ->
  forall ts', ts' = transactions s ++ [t] ->
  find (fun t' => bool_decide (id t' = id t)) ts' = Some t.
Proof.
  intros Hid ts' ->. apply find_app_fresh.
  - intros y Hy. apply bool_decide_eq_false. intros E.
    apply (uuid_fresh (map id (transactions s))). rewrite <- Hid, <- E.
    apply list_elem_of_fmap. exists y. split; [reflexivity|exact Hy].
  - apply bool_decide_eq_true. reflexivity.
Qed.

Lemma fresh_not_in (s : Store) (i : Id) :
  i = uuid (map id (transactions s)) ->
  forall y, y ∈ transactions s -> id y <> i.
Proof.
  intros -> y Hy E. apply (uuid_fresh (map id (transactions s))). rewrite <- E.
  apply list_elem_of_fmap. exists y. split; [reflexivity|exact Hy].
Qed.
End Fresh.

(** ** Deleting a row that is not a transfer *)

Section DeleteSingle.
Import TransactionService.

Lemma deleteTransactionBody_single userId t bg s :
  findTransaction (id t) s = Some t ->
  budgets s !! budgetId t = Some bg -> budget_userId bg = userId ->
  isTransfer t = false ->
  deleteTransactionBody userId (id t) s =
  match revertOnDelete t (accounts s !! accountId t) None
          (getFullYear (date t)) (getMonth (date t) + 1) s with
  | Ok (_, s1) =>
      Ok (tt, with_transactions (filter (fun t' => id t' ∉ [id t]))
                (with_splitTransactions
                   (filter (fun sp => split_transactionId sp ∉ [id t])) s1))
  | Throw e => Throw e
  end.
Proof.
  intros Hf Hb Hu NT. unfold deleteTransactionBody.
  unfold bind at 1, gets at 1. rewrite Hf.
  unfold bind at 1, gets at 1. rewrite Hb.
  unfold bind at 1, throwIf at 1.
  rewrite bool_decide_eq_false_2 by (intros N; exact (N Hu)).
  unfold ret at 1. unfold bind at 1, gets at 1. rewrite NT. cbn [andb].
  unfold bind at 1, gets at 1. unfold bind at 1, gets at 1.
  cbn [truthy]. unfold bind at 1.
  destruct (revertOnDelete t (accounts s !! accountId t) None
              (getFullYear (date t)) (getMonth (date t) + 1) s) as [[u s1]|e];
    reflexivity.
Qed.

End DeleteSingle.

(** ** Transfers *)

Section Transfers.
Import TransactionService.

Lemma adjustForCreditCard_transfer b t y m s :
  isTransfer t = true -> adjustForCreditCard b t y m s = Ok (tt, s).
Proof.
  intros Ht. unfold adjustForCreditCard, bind, gets, ret. rewrite Ht. cbn [negb andb].
  destruct (accounts s !! accountId t) as [a|]; [|reflexivity].
  destruct (bool_decide (account_type a = CREDIT_CARD)); [|reflexivity].
  destruct (truthy (paymentCategoryId a)); reflexivity.
Qed.

Ltac go :=
  cbv beta iota zeta delta [bind gets throwIf throw ret modify negb andb orb
                            createRows createRow].

Lemma createTransactionBody_transfer_eq userId dto s a dest :
  transferAccountsOk s userId dto a dest ->
  let b := account_budgetId a in
  let t1 := transferSourceRow s a dest dto in
  let t2 := transferDestinationRow s a dest dto in
  createTransactionBody userId dto s =
  if onBudget a && onBudget dest && truthy (c_categoryId dto)
  then Throw (HttpError 400 TransferCategoryNotAllowed)
  else if onBudget a && negb (onBudget dest) && negb (truthy (c_categoryId dto))
  then Throw (HttpError 400 TransferCategoryRequired)
  else if ((onBudget a && negb (onBudget dest))
           || (negb (onBudget a) && onBudget dest && truthy (c_categoryId dto)))
          && negb (categoryInBudget s (idOf (c_categoryId dto)) b)
  then Throw (HttpError 404 CategoryNotFoundInBudget)
  else if negb (categoryRefOk s (categoryId t1) && categoryRefOk s (categoryId t2))
  then Throw (HttpError 500 StoreFailure)
  else match transferPayment (with_transactions (fun ts => (ts ++ [t1]) ++ [t2]) s)
                 a dest dto with
       | Ok (_, s') => Ok (Many [t1; t2], s')
       | Throw e => Throw e
       end.
Proof.
  intros (IT & Ha & Ho & Tt & Nid & Hd & Hbd). cbv zeta.
  unfold ownsBudget in Ho.
  destruct (budgets s !! account_budgetId a) as [bg|] eqn:Hb; [|discriminate].
  apply bool_decide_eq_true in Ho.
  unfold createTransactionBody. rewrite IT. go. rewrite Ha. go. rewrite Hb. go.
  rewrite bool_decide_eq_false_2 by (intros N; exact (N Ho)). go.
  unfold validateTransfer. go. rewrite Tt. go.
  rewrite bool_decide_eq_false_2 by exact Nid. go. rewrite Hd. go.
  rewrite bool_decide_eq_false_2 by (intros N; exact (N Hbd)). go.
  unfold transactionsToCreate, transferDestinationRow, transferSourceRow,
    categoryRefOk, validateCategory.
  rewrite IT. go.
  assert (Hs : forall (t : Transaction) (st : Store),
             isTransfer t = true ->
             createSplitTransactions (account_budgetId a) t dto st = Ok (tt, st)).
  { intros t st _. unfold createSplitTransactions. rewrite IT.
    rewrite !andb_false_r. reflexivity. }
  assert (Hp : forall (t t' : Transaction) (st : Store),
             isTransfer t = true -> accounts st = accounts s ->
             adjustForCardPayment (account_budgetId a) t a (Some dest) [t; t'] dto
               (getFullYear (c_date dto)) (getMonth (c_date dto) + 1) st
             = transferPayment st a dest dto).
  { intros t t' st Ht Hst. unfold adjustForCardPayment, transferPayment.
    rewrite Ht. cbn [length]. rewrite bool_decide_eq_true_2 by reflexivity.
    cbn [andb]. destruct (onBudget a && bool_decide (account_type dest = CREDIT_CARD));
      [|reflexivity].
    unfold bind, gets. rewrite Hst, Hd. destruct (truthy (paymentCategoryId dest));
      reflexivity. }
  destruct (c_categoryId dto) as [c|];
    [destruct (bool_decide (is_Some (categories s !! c))) eqn:Fk|];
    cbn [truthy idOf default];
    destruct (onBudget a) eqn:Oa, (onBudget dest) eqn:Od;
    try destruct (String.eqb c "") eqn:Tc; go; try reflexivity;
    try (destruct (categoryInBudget s _ (account_budgetId a))
           eqn:Ec; go; try reflexivity);
    rewrite ?Od, ?Tc, ?Fk; go;
    cbn [id date amount memo cleared approved isTransfer transferAccountId
         transferGroupId isSplit accountId payeeId categoryId budgetId
         plaidTransactionId transactions accounts categories with_transactions];
    rewrite ?Fk; go;
    cbn [id date amount memo cleared approved isTransfer transferAccountId
         transferGroupId isSplit accountId payeeId categoryId budgetId
         plaidTransactionId transactions accounts categories with_transactions];
    rewrite ?Fk; go; try reflexivity.
  all:
    rewrite Hs by reflexivity;
    rewrite adjustForCreditCard_transfer by reflexivity;
    rewrite Hp by reflexivity;
    match goal with
    | |- _ = match ?p with Ok _ => _ | Throw _ => _ end =>
        set (P := p); change (transferPayment _ a dest dto) with P;
        destruct P as [[[] ?]|?]; reflexivity
    end.
Qed.
End Transfers.

Section TransferDelete.
Import TransactionService.

Lemma with_budgetEntries_id_sym s : s = with_budgetEntries (fun es => es) s.
Proof. destruct s; reflexivity. Qed.

Lemma find_app_none {A} (p : A -> bool) (l l' : list A) :
  (forall y, y ∈ l -> p y = false) -> find p (l ++ l') = find p l'.
Proof.
  intros Hl. induction l as [|y l IH]; [reflexivity|].
  cbn [app find]. rewrite (Hl y) by left. apply IH.
  intros z Hz. apply Hl. right. exact Hz.
Qed.

Lemma transferPayment_frame s2 a dest dto u s' :
  transferPayment s2 a dest dto = Ok (u, s') ->
  exists g, s' = with_budgetEntries g s2.
Proof.
  unfold transferPayment.
  destruct (onBudget a && bool_decide (account_type dest = CREDIT_CARD)).
  2:{ intros [= _ <-]. eexists. apply with_budgetEntries_id_sym. }
  destruct (truthy (paymentCategoryId dest)).
  2:{ intros [= _ <-]. eexists. apply with_budgetEntries_id_sym. }
  rewrite handleCreditCardPayment_eq.
  destruct (nonPositive _).
  { intros [= _ <-]. eexists. apply with_budgetEntries_id_sym. }
  destruct (categoryInBudget _ _ _); [|discriminate].
  intros [= _ <-]. eexists. reflexivity.
Qed.

Lemma revertOnDelete_transfer t a1 a2 y m st :
  isTransfer t = true ->
  revertOnDelete t (Some a1) (Some a2) y m st =
  let pc := if bool_decide (account_type a1 = CREDIT_CARD) && onBudget a2
            then paymentCategoryId a1
            else if onBudget a1 && bool_decide (account_type a2 = CREDIT_CARD)
                 then paymentCategoryId a2
                 else None in
  if truthy pc
  then BudgetService.revertCreditCardPayment (budgetId t) (idOf pc)
         (Z.abs (amount t)) y m st
  else Ok (tt, st).
Proof.
  intros Ht. unfold revertOnDelete. rewrite Ht. cbn [negb andb]. cbv zeta.
  destruct (truthy _); reflexivity.
Qed.

(** Reverting the adjustment of a transfer row only touches budget entries,
    and succeeds when the payment categories of both accounts belong to the
    budget. *)
Lemma revertOnDelete_transfer_frame t a1 a2 y m st u st1 :
  isTransfer t = true ->
  revertOnDelete t a1 a2 y m st = Ok (u, st1) ->
  exists g, st1 = with_budgetEntries g st.
Proof.
  intros Ht. destruct a1 as [a1|], a2 as [a2|].
  - rewrite revertOnDelete_transfer by exact Ht. cbv zeta.
    destruct (truthy _).
    + rewrite revertCreditCardPayment_eq. destruct (nonPositive _).
      * intros [= _ <-]. eexists. apply with_budgetEntries_id_sym.
      * destruct (categoryInBudget _ _ _); [|discriminate].
        intros [= _ <-]. eexists. reflexivity.
    + intros [= _ <-]. eexists. apply with_budgetEntries_id_sym.
  - unfold revertOnDelete. rewrite Ht. cbn [negb andb]. unfold ret.
    intros [= _ <-]. eexists. apply with_budgetEntries_id_sym.
  - unfold revertOnDelete. rewrite Ht. cbn [negb andb]. unfold ret.
    intros [= _ <-]. eexists. apply with_budgetEntries_id_sym.
  - unfold revertOnDelete. rewrite Ht. cbn [negb andb]. unfold ret.
    intros [= _ <-]. eexists. apply with_budgetEntries_id_sym.
Qed.

Lemma revertOnDelete_transfer_succeeds t a1 a2 y m st :
  isTransfer t = true ->
  (truthy (paymentCategoryId a1) = true ->
   categoryInBudget st (idOf (paymentCategoryId a1)) (budgetId t) = true) ->
  (truthy (paymentCategoryId a2) = true ->
   categoryInBudget st (idOf (paymentCategoryId a2)) (budgetId t) = true) ->
  exists st1, revertOnDelete t (Some a1) (Some a2) y m st = Ok (tt, st1).
Proof.
  intros Ht H1 H2. rewrite revertOnDelete_transfer by exact Ht. cbv zeta.
  destruct (bool_decide (account_type a1 = CREDIT_CARD) && onBudget a2).
  - destruct (truthy (paymentCategoryId a1)) eqn:T; [|eexists; reflexivity].
    rewrite revertCreditCardPayment_eq, (H1 eq_refl).
    destruct (nonPositive _); eexists; reflexivity.
  - destruct (onBudget a1 && bool_decide (account_type a2 = CREDIT_CARD)).
    + destruct (truthy (paymentCategoryId a2)) eqn:T; [|eexists; reflexivity].
      rewrite revertCreditCardPayment_eq, (H2 eq_refl).
      destruct (nonPositive _); eexists; reflexivity.
    + cbn [truthy]. eexists; reflexivity.
Qed.

(** Deleting one row [t] of a pair whose sibling is [t']. *)
Lemma deleteTransactionBody_pair userId t t' bg st :
  findTransaction (id t) st = Some t ->
  budgets st !! budgetId t = Some bg -> budget_userId bg = userId ->
  isTransfer t = true -> truthy (transferGroupId t) = true ->
  find (fun x => bool_decide (transferGroupId x = transferGroupId t)
                 && bool_decide (id x <> id t)) (transactions st) = Some t' ->
  id t' <> EmptyString ->
  deleteTransactionBody userId (id t) st =
  match revertOnDelete t (accounts st !! accountId t)
          (accounts st !! idOf (transferAccountId t))
          (getFullYear (date t)) (getMonth (date t) + 1) st with
  | Ok (_, s1) =>
      Ok (tt, with_transactions (filter (fun x => id x ∉ [id t; id t']))
                (with_splitTransactions
                   (filter (fun sp => split_transactionId sp ∉ [id t; id t'])) s1))
  | Throw e => Throw e
  end.
Proof.
  intros Hf Hb Hu Ht Hg Hpair Hne. unfold deleteTransactionBody.
  unfold bind at 1, gets at 1. rewrite Hf.
  unfold bind at 1, gets at 1. rewrite Hb.
  unfold bind at 1, throwIf at 1.
  rewrite bool_decide_eq_false_2 by (intros N; exact (N Hu)).
  unfold ret at 1. unfold bind at 1, gets at 1. rewrite Ht, Hg. cbn [andb].
  rewrite Hpair. cbn [fmap option_fmap option_map].
  unfold orNull. rewrite (truthy_Some _ Hne).
  unfold bind at 1, gets at 1. unfold bind at 1, gets at 1.
  rewrite (truthy_Some _ Hne). unfold bind at 1.
  destruct (revertOnDelete t _ _ _ _ st) as [[u s1]|e]; reflexivity.
Qed.
End TransferDelete.

Section TransferPair.
Import TransactionService.

Lemma createTransaction_transfer_accounts userId dto s r s' :
  createTransactionBody userId dto s = Ok (r, s') ->
  c_isTransfer dto = true ->
  exists a dest, transferAccountsOk s userId dto a dest.
Proof.
  intros H IT. unfold createTransactionBody in H. cbv zeta in H. rewrite IT in H.
  unfold bind at 1, gets at 1 in H. unfold bind at 1, gets at 1 in H.
  destruct (accounts s !! c_accountId dto) as [a|] eqn:Ea; [|discriminate H].
  unfold bind at 1, gets at 1 in H.
  destruct (budgets s !! account_budgetId a) as [bg|] eqn:Eb; [|discriminate H].
  inv_bind H as u0 s0 E0. apply throwIf_Ok in E0 as [Eu [= -> ->]].
  apply bool_decide_eq_false in Eu. apply dec_stable in Eu.
  inv_bind H as dst sv Ev. inv_bind Ev as d1 sv1 Ev1. clear H Ev.
  unfold validateTransfer in Ev1.
  inv_bind Ev1 as u1 s1 E1. apply throwIf_Ok in E1 as [Tt [= -> ->]].
  apply negb_false_iff in Tt.
  inv_bind Ev1 as u2 s2 E2. apply throwIf_Ok in E2 as [Nid [= -> ->]].
  apply bool_decide_eq_false in Nid.
  unfold bind at 1, gets at 1 in Ev1.
  destruct (accounts s !! idOf (c_transferAccountId dto)) as [dest|] eqn:Ed;
    [|discriminate Ev1].
  inv_bind Ev1 as u3 s3 E3. apply throwIf_Ok in E3 as [Hbd [= -> ->]].
  apply bool_decide_eq_false in Hbd. apply dec_stable in Hbd.
  exists a, dest. unfold transferAccountsOk, ownsBudget. rewrite Eb.
  repeat split; try assumption. apply bool_decide_eq_true. exact Eu.
Qed.

Section Rows.
Variables (userId : Id) (dto : CreateTransactionDto) (s : Store) (a dest : Account).
Hypothesis Hok : transferAccountsOk s userId dto a dest.

Local Abbreviation t1 := (transferSourceRow s a dest dto).
Local Abbreviation t2 := (transferDestinationRow s a dest dto).

Lemma pair_ids_fresh :
  (forall x, x ∈ transactions s -> id x <> id t1)
  /\ (forall x, x ∈ transactions s -> id x <> id t2)
  /\ id t1 <> id t2 /\ id t1 <> EmptyString /\ id t2 <> EmptyString.
Proof.
  assert (F2 : forall x, x ∈ transactions s ++ [t1] -> id x <> id t2).
  { intros x Hx E. apply (uuid_fresh (map id (transactions s ++ [t1]))).
    change (uuid (map id (transactions s ++ [t1]))) with (id t2). rewrite <- E.
    apply list_elem_of_fmap. exists x. split; [reflexivity|exact Hx]. }
  split; [apply (fresh_not_in s); reflexivity|].
  split; [intros x Hx; apply F2, elem_of_app; left; exact Hx|].
  split; [apply F2, elem_of_app; right; left|].
  split; apply uuid_nonempty.
Qed.

Lemma pair_group_fresh :
  forall x, x ∈ transactions s -> transferGroupId x <> transferGroupId t1.
Proof.
  intros x Hx E. apply (uuid_fresh (omap transferGroupId (transactions s))).
  apply list_elem_of_omap. exists x. split; [exact Hx|]. exact E.
Qed.

(** Deleting the row [t] of the pair, whose sibling is [t'], from a store
    that holds the pair after the rows of [s]. *)
Lemma delete_pair_row (g : gmap EntryKey Z -> gmap EntryKey Z)
    (t t' : Transaction) (acc acc' : Account) :
  (t = t1 /\ t' = t2 /\ acc = a /\ acc' = dest)
  \/ (t = t2 /\ t' = t1 /\ acc = dest /\ acc' = a) ->
  let s' := with_budgetEntries g
              (with_transactions (fun ts => (ts ++ [t1]) ++ [t2]) s) in
  (forall s'', deleteTransaction userId (id t) s' = (Ok tt, s'') ->
               transactions s'' = transactions s)
  /\ (paymentLinksOk s -> exists s'', deleteTransaction userId (id t) s' = (Ok tt, s'')).
Proof.
  intros Hcase s'.
  destruct Hok as (IT & Ha & Ho & Tt & Nid & Hd & Hbd).
  unfold ownsBudget in Ho.
  destruct (budgets s !! account_budgetId a) as [bg|] eqn:Hb; [|discriminate].
  apply bool_decide_eq_true in Ho.
  destruct pair_ids_fresh as (F1 & F2 & N12 & E1 & E2).
  pose proof pair_group_fresh as FG.
  assert (Hts : transactions s' = transactions s ++ [t1; t2]).
  { unfold s'. cbn [transactions with_budgetEntries with_transactions].
    rewrite <- app_assoc. reflexivity. }
  assert (Hfacts :
    findTransaction (id t) s' = Some t
    /\ budgets s' !! budgetId t = Some bg
    /\ isTransfer t = true /\ truthy (transferGroupId t) = true
    /\ find (fun x => bool_decide (transferGroupId x = transferGroupId t)
                      && bool_decide (id x <> id t)) (transactions s') = Some t'
    /\ id t' <> EmptyString
    /\ accounts s' !! accountId t = Some acc
    /\ accounts s' !! idOf (transferAccountId t) = Some acc'
    /\ budgetId t = account_budgetId a
    /\ filter (fun x => id x ∉ [id t; id t']) (transactions s') = transactions s).
  { assert (Hfilter : forall i j, (i = id t1 /\ j = id t2) \/ (i = id t2 /\ j = id t1) ->
              filter (fun x => id x ∉ [i; j]) (transactions s') = transactions s).
    { intros i j Hij. rewrite Hts, filter_app, filter_all.
      - rewrite !filter_cons, filter_nil.
        rewrite !decide_False; [apply app_nil_r| |].
        + intros N. apply N. destruct Hij as [[-> ->]|[-> ->]];
            [right; left | left].
        + intros N. apply N. destruct Hij as [[-> ->]|[-> ->]];
            [left | right; left].
      - intros x Hx N. apply elem_of_cons in N as [N|N].
        + destruct Hij as [[-> _]|[-> _]]; [exact (F1 x Hx N)|exact (F2 x Hx N)].
        + apply list_elem_of_singleton in N.
          destruct Hij as [[_ ->]|[_ ->]]; [exact (F2 x Hx N)|exact (F1 x Hx N)]. }
    destruct Hcase as [(-> & -> & -> & ->)|(-> & -> & -> & ->)].
    - split.
      { unfold findTransaction. rewrite Hts, find_app_none.
        - cbn [find]. rewrite bool_decide_eq_true_2 by reflexivity. reflexivity.
        - intros y Hy. apply bool_decide_eq_false. exact (F1 y Hy). }
      split; [exact Hb|]. split; [reflexivity|].
      split; [apply truthy_Some, uuid_nonempty|].
      split.
      { rewrite Hts, find_app_none.
        - cbn [find]. rewrite (bool_decide_eq_false_2 (id t1 <> id t1)) by tauto.
          rewrite andb_false_r.
          rewrite bool_decide_eq_true_2 by reflexivity.
          rewrite bool_decide_eq_true_2 by (intros E; exact (N12 (eq_sym E))).
          reflexivity.
        - intros y Hy. apply andb_false_iff. left.
          apply bool_decide_eq_false. exact (FG y Hy). }
      split; [exact E2|]. split; [exact Ha|]. split; [exact Hd|].
      split; [reflexivity|]. apply Hfilter. left. split; reflexivity.
    - split.
      { unfold findTransaction. rewrite Hts, find_app_none.
        - cbn [find]. rewrite (bool_decide_eq_false_2 (id t1 = id t2)) by exact N12.
          rewrite bool_decide_eq_true_2 by reflexivity. reflexivity.
        - intros y Hy. apply bool_decide_eq_false. exact (F2 y Hy). }
      split; [exact Hb|]. split; [reflexivity|].
      split; [apply truthy_Some, uuid_nonempty|].
      split.
      { rewrite Hts, find_app_none.
        - cbn [find]. rewrite bool_decide_eq_true_2 by reflexivity.
          rewrite bool_decide_eq_true_2 by exact N12. reflexivity.
        - intros y Hy. apply andb_false_iff. left.
          apply bool_decide_eq_false. exact (FG y Hy). }
      split; [exact E1|]. split; [exact Hd|]. split; [exact Ha|].
      split; [reflexivity|]. apply Hfilter. right. split; reflexivity. }
  destruct Hfacts as (Hf & Hbg & Htr & Hgr & Hpair & Hne & Hacc & Hacc' & Hbid & Hfil).
  unfold deleteTransaction, run.
  rewrite (deleteTransactionBody_pair userId t t' bg s' Hf Hbg Ho Htr Hgr Hpair Hne).
  rewrite Hacc, Hacc'.
  split.
  - intros s''.
    destruct (revertOnDelete t (Some acc) (Some acc') _ _ s') as [[u st1]|e] eqn:Er;
      [|discriminate].
    apply revertOnDelete_transfer_frame in Er as [g' ->]; [|exact Htr].
    intros [= <-].
    cbn [transactions with_transactions with_splitTransactions with_budgetEntries].
    exact Hfil.
  - intros Hlinks.
    destruct (revertOnDelete_transfer_succeeds t acc acc'
                (getFullYear (date t)) (getMonth (date t) + 1) s' Htr) as [st1 ->].
    + intros T. rewrite Hbid.
      destruct Hcase as [(_ & _ & -> & _)|(_ & _ & -> & _)].
      * exact (Hlinks _ _ Ha T).
      * rewrite <- Hbd. exact (Hlinks _ _ Hd T).
    + intros T. rewrite Hbid.
      destruct Hcase as [(_ & _ & _ & ->)|(_ & _ & _ & ->)].
      * rewrite <- Hbd. exact (Hlinks _ _ Hd T).
      * exact (Hlinks _ _ Ha T).
    + eexists. reflexivity.
Qed.
End Rows.
End TransferPair.

Section TransferTheorem.
Import TransactionService.

Lemma createTransaction_transfer_inv userId dto s r s' :
  createTransaction userId dto s = (Ok r, s') ->
  c_isTransfer dto = true ->
  exists a dest g,
    transferAccountsOk s userId dto a dest
    /\ r = Many [transferSourceRow s a dest dto; transferDestinationRow s a dest dto]
    /\ s' = with_budgetEntries g
              (with_transactions
                 (fun ts => (ts ++ [transferSourceRow s a dest dto])
                            ++ [transferDestinationRow s a dest dto]) s).
Proof.
  intros H IT. apply run_Ok in H.
  destruct (createTransaction_transfer_accounts _ _ _ _ _ H IT) as (a & dest & Hok).
  rewrite (createTransactionBody_transfer_eq userId dto s a dest Hok) in H.
  cbv zeta in H.
  destruct (onBudget a && onBudget dest && truthy (c_categoryId dto)); [discriminate H|].
  destruct (onBudget a && negb (onBudget dest) && negb (truthy (c_categoryId dto)));
    [discriminate H|].
  destruct (_ && negb (categoryInBudget _ _ _)); [discriminate H|].
  destruct (negb (_ && _)); [discriminate H|].
  destruct (transferPayment _ a dest dto) as [[u s2]|e] eqn:Ep; [|discriminate H].
  injection H as <- <-.
  apply transferPayment_frame in Ep as [g ->].
  exists a, dest, g. split; [exact Hok|]. split; reflexivity.
Qed.

(** C3 (amended).  A transfer created by createTransaction persists exactly
    two rows, sharing one fresh transferGroupId, on two different accounts,
    with amounts -|amount| on the source row and |amount| on the destination
    row: equal magnitude and opposite sign, the source row negative and the
    destination row positive whenever the amount is not zero.  A deletion of
    either row of the pair that succeeds removes both rows, and the deletion
    by the creator succeeds when the payment categories linked to accounts
    belong to the budget of their account. *)
Theorem createTransaction_transfer_pair (userId : Id) (dto : CreateTransactionDto)
    (s s' : Store) (r : Created) :
  createTransaction userId dto s = (Ok r, s') ->
  c_isTransfer dto = true ->
  exists t1 t2,
    r = Many [t1; t2]
    /\ transactions s' = transactions s ++ [t1; t2]
    /\ isTransfer t1 = true /\ isTransfer t2 = true
    /\ (exists g, transferGroupId t1 = Some g /\ transferGroupId t2 = Some g
                  /\ g <> EmptyString
                  /\ forall x, x ∈ transactions s -> transferGroupId x <> Some g)
    /\ id t1 <> id t2
    /\ accountId t1 = c_accountId dto
    /\ accountId t2 = idOf (c_transferAccountId dto)
    /\ accountId t1 <> accountId t2
    /\ amount t1 = - Z.abs (c_amount dto) /\ amount t2 = Z.abs (c_amount dto)
    /\ amount t1 = - amount t2
    /\ (c_amount dto <> 0 -> amount t1 < 0 /\ 0 < amount t2)
    /\ (forall t, t = t1 \/ t = t2 ->
          (forall s'', deleteTransaction userId (id t) s' = (Ok tt, s'') ->
                       transactions s'' = transactions s)
          /\ (paymentLinksOk s ->
              exists s'', deleteTransaction userId (id t) s' = (Ok tt, s''))).
Proof.
  intros H IT.
  destruct (createTransaction_transfer_inv _ _ _ _ _ H IT) as (a & dest & g & Hok & -> & ->).
  exists (transferSourceRow s a dest dto), (transferDestinationRow s a dest dto).
  destruct (pair_ids_fresh dto s a dest) as (_ & _ & N12 & _ & _).
  pose proof (pair_group_fresh dto s a dest) as FG.
  pose proof Hok as (_ & _ & _ & _ & Nid & _ & _).
  split; [reflexivity|].
  split.
  { cbn [transactions with_budgetEntries with_transactions].
    rewrite <- app_assoc. reflexivity. }
  split; [reflexivity|]. split; [reflexivity|].
  split.
  { eexists. split; [reflexivity|]. split; [reflexivity|].
    split; [apply uuid_nonempty|exact FG]. }
  split; [exact N12|].
  split; [reflexivity|]. split; [reflexivity|].
  split; [cbn [accountId transferSourceRow transferDestinationRow]; congruence|].
  split; [reflexivity|]. split; [reflexivity|].
  split; [cbn [amount transferSourceRow transferDestinationRow]; lia|].
  split; [cbn [amount transferSourceRow transferDestinationRow]; lia|].
  intros t [Ht|Ht]; rewrite Ht.
  - eapply (delete_pair_row userId dto s a dest Hok g); left; repeat split.
  - eapply (delete_pair_row userId dto s a dest Hok g); right; repeat split.
Qed.
End TransferTheorem.

(** ** Category rules of transfers *)

Section TransferRules.
Import TransactionService.

Lemma categoryInBudget_exists s c b :
  categoryInBudget s c b = true -> categoryRefOk s (Some c) = true.
Proof.
  unfold categoryInBudget, categoryBudgetId, categoryRefOk.
  destruct (categories s !! c); [|discriminate].
  intros _. apply bool_decide_eq_true. eauto.
Qed.

(** C7 (amended).  For a transfer request between two accounts of the
    caller's budget, createTransaction rejects a provided category when both
    accounts are on-budget, rejects a missing category when the source is
    on-budget and the destination is tracking, accepts the request with or
    without a category when the source is tracking and the destination is
    on-budget (a provided category of the budget is stored on the destination
    row), and accepts the request when both accounts are tracking, storing no
    category on either row even if one was provided.  A rejected request
    leaves the store unchanged. *)
Theorem transfer_category_rules (userId : Id) (dto : CreateTransactionDto)
    (s : Store) (a dest : Account) :
  transferAccountsOk s userId dto a dest ->
  let r := fst (createTransaction userId dto s) in
  let s' := snd (createTransaction userId dto s) in
  let t1 := transferSourceRow s a dest dto in
  let t2 := transferDestinationRow s a dest dto in
  (onBudget a = true -> onBudget dest = true -> truthy (c_categoryId dto) = true ->
   r = Throw (HttpError 400 TransferCategoryNotAllowed) /\ s' = s)
  /\ (onBudget a = true -> onBudget dest = false -> truthy (c_categoryId dto) = false ->
      r = Throw (HttpError 400 TransferCategoryRequired) /\ s' = s)
  /\ (onBudget a = false -> onBudget dest = true ->
      (c_categoryId dto = None ->
       r = Ok (Many [t1; t2]) /\ categoryId t1 = None /\ categoryId t2 = None)
      /\ (truthy (c_categoryId dto) = true ->
          categoryInBudget s (idOf (c_categoryId dto)) (account_budgetId a) = true ->
          r = Ok (Many [t1; t2])
          /\ categoryId t1 = None /\ categoryId t2 = c_categoryId dto))
  /\ (onBudget a = false -> onBudget dest = false ->
      r = Ok (Many [t1; t2]) /\ categoryId t1 = None /\ categoryId t2 = None).
Proof.
  intros Hok. cbv zeta. unfold createTransaction, run.
  rewrite (createTransactionBody_transfer_eq userId dto s a dest Hok). cbv zeta.
  unfold transferPayment.
  split; [|split; [|split]].
  - intros -> -> ->. cbn. split; reflexivity.
  - intros -> -> ->. cbn. split; reflexivity.
  - intros Oa Od. split.
    + intros Hc. unfold transferSourceRow, transferDestinationRow.
      rewrite Oa, Od, Hc. cbn. repeat split; reflexivity.
    + intros Tc Hin.
      destruct (c_categoryId dto) as [c|] eqn:Hc; [|discriminate Tc].
      rewrite idOf_Some in Hin.
      pose proof (categoryInBudget_exists _ _ _ Hin) as Fk.
      unfold categoryRefOk in Fk.
      unfold transferSourceRow, transferDestinationRow, categoryRefOk.
      rewrite Oa, Od, ?Hc, ?idOf_Some. cbn [andb negb orb categoryId].
      rewrite Tc, Hin, Fk. cbn. repeat split; reflexivity.
  - intros Oa Od. unfold transferSourceRow, transferDestinationRow.
    rewrite Oa, Od. cbn. repeat split; reflexivity.
Qed.
End TransferRules.

(** ** Split transactions *)

Section Splits.
Import TransactionService.

Lemma adjustForCreditCard_frame b t y m s u s' :
  adjustForCreditCard b t y m s = Ok (u, s') ->
  exists g, s' = with_budgetEntries g s.
Proof.
  unfold adjustForCreditCard, bind, gets, ret.
  destruct (accounts s !! accountId t) as [a|].
  2:{ intros [= _ <-]. eexists. apply with_budgetEntries_id_sym. }
  destruct (bool_decide (account_type a = CREDIT_CARD)).
  2:{ intros [= _ <-]. eexists. apply with_budgetEntries_id_sym. }
  destruct (truthy (paymentCategoryId a)).
  2:{ intros [= _ <-]. eexists. apply with_budgetEntries_id_sym. }
  assert (Hpair : forall r : Result (unit * Store),
             (r = Ok (tt, s)
              \/ (exists k1 d1 k2 d2, r = Ok (tt, bump k1 d1 (bump k2 d2 s)))
              \/ (exists k d, r = Ok (tt, bump k d s))
              \/ (exists e, r = Throw e)) ->
             r = Ok (u, s') -> exists g, s' = with_budgetEntries g s).
  { intros r [->|[(k1 & d1 & k2 & d2 & ->)|[(k & d & ->)|(e & ->)]]].
    - intros [= _ <-]. eexists. apply with_budgetEntries_id_sym.
    - intros [= _ <-]. exists (fun es => bumpM k1 d1 (bumpM k2 d2 es)). reflexivity.
    - intros [= _ <-]. exists (bumpM k d). reflexivity.
    - discriminate. }
  destruct (negb (isTransfer t) && isNegative (amount t) && truthy (categoryId t)).
  { destruct (bool_decide (categoryId t <> paymentCategoryId a)).
    - apply Hpair. rewrite adjustBudgetsForCreditSpending_eq.
      destruct (nonPositive _); [left; reflexivity|].
      destruct (bool_decide _); [left; reflexivity|].
      destruct (categoryInBudget _ _ _); [|right; right; right; eauto].
      destruct (categoryInBudget _ _ _); [|right; right; right; eauto].
      right; left. eauto 10.
    - intros [= _ <-]. eexists. apply with_budgetEntries_id_sym. }
  destruct (negb (isTransfer t) && isPositive (amount t)).
  2:{ intros [= _ <-]. eexists. apply with_budgetEntries_id_sym. }
  assert (Htbb : forall pc,
             BudgetService.handleCreditCardRefundToTBB b pc (amount t) y m s = Ok (u, s') ->
             exists g, s' = with_budgetEntries g s).
  { intros pc. apply Hpair. rewrite handleCreditCardRefundToTBB_eq.
    destruct (nonPositive _); [left; reflexivity|].
    destruct (categoryInBudget _ _ _); [|right; right; right; eauto].
    right; right; left. eauto. }
  destruct (truthy (categoryId t)); [|apply Htbb].
  destruct (bool_decide (categoryId t <> paymentCategoryId a)); [|apply Htbb].
  apply Hpair. rewrite handleCreditCardRefundToCategory_eq.
  destruct (nonPositive _); [left; reflexivity|].
  destruct (bool_decide _); [left; reflexivity|].
  destruct (categoryInBudget _ _ _); [|right; right; right; eauto].
  destruct (categoryInBudget _ _ _); [|right; right; right; eauto].
  right; left. eauto 10.
Qed.

End Splits.

(** ** Updates away from credit cards *)

Section UpdateFrame.
Import TransactionService.

Lemma findOrCreatePayeeByName_payees b n s p s' :
  PayeeService.findOrCreatePayeeByName b n s = Ok (p, s') ->
  s' = s \/ s' = with_payees (fun ps => ps ++ [p]) s.
Proof.
  unfold PayeeService.findOrCreatePayeeByName, bind, throwIf, throw, ret, gets, modify.
  destruct (String.eqb (PayeeService.trim n) ""); [discriminate|].
  destruct (find _ (payees s)).
  - intros [= _ <-]. left. reflexivity.
  - intros [= <- <-]. right. reflexivity.
Qed.

Lemma resolvePayee_payees b pid pname s r s' :
  resolvePayee b pid pname s = Ok (r, s') ->
  s' = s \/ exists p, s' = with_payees (fun ps => ps ++ [p]) s.
Proof.
  unfold resolvePayee.
  destruct (negb (truthy (orNull pid)) && truthy pname).
  - unfold bind.
    destruct (PayeeService.findOrCreatePayeeByName b (idOf pname) s) as [[p s1]|e] eqn:E;
      [|discriminate].
    unfold ret. intros [= _ <-].
    apply findOrCreatePayeeByName_payees in E as [->| ->]; eauto.
  - unfold ret. intros [= _ <-]. left. reflexivity.
Qed.

Lemma getCcBudgetType_NONE t a :
  ~ cardWithPayment a -> getCcBudgetType t (Some a) = NONE.
Proof.
  intros N. unfold getCcBudgetType, cardWithPayment in *.
  case_bool_decide as Ht; cbn [negb]; [|reflexivity].
  destruct (truthy (paymentCategoryId a)); cbn [negb]; [|reflexivity].
  exfalso. apply N. split; [exact Ht|reflexivity].
Qed.

(** C10 (amended).  A successful updateTransaction in which neither the
    account of the transaction before the update nor its account after the
    update is a credit-card account with a linked payment category creates
    and modifies no BudgetEntry row: the assigned amount of every category
    for every month is unchanged.  Besides the transaction rows with the
    updated id, the only table that can change is the payee table, which
    gains at most one row (a payee created from the name in the request). *)
Theorem updateTransaction_frame (userId tid : Id) (dto : UpdateTransactionDto)
    (s s' : Store) (t' : Transaction) :
  updateTransaction userId tid dto s = (Ok t', s') ->
  (forall e ea, findTransaction tid s = Some e ->
                accounts s !! accountId e = Some ea -> ~ cardWithPayment ea) ->
  (forall fa, accounts s !! accountId t' = Some fa -> ~ cardWithPayment fa) ->
  budgetEntries s' = budgetEntries s
  /\ (forall c y m, assignedOf s' c y m = assignedOf s c y m)
  /\ budgets s' = budgets s /\ accounts s' = accounts s
  /\ categoryGroups s' = categoryGroups s /\ categories s' = categories s
  /\ goals s' = goals s /\ splitTransactions s' = splitTransactions s
  /\ (payees s' = payees s \/ exists p, payees s' = payees s ++ [p])
  /\ (exists upd, transactions s'
                  = map (fun x => if bool_decide (id x = tid) then upd x else x)
                        (transactions s)).
Proof.
  intros H Hold Hnew. apply run_Ok in H.
  unfold updateTransactionBody in H.
  unfold bind at 1, gets at 1 in H.
  destruct (findTransaction tid s) as [e|] eqn:Ef; [|discriminate H].
  unfold bind at 1, gets at 1 in H.
  destruct (accounts s !! accountId e) as [ea|] eqn:Ea; [|discriminate H].
  unfold bind at 1, gets at 1 in H.
  destruct (budgets s !! budgetId e) as [bg|] eqn:Eb; [|discriminate H].
  inv_bind H as u0 s0 E0. apply throwIf_Ok in E0 as [_ [= -> ->]].
  cbv zeta in H.
  rewrite (getCcBudgetType_NONE e ea (Hold e ea eq_refl Ea)) in H.
  (* payee *)
  inv_bind H as payee s1 Ep.
  assert (Hs1 : s1 = s \/ exists p, s1 = with_payees (fun ps => ps ++ [p]) s).
  { destruct (bool_decide (is_Some (u_payeeId dto)) || bool_decide (is_Some (u_payeeName dto))).
    - inv_bind Ep as p sp Er. unfold ret in Ep. injection Ep as _ <-.
      eapply resolvePayee_payees, Er.
    - unfold ret in Ep. injection Ep as _ <-. left. reflexivity. }
  clear Ep.
  (* category *)
  inv_bind H as category s2 Ec.
  assert (Hs2 : s2 = s1).
  { destruct (u_categoryId dto) as [c|]; [|unfold ret in Ec; congruence].
    destruct (negb (isSplit e)); [|unfold ret in Ec; congruence].
    destruct (truthy c); [|unfold ret in Ec; congruence].
    inv_bind Ec as uc sc Evc. apply validateCategory_Ok in Evc as [_ [= _ ->]].
    unfold ret in Ec. congruence. }
  subst s2. clear Ec.
  (* account *)
  inv_bind H as account s3 Eacc.
  assert (Hs3 : s3 = s1 /\ accounts s1 !! default (accountId e) (fst account)
                          = Some (snd account)).
  { assert (Hsame : accounts s1 = accounts s)
      by (destruct Hs1 as [->|[p ->]]; reflexivity).
    destruct (u_accountId dto) as [aid|].
    - destruct (bool_decide (aid <> accountId e)) eqn:Hne.
      + unfold bind at 1, gets at 1 in Eacc.
        destruct (accounts s1 !! aid) as [na|] eqn:Ena; [|discriminate Eacc].
        inv_bind Eacc as ub sb Eb'. apply throwIf_Ok in Eb' as [_ [= _ ->]].
        unfold ret in Eacc. injection Eacc as <- <-. split; [reflexivity|exact Ena].
      + unfold ret in Eacc. injection Eacc as <- <-. split; [reflexivity|].
        cbn. rewrite Hsame. exact Ea.
    - unfold ret in Eacc. injection Eacc as <- <-. split; [reflexivity|].
      cbn. rewrite Hsame. exact Ea. }
  destruct Hs3 as [-> Hfinal]. clear Eacc.
  inv_bind H as u4 s4 E4. apply throwIf_Ok in E4 as [_ [= _ ->]].
  inv_bind H as updated s5 Eu.
  unfold updateRow in Eu. unfold bind at 1, gets at 1 in Eu.
  inv_bind Eu as u6 s6 E6. apply throwIf_Ok in E6 as [_ [= _ ->]].
  unfold bind, modify, ret in Eu. injection Eu as <- <-.
  set (data := {| upd_date := u_date dto; upd_amount := u_amount dto;
                  upd_memo := u_memo dto; upd_cleared := u_cleared dto;
                  upd_approved := u_approved dto; upd_payee := payee;
                  upd_category := category; upd_account := fst account |}) in *.
  unfold revertOld in H. cbn [bool_decide decide_rel] in H.
  rewrite bool_decide_eq_false_2 in H by (intros N; apply N; reflexivity).
  unfold bind at 1, ret at 1 in H.
  inv_bind H as u7 s7 E7.
  unfold ret in H. injection H as <- <-.
  assert (Hacc' : accounts s !! accountId (applyUpdate data e) = Some (snd account)).
  { cbn [accountId applyUpdate data upd_account].
    destruct Hs1 as [->|[p ->]]; exact Hfinal. }
  rewrite (getCcBudgetType_NONE _ _ (Hnew _ Hacc')) in E7.
  unfold applyNew in E7.
  rewrite bool_decide_eq_false_2 in E7 by (intros N; apply N; reflexivity).
  unfold ret in E7. inversion E7; subst s7. clear E7.
  destruct Hs1 as [->|[p ->]];
    cbn [budgetEntries budgets accounts categoryGroups categories goals
         splitTransactions payees transactions with_transactions with_payees];
    unfold assignedOf;
    cbn [budgetEntries budgets accounts categoryGroups categories goals
         splitTransactions payees transactions with_transactions with_payees];
    repeat split; eauto.
Qed.
End UpdateFrame.

(** ** The properties on the example stores *)

Section Examples.
Import TransactionService.

(** A payment of 100 from checking to the credit card. *)
Lemma createTransaction_transfer_pair_witness :
  exists t1 t2 s',
    createTransaction "u" (transferDto "chk" "cc" 100 None false []) cardStore
    = (Ok (Many [t1; t2]), s')
    /\ amount t1 = -100 /\ amount t2 = 100
    /\ transferGroupId t1 = transferGroupId t2
    /\ (exists s'', deleteTransaction "u" (id t1) s' = (Ok tt, s'')
                    /\ transactions s'' = [])
    /\ (exists s'', deleteTransaction "u" (id t2) s' = (Ok tt, s'')
                    /\ transactions s'' = []).
Proof.
  assert (Hr : isOk (fst (createTransaction "u"
                            (transferDto "chk" "cc" 100 None false []) cardStore))
               = true) by (vm_compute; reflexivity).
  destruct (createTransaction "u" (transferDto "chk" "cc" 100 None false []) cardStore)
    as [r s'] eqn:E.
  destruct r as [r|e]; [|discriminate Hr].
  destruct (createTransaction_transfer_pair "u" _ _ _ _ E eq_refl)
    as (t1 & t2 & -> & _ & _ & _ & (g & G1 & G2 & _) & _ & _ & _ & _ & A1 & A2 & _ & _ & D).
  assert (L : paymentLinksOk cardStore).
  { intros aid acc Ha T. unfold cardStore in Ha. cbn [accounts] in Ha.
    apply lookup_insert_Some in Ha as [[_ <-]|[_ Ha]]; [discriminate T|].
    apply lookup_insert_Some in Ha as [[_ <-]|[_ Ha]]; [vm_compute; reflexivity|].
    apply lookup_insert_Some in Ha as [[_ <-]|[_ Ha]]; [discriminate T|].
    apply lookup_singleton_Some in Ha as [_ <-]. discriminate T. }
  exists t1, t2, s'. split; [reflexivity|].
  split; [exact A1|]. split; [exact A2|]. split; [congruence|].
  split.
  - destruct (D t1 (or_introl eq_refl)) as [D1 D2].
    destruct (D2 L) as [s'' Hs'']. exists s''. split; [exact Hs''|]. exact (D1 s'' Hs'').
  - destruct (D t2 (or_intror eq_refl)) as [D1 D2].
    destruct (D2 L) as [s'' Hs'']. exists s''. split; [exact Hs''|]. exact (D1 s'' Hs'').
Defined.

(** The claim without the amendment fails for a transfer of amount zero:
    both rows carry the amount 0, so the source row is not negative and the
    destination row is not positive. *)
Lemma createTransaction_transfer_zero_counterexample :
  exists t1 t2 s',
    createTransaction "u" (transferDto "chk" "cc" 0 None false []) cardStore
    = (Ok (Many [t1; t2]), s')
    /\ transactions s' = [t1; t2]
    /\ ~ (amount t1 < 0) /\ ~ (0 < amount t2).
Proof.
  eexists. eexists. eexists. split; [vm_compute; reflexivity|].
  split; [reflexivity|]. split; vm_compute; discriminate.
Qed.
End Examples.

Section MoreExamples.
Import TransactionService.




Lemma tracking_accounts_ok :
  transferAccountsOk cardStore "u" (transferDto "inv" "mtg" 100 (Some "A") false [])
    (mkAccount "Broker" INVESTMENT false 0 0 0 false "b" None None None)
    (mkAccount "Mortgage" MORTGAGE false 0 0 0 false "b" None None None).
Proof.
  unfold transferAccountsOk. repeat split; try (vm_compute; reflexivity).
  vm_compute. discriminate.
Qed.

(** A transfer between two tracking accounts that names a category is
    accepted, and neither row carries the category. *)
Lemma transfer_category_rules_witness :
  exists t1 t2,
    fst (createTransaction "u" (transferDto "inv" "mtg" 100 (Some "A") false [])
           cardStore) = Ok (Many [t1; t2])
    /\ categoryId t1 = None /\ categoryId t2 = None.
Proof.
  destruct (transfer_category_rules "u" _ cardStore _ _ tracking_accounts_ok)
    as (_ & _ & _ & H).
  destruct (H eq_refl eq_refl) as (Hr & H1 & H2).
  eexists. eexists. split; [exact Hr|]. split; [exact H1|exact H2].
Defined.

(** The claim without the amendment fails between two tracking accounts: a
    provided category is not rejected. *)
Lemma transfer_tracking_category_counterexample :
  exists a dest,
    accounts cardStore !! "inv" = Some a /\ accounts cardStore !! "mtg" = Some dest
    /\ onBudget a = false /\ onBudget dest = false
    /\ truthy (c_categoryId (transferDto "inv" "mtg" 100 (Some "A") false [])) = true
    /\ isThrow (fst (createTransaction "u"
                       (transferDto "inv" "mtg" 100 (Some "A") false []) cardStore))
       = false.
Proof.
  eexists. eexists. split; [vm_compute; reflexivity|].
  split; [vm_compute; reflexivity|].
  repeat split; vm_compute; reflexivity.
Qed.

(** A monthly-funding request that also carries a target amount and a target
    date is stored with only its monthly funding amount; without the monthly
    funding amount it is rejected. *)
Lemma upsertGoal_shape_witness :
  (exists g, fst (GoalService.upsertGoalForCategory "u" "b" "g" "A" fundingDto moveStore)
             = Ok g
             /\ goal_type g = MONTHLY_FUNDING
             /\ monthlyFundingAmount g = Some 100
             /\ targetAmount g = None /\ targetDate g = None)
  /\ exists m,
       fst (GoalService.upsertGoalForCategory "u" "b" "g" "A"
              (GoalService.mkGoalDto None (GoalService.Known MONTHLY_FUNDING)
                 (Some 500) None None) moveStore)
       = Throw (HttpError 400 m).
Proof.
  split.
  - destruct (upsertGoal_shape "u" "b" "g" "A" fundingDto moveStore) as [H _].
    assert (Hx : exists g, fst (GoalService.upsertGoalForCategory "u" "b" "g" "A"
                                  fundingDto moveStore) = Ok g)
      by (eexists; vm_compute; reflexivity).
    destruct Hx as [g Hg]. destruct (H g Hg) as (_ & Ht & Hs).
    injection Ht as Ht. unfold goalShape in Hs. rewrite <- Ht in Hs.
    destruct Hs as ((a & Ha & _) & H1 & H2).
    exists g. split; [exact Hg|]. split; [symmetry; exact Ht|].
    split; [|split; assumption].
    rewrite Ha. f_equal.
    assert (Hm : monthlyFundingAmount <$> fst (match
                   GoalService.upsertGoalForCategory "u" "b" "g" "A" fundingDto moveStore
                   with (Ok g0, _) => (Some g0, tt) | _ => (None, tt) end)
                 = Some (Some 100)) by (vm_compute; reflexivity).
    destruct (GoalService.upsertGoalForCategory "u" "b" "g" "A" fundingDto moveStore)
      as [[g0|e] s0]; cbn [fst] in Hg; [|discriminate Hg].
    injection Hg as ->. cbn in Hm. congruence.
  - destruct (upsertGoal_shape "u" "b" "g" "A"
                (GoalService.mkGoalDto None (GoalService.Known MONTHLY_FUNDING)
                   (Some 500) None None) moveStore) as [_ H].
    destruct (H eq_refl) as (_ & _ & Hm). apply Hm. vm_compute. reflexivity.
Defined.

Lemma balanceStore_no_card :
  forall i a, accounts balanceStore !! i = Some a -> ~ cardWithPayment a.
Proof.
  intros i a Ha [Ht _]. unfold balanceStore in Ha. cbn [accounts] in Ha.
  apply lookup_singleton_Some in Ha as [_ <-]. discriminate Ht.
Qed.

(** Changing the amount of a transaction on a checking account. *)
Lemma updateTransaction_frame_witness :
  exists t' s',
    updateTransaction "u" "t1" (amountUpdate 120) balanceStore = (Ok t', s')
    /\ amount t' = 120
    /\ budgetEntries s' = budgetEntries balanceStore
    /\ payees s' = payees balanceStore.
Proof.
  eexists. eexists.
  match goal with
  | |- ?U = (Ok ?T, ?S) /\ _ =>
      assert (Hu : U = (Ok T, S)) by (vm_compute; reflexivity);
      destruct (updateTransaction_frame "u" "t1" (amountUpdate 120) balanceStore S T Hu)
        as (He & _)
  end.
  - intros e ea _ Ha. exact (balanceStore_no_card _ _ Ha).
  - intros fa Ha. exact (balanceStore_no_card _ _ Ha).
  - split; [exact Hu|]. split; [reflexivity|]. split; [exact He|reflexivity].
Defined.

(** The claim without the amendment fails when the update names a payee that
    does not exist yet: besides the transaction row a Payee row is created,
    although no account involved is a credit card. *)
Lemma updateTransaction_payee_counterexample :
  exists t' s',
    updateTransaction "u" "t1" (payeeUpdate "Shop") balanceStore = (Ok t', s')
    /\ (forall i a, accounts balanceStore !! i = Some a -> ~ cardWithPayment a)
    /\ budgetEntries s' = budgetEntries balanceStore
    /\ payees balanceStore = []
    /\ payees s' = [ {| payee_id := "x"; payee_name := "Shop"; payee_budgetId := "b" |} ].
Proof.
  eexists. eexists. split; [vm_compute; reflexivity|].
  split; [exact balanceStore_no_card|].
  repeat split; vm_compute; reflexivity.
Qed.
End MoreExamples.

Section AssignMoney.
Import BudgetService.




End AssignMoney.

(** ** Accounts *)

Section CreateAccount.
Import AccountService.

Lemma keys_fresh {A} (m : gmap Id A) : m !! uuid (keys m) = None.
Proof.
  destruct (m !! uuid (keys m)) as [v|] eqn:E; [|reflexivity].
  exfalso. apply (uuid_fresh (keys m)). unfold keys.
  apply list_elem_of_fmap. exists (uuid (map fst (map_to_list m)), v).
  split; [reflexivity|]. apply elem_of_map_to_list. exact E.
Qed.

Lemma find_map_to_list {A} (p : Id * A -> bool) (m : gmap Id A) g :
  find p (map_to_list m) = Some g -> m !! fst g = Some (snd g) /\ p g = true.
Proof.
  intros [Hin Hp]%find_some. split; [|exact Hp].
  apply elem_of_map_to_list. destruct g. apply list_elem_of_In. exact Hin.
Qed.

Lemma find_map_to_list_none {A} (p : Id * A -> bool) (m : gmap Id A) :
  find p (map_to_list m) = None -> forall i a, m !! i = Some a -> p (i, a) = false.
Proof.
  intros Hn i a Hi. apply (find_none _ _ Hn (i, a)).
  apply list_elem_of_In, elem_of_map_to_list. exact Hi.
Qed.

Lemma createPaymentCategory_eq accountId account s :
  let b := account_budgetId account in
  let gid := match paymentGroupOf s b with
             | Some g => fst g
             | None => uuid (keys (categoryGroups s))
             end in
  let s1 := match paymentGroupOf s b with
            | Some g => s
            | None => with_categoryGroups
                        (insert gid {| group_name := paymentGroupName;
                                       group_budgetId := b |}) s
            end in
  let pc := uuid (keys (categories s)) in
  createPaymentCategory accountId account s =
  Ok (linkPaymentCategory pc account,
      with_accounts (alter (linkPaymentCategory pc) accountId)
        (with_categories
           (insert pc {| category_name := String.append (account_name account)
                                            " Payments";
                         categoryGroupId := gid |}) s1)).
Proof.
  cbv zeta. unfold createPaymentCategory, paymentGroupOf, bind, gets, ret, modify.
  destruct (find _ (map_to_list (categoryGroups s))) as [g|]; reflexivity.
Qed.

Lemma createAccountBody_eq userId dto now s :
  ownsBudget s userId (ca_budgetId dto) = true ->
  let b := ca_budgetId dto in
  let aid := uuid (keys (accounts s)) in
  let account :=
    {| account_name := ca_name dto; account_type := ca_type dto;
       onBudget := default (getDefaultOnBudgetStatus (ca_type dto)) (ca_onBudget dto);
       stored_balance := 0; stored_clearedBalance := 0; stored_unclearedBalance := 0;
       isClosed := false; account_budgetId := b; paymentCategoryId := None;
       officialName := ca_officialName dto; note := ca_note dto |} in
  let s1 := with_accounts (insert aid account) s in
  let linked :=
    if bool_decide (ca_type dto = CREDIT_CARD)
    then createPaymentCategory aid account s1
    else Ok (account, s1) in
  createAccountBody userId dto now s =
  match linked with
  | Ok (account', s2) =>
      let s3 :=
        match ca_balance dto with
        | Some v =>
            if negb (v =? 0)
            then with_transactions
                   (fun ts => ts ++ [initialBalanceRow (uuid (map id (transactions s2)))
                                       aid b now v]) s2
            else s2
        | None => s2
        end in
      Ok (withBalances aid account' s3, s3)
  | Throw e => Throw e
  end.
Proof.
  intros Ho. cbv zeta. unfold createAccountBody. unfold bind at 1.
  rewrite getBudgetById_eq. unfold ownsBudget in Ho.
  destruct (budgets s !! ca_budgetId dto) as [bg|]; [|discriminate].
  apply bool_decide_eq_true in Ho.
  rewrite bool_decide_eq_false_2 by (intros ?; contradiction).
  unfold bind at 1. unfold gets at 1. unfold bind at 1. unfold modify at 1.
  unfold bind at 1. cbn [account_type].
  destruct (bool_decide (ca_type dto = CREDIT_CARD)).
  - destruct (createPaymentCategory _ _ _) as [[a' s2]|e]; [|reflexivity].
    unfold bind, gets, modify, ret.
    destruct (ca_balance dto) as [v|]; [|reflexivity].
    destruct (negb (v =? 0)); reflexivity.
  - unfold ret at 1. unfold bind, gets, modify, ret.
    destruct (ca_balance dto) as [v|]; [|reflexivity].
    destruct (negb (v =? 0)); reflexivity.
Qed.

(** The store after [createAccount] by the owner of the budget. *)
Lemma createAccount_store userId dto now s :
  ownsBudget s userId (ca_budgetId dto) = true ->
  let b := ca_budgetId dto in
  let aid := uuid (keys (accounts s)) in
  let pc := uuid (keys (categories s)) in
  let gid := match paymentGroupOf s b with
             | Some g => fst g
             | None => uuid (keys (categoryGroups s))
             end in
  let card := bool_decide (ca_type dto = CREDIT_CARD) in
  let account :=
    {| account_name := ca_name dto; account_type := ca_type dto;
       onBudget := default (getDefaultOnBudgetStatus (ca_type dto)) (ca_onBudget dto);
       stored_balance := 0; stored_clearedBalance := 0; stored_unclearedBalance := 0;
       isClosed := false; account_budgetId := b;
       paymentCategoryId := if card then Some pc else None;
       officialName := ca_officialName dto; note := ca_note dto |} in
  exists s',
    createAccount userId dto now s = (Ok (withBalances aid account s'), s')
    /\ accounts s' = <[aid := account]> (accounts s)
    /\ categories s'
       = (if card
          then <[pc := {| category_name := String.append (ca_name dto) " Payments";
                          categoryGroupId := gid |}]> (categories s)
          else categories s)
    /\ categoryGroups s'
       = (if card
          then match paymentGroupOf s b with
               | Some _ => categoryGroups s
               | None => <[gid := {| group_name := paymentGroupName;
                                     group_budgetId := b |}]> (categoryGroups s)
               end
          else categoryGroups s)
    /\ transactions s'
       = (match ca_balance dto with
          | Some v =>
              if negb (v =? 0)
              then transactions s
                   ++ [initialBalanceRow (uuid (map id (transactions s))) aid b now v]
              else transactions s
          | None => transactions s
          end)
    /\ budgets s' = budgets s /\ budgetEntries s' = budgetEntries s
    /\ goals s' = goals s /\ payees s' = payees s
    /\ splitTransactions s' = splitTransactions s.
Proof.
  intros Ho. cbv zeta. unfold createAccount, run.
  rewrite (createAccountBody_eq _ _ _ _ Ho). cbv zeta.
  destruct (bool_decide (ca_type dto = CREDIT_CARD)).
  - rewrite createPaymentCategory_eq. cbv zeta.
    cbn [account_budgetId with_accounts categoryGroups categories account_name].
    change (paymentGroupOf (with_accounts _ s) ?b) with (paymentGroupOf s b).
    eexists. split; [reflexivity|].
    destruct (paymentGroupOf s (ca_budgetId dto)) as [g|];
      destruct (ca_balance dto) as [v|]; try destruct (negb (v =? 0));
      cbn [with_accounts with_categories with_categoryGroups with_transactions
           accounts categories categoryGroups transactions budgets budgetEntries
           goals payees splitTransactions];
      (split; [rewrite alter_insert_eq; reflexivity|]); repeat split; reflexivity.
  - eexists. split; [reflexivity|].
    destruct (ca_balance dto) as [v|]; try destruct (negb (v =? 0));
      cbn [with_accounts with_categories with_categoryGroups with_transactions
           accounts categories categoryGroups transactions budgets budgetEntries
           goals payees splitTransactions];
      repeat split; reflexivity.
Qed.

Lemma categoryInBudget_mono s s' c b :
  categories s ⊆ categories s' -> categoryGroups s ⊆ categoryGroups s' ->
  categoryInBudget s c b = true -> categoryInBudget s' c b = true.
Proof.
  intros Hc Hg. unfold categoryInBudget, categoryBudgetId.
  destruct (categories s !! c) as [row|] eqn:Hrow; [|discriminate].
  rewrite (lookup_weaken _ _ _ _ Hrow Hc).
  destruct (categoryGroups s !! categoryGroupId row) as [g|] eqn:Hgr; [|discriminate].
  rewrite (lookup_weaken _ _ _ _ Hgr Hg). auto.
Qed.

(** [createAccount] by the owner of the budget succeeds and stores a new,
    open account of the budget under a fresh id, leaving the other accounts
    as they are.  For a credit card it links the account to a new payment
    category named after the account, placed in a group named "Credit Card
    Payments" of the same budget, and an existing group of that name is
    reused; for any other type no category and no group is created.  The
    links of all accounts to their payment categories stay valid. *)
Theorem createAccount_payment_category (userId : Id) (dto : CreateAccountDto)
    (now : Date) (s : Store) :
  ownsBudget s userId (ca_budgetId dto) = true ->
  let b := ca_budgetId dto in
  exists resp s' a,
    createAccount userId dto now s = (Ok resp, s')
    /\ accounts s !! resp_id resp = None
    /\ accounts s' !! resp_id resp = Some a
    /\ account_budgetId a = b /\ account_type a = ca_type dto /\ isClosed a = false
    /\ paymentCategoryId a = resp_paymentCategoryId resp
    /\ (forall i, i <> resp_id resp -> accounts s' !! i = accounts s !! i)
    /\ (ca_type dto = CREDIT_CARD ->
        exists pc c g,
          paymentCategoryId a = Some pc /\ truthy (Some pc) = true
          /\ categories s !! pc = None /\ categories s' !! pc = Some c
          /\ category_name c = String.append (ca_name dto) " Payments"
          /\ categoryGroups s' !! categoryGroupId c = Some g
          /\ group_name g = paymentGroupName /\ group_budgetId g = b
          /\ categoryInBudget s' pc b = true
          /\ (is_Some (paymentGroupOf s b) -> categoryGroups s' = categoryGroups s))
    /\ (ca_type dto <> CREDIT_CARD ->
        paymentCategoryId a = None /\ categories s' = categories s
        /\ categoryGroups s' = categoryGroups s)
    /\ (paymentLinksOk s -> paymentLinksOk s').
Proof.
  intros Ho. cbv zeta.
  destruct (createAccount_store userId dto now s Ho)
    as (s' & E & Ha & Hc & Hg & _ & _).
  cbv zeta in E, Ha, Hc, Hg.
  set (aid := uuid (keys (accounts s))) in *.
  set (pc := uuid (keys (categories s))) in *.
  set (b := ca_budgetId dto) in *.
  assert (Hfa : accounts s !! aid = None) by apply keys_fresh.
  assert (Hfc : categories s !! pc = None) by apply keys_fresh.
  assert (Hsubc : categories s ⊆ categories s').
  { rewrite Hc. destruct (bool_decide _); [|reflexivity].
    apply insert_subseteq. exact Hfc. }
  assert (Hsubg : categoryGroups s ⊆ categoryGroups s').
  { rewrite Hg. destruct (bool_decide _); [|reflexivity].
    destruct (paymentGroupOf s b); [reflexivity|].
    apply insert_subseteq, keys_fresh. }
  (* the payment category of a card *)
  assert (Hcard : ca_type dto = CREDIT_CARD ->
                  exists c g,
                    categories s' !! pc = Some c
                    /\ category_name c = String.append (ca_name dto) " Payments"
                    /\ categoryGroups s' !! categoryGroupId c = Some g
                    /\ group_name g = paymentGroupName /\ group_budgetId g = b
                    /\ categoryInBudget s' pc b = true
                    /\ (is_Some (paymentGroupOf s b) ->
                        categoryGroups s' = categoryGroups s)).
  { intros Ht. rewrite (bool_decide_eq_true_2 _ Ht) in Hc, Hg.
    destruct (paymentGroupOf s b) as [g0|] eqn:Hpg.
    - unfold paymentGroupOf in Hpg. apply find_map_to_list in Hpg as [Hl Hp].
      apply andb_true_iff in Hp as [Hb%bool_decide_eq_true Hn%bool_decide_eq_true].
      exists {| category_name := String.append (ca_name dto) " Payments";
                categoryGroupId := fst g0 |}, (snd g0).
      rewrite Hc, Hg, lookup_insert_eq. cbn [categoryGroupId].
      split; [reflexivity|]. split; [reflexivity|]. split; [exact Hl|].
      split; [exact Hn|]. split; [exact Hb|]. split; [|intros _; reflexivity].
      unfold categoryInBudget, categoryBudgetId. rewrite Hc, Hg, lookup_insert_eq.
      cbn [categoryGroupId]. rewrite Hl. apply bool_decide_eq_true. exact Hb.
    - exists {| category_name := String.append (ca_name dto) " Payments";
                categoryGroupId := uuid (keys (categoryGroups s)) |},
             {| group_name := paymentGroupName; group_budgetId := b |}.
      rewrite Hc, Hg, lookup_insert_eq. cbn [categoryGroupId].
      rewrite lookup_insert_eq.
      split; [reflexivity|]. split; [reflexivity|]. split; [reflexivity|].
      split; [reflexivity|]. split; [reflexivity|].
      split; [|intros [? [=]]].
      unfold categoryInBudget, categoryBudgetId. rewrite Hc, Hg, lookup_insert_eq.
      cbn [categoryGroupId]. rewrite lookup_insert_eq.
      apply bool_decide_eq_true. reflexivity. }
  eexists _, s', _. split; [exact E|]. cbn [withBalances resp_id resp_paymentCategoryId].
  split; [exact Hfa|]. rewrite Ha, lookup_insert_eq.
  split; [reflexivity|]. split; [reflexivity|]. split; [reflexivity|].
  split; [reflexivity|]. split; [reflexivity|].
  split. { intros i Hi. rewrite lookup_insert_ne by congruence. reflexivity. }
  cbn [paymentCategoryId].
  split.
  { intros Ht. destruct (Hcard Ht) as (c & g & H1 & H2 & H3 & H4 & H5 & H6 & H7).
    exists pc, c, g. rewrite (bool_decide_eq_true_2 _ Ht).
    split; [reflexivity|]. split; [apply truthy_Some, uuid_nonempty|].
    repeat split; assumption. }
  split.
  { intros Ht. rewrite (bool_decide_eq_false_2 _ Ht) in Hc, Hg |- *.
    repeat split; assumption. }
  intros Hlinks i acc Hi Hp. rewrite Ha in Hi.
  destruct (decide (aid = i)) as [<-|Hne].
  - rewrite lookup_insert_eq in Hi. injection Hi as <-.
    cbn [paymentCategoryId account_budgetId] in Hp |- *.
    destruct (decide (ca_type dto = CREDIT_CARD)) as [Ht|Ht].
    + rewrite (bool_decide_eq_true_2 _ Ht) in Hp |- *. cbn [TransactionService.idOf default].
      destruct (Hcard Ht) as (c & g & _ & _ & _ & _ & _ & H6 & _). exact H6.
    + rewrite (bool_decide_eq_false_2 _ Ht) in Hp. discriminate.
  - rewrite lookup_insert_ne in Hi by assumption.
    apply (categoryInBudget_mono s s'); [assumption..|]. apply (Hlinks i); assumption.
Qed.

End CreateAccount.

(** ** Balances after changes of the ledger *)

Section BalanceChanges.
Import AccountService TransactionService.

Lemma sumZ_app (l1 l2 : list Z) : sumZ (l1 ++ l2) = sumZ l1 + sumZ l2.
Proof.
  unfold sumZ. induction l1 as [|x l1 IH]; cbn [app foldr]; [reflexivity|].
  rewrite IH. lia.
Qed.

Lemma filter_none {A} (P : A -> Prop) `{!forall x, Decision (P x)} (l : list A) :
  (forall x, x ∈ l -> ~ P x) -> filter P l = [].
Proof.
  induction l as [|x l IH]; intros Hn; [reflexivity|].
  rewrite filter_cons, decide_False by (apply Hn, list_elem_of_here).
  apply IH. intros y Hy. apply Hn, list_elem_of_further, Hy.
Qed.

Lemma aggregate_app (p : Transaction -> bool) s s' l :
  transactions s' = transactions s ++ l ->
  default 0 (aggregateSum p s')
  = default 0 (aggregateSum p s)
    + sumZ (map amount (filter (fun t => p t = true) l)).
Proof.
  intros E. rewrite !aggregateSum_default, E, filter_app, map_app, sumZ_app.
  reflexivity.
Qed.

(** The balances of an account after rows were appended to the ledger. *)
Lemma calculateAccountBalances_app aid s s' l :
  transactions s' = transactions s ++ l ->
  let r := calculateAccountBalances aid s in
  let d := sumZ (map amount (filter (fun t => accountId t = aid) l)) in
  let dc := sumZ (map amount
                    (filter (fun t => accountId t = aid
                                      /\ isClearedOrReconciled t = true) l)) in
  calculateAccountBalances aid s'
  = {| balance := balance r + d;
       clearedBalance := clearedBalance r + dc;
       unclearedBalance := unclearedBalance r + d - dc |}.
Proof.
  intros E. cbv zeta. unfold calculateAccountBalances.
  rewrite !(aggregate_app _ s s' l E). cbn [balance clearedBalance unclearedBalance].
  assert (E1 : filter (fun t => bool_decide (accountId t = aid) = true) l
               = filter (fun t => accountId t = aid) l).
  { apply list_filter_iff. intros t. rewrite bool_decide_eq_true. reflexivity. }
  assert (E2 : filter (fun t => bool_decide (accountId t = aid)
                                && isClearedOrReconciled t = true) l
               = filter (fun t => accountId t = aid
                                  /\ isClearedOrReconciled t = true) l).
  { apply list_filter_iff. intros t.
    rewrite andb_true_iff, bool_decide_eq_true. reflexivity. }
  rewrite E1, E2. f_equal. lia.
Qed.

Lemma calculateAccountBalances_no_rows aid s :
  (forall t, t ∈ transactions s -> accountId t <> aid) ->
  calculateAccountBalances aid s = mkBalances 0 0 0.
Proof.
  intros H. unfold calculateAccountBalances. rewrite !aggregateSum_default.
  assert (E : forall q : Transaction -> bool,
             filter (fun t => bool_decide (accountId t = aid) && q t = true)
                    (transactions s) = []).
  { intros q. apply filter_none. intros t Ht.
    rewrite andb_true_iff, bool_decide_eq_true. intros [Hq _]. exact (H t Ht Hq). }
  assert (E0 : filter (fun t => bool_decide (accountId t = aid) = true)
                      (transactions s) = []).
  { apply filter_none. intros t Ht.
    rewrite bool_decide_eq_true. exact (H t Ht). }
  rewrite E, E0. reflexivity.
Qed.

Lemma calculateAccountBalances_same_rows aid s s' :
  transactions s' = transactions s ->
  calculateAccountBalances aid s' = calculateAccountBalances aid s.
Proof.
  intros E. unfold calculateAccountBalances, aggregateSum. rewrite E. reflexivity.
Qed.

(** An account created with an initial balance shows that balance, all of
    it cleared: [createAccount] records the balance as one cleared, approved
    and uncategorised transaction dated at the time of the call, and records
    nothing when the balance is absent or zero.  The balances of the other
    accounts and the assigned amounts do not change. *)
Theorem createAccount_initial_balance (userId : Id) (dto : CreateAccountDto)
    (now : Date) (s : Store) :
  ownsBudget s userId (ca_budgetId dto) = true ->
  transactionsLinked s ->
  let v := default 0 (ca_balance dto) in
  exists resp s',
    createAccount userId dto now s = (Ok resp, s')
    /\ resp_balances resp = mkBalances v v 0
    /\ calculateAccountBalances (resp_id resp) s' = mkBalances v v 0
    /\ (v = 0 -> transactions s' = transactions s)
    /\ (v <> 0 ->
        exists t, transactions s' = transactions s ++ [t]
          /\ amount t = v /\ cleared t = CLEARED /\ approved t = true
          /\ date t = now /\ accountId t = resp_id resp
          /\ budgetId t = ca_budgetId dto
          /\ categoryId t = None /\ isTransfer t = false /\ isSplit t = false)
    /\ (forall aid, aid <> resp_id resp ->
          calculateAccountBalances aid s' = calculateAccountBalances aid s)
    /\ budgetEntries s' = budgetEntries s.
Proof.
  intros Ho Hl. cbv zeta.
  destruct (createAccount_store userId dto now s Ho)
    as (s' & E & _ & _ & _ & Ht & _ & He & _).
  cbv zeta in E, Ht.
  set (aid := uuid (keys (accounts s))) in *.
  assert (Hfresh : forall t, t ∈ transactions s -> accountId t <> aid).
  { intros t Hin Heq. destruct (Hl t Hin) as [a Ha].
    rewrite Heq in Ha. unfold aid in Ha. rewrite keys_fresh in Ha. discriminate. }
  eexists _, s'. split; [exact E|]. cbn [withBalances resp_balances resp_id].
  assert (Hb : calculateAccountBalances aid s'
               = mkBalances (default 0 (ca_balance dto)) (default 0 (ca_balance dto)) 0
               /\ (forall aid', aid' <> aid ->
                     calculateAccountBalances aid' s' = calculateAccountBalances aid' s)).
  { destruct (ca_balance dto) as [v|];
      [change (default 0 (Some v)) with v|change (default 0 (@None Z)) with 0].
    2:{ split; [|intros; apply calculateAccountBalances_same_rows; exact Ht].
        rewrite (calculateAccountBalances_same_rows _ _ _ Ht).
        apply calculateAccountBalances_no_rows, Hfresh. }
    destruct (Z.eqb_spec v 0) as [Hv|Hv]; cbn [negb] in Ht.
    { rewrite Hv. split; [|intros; apply calculateAccountBalances_same_rows; exact Ht].
      rewrite (calculateAccountBalances_same_rows _ _ _ Ht).
      apply calculateAccountBalances_no_rows, Hfresh. }
    split.
    - rewrite (calculateAccountBalances_app _ _ _ _ Ht). cbv zeta.
      rewrite (calculateAccountBalances_no_rows _ _ Hfresh).
      rewrite !filter_cons, !filter_nil. cbn [initialBalanceRow accountId].
      rewrite decide_True by reflexivity.
      rewrite decide_True by (split; reflexivity).
      cbn [map sumZ foldr amount balance clearedBalance unclearedBalance
           initialBalanceRow].
      f_equal; lia.
    - intros aid' Hne. rewrite (calculateAccountBalances_app _ _ _ _ Ht). cbv zeta.
      rewrite !filter_cons, !filter_nil. cbn [initialBalanceRow accountId].
      rewrite decide_False by congruence.
      rewrite decide_False by (intros [? _]; congruence).
      destruct (calculateAccountBalances aid' s).
      cbn [map sumZ foldr amount balance clearedBalance unclearedBalance].
      f_equal; lia. }
  destruct Hb as [Hb1 Hb2].
  split; [exact Hb1|]. split; [exact Hb1|].
  split.
  { intros Hv. destruct (ca_balance dto) as [v|]; [|exact Ht].
    change (default 0 (Some v)) with v in Hv. subst v. exact Ht. }
  split.
  { intros Hv. destruct (ca_balance dto) as [v|]; [|contradiction].
    change (default 0 (Some v)) with v in Hv |- *.
    destruct (Z.eqb_spec v 0) as [?|_]; [contradiction|]. cbn [negb] in Ht.
    eexists. split; [exact Ht|]. cbn. repeat split; reflexivity. }
  split; [exact Hb2|exact He].
Qed.

Lemma getAccountByIdBody_frame userId aid s r s' :
  getAccountByIdBody userId aid s = Ok (r, s') ->
  s' = s
  /\ exists a, accounts s !! aid = Some a
               /\ ownsBudget s userId (account_budgetId a) = true
               /\ r = withBalances aid a s.
Proof.
  unfold getAccountByIdBody, bind, gets, throw, throwIf, ret, ownsBudget.
  destruct (accounts s !! aid) as [a|]; [|discriminate].
  destruct (budgets s !! account_budgetId a) as [bg|] eqn:Hb; [|discriminate].
  case_bool_decide as Hu; [discriminate|]. intros [= <- <-].
  split; [reflexivity|]. exists a. split; [reflexivity|]. split; [|reflexivity].
  rewrite Hb. apply bool_decide_eq_true.
  destruct (decide (budget_userId bg = userId)); [assumption|contradiction].
Qed.

(** The balances of an account are calculated from the rows of the ledger
    on every read, never taken from the stored balance columns: two stores
    whose ledgers hold the same rows for the account give the same
    balances, whatever else differs; an account without rows has the
    balances 0, 0 and 0; [getAccountById] answers with the calculated
    balances and writes nothing. *)
Theorem calculateAccountBalances_from_rows (aid : Id) (s : Store) :
  (forall s', filter (fun t => accountId t = aid) (transactions s')
              = filter (fun t => accountId t = aid) (transactions s) ->
              calculateAccountBalances aid s' = calculateAccountBalances aid s)
  /\ (filter (fun t => accountId t = aid) (transactions s) = [] ->
      calculateAccountBalances aid s = mkBalances 0 0 0)
  /\ (forall userId resp,
        fst (getAccountById userId aid s) = Ok resp ->
        resp_balances resp = calculateAccountBalances aid s
        /\ snd (getAccountById userId aid s) = s).
Proof.
  assert (F1 : forall l : list Transaction,
             filter (fun t => bool_decide (accountId t = aid) = true) l
             = filter (fun t => accountId t = aid) l).
  { intros l. apply list_filter_iff. intros t. apply bool_decide_eq_true. }
  assert (F2 : forall l : list Transaction,
             filter (fun t => (bool_decide (accountId t = aid)
                               && isClearedOrReconciled t) = true) l
             = filter (fun t => isClearedOrReconciled t = true)
                 (filter (fun t => accountId t = aid) l)).
  { intros l. rewrite list_filter_filter. apply list_filter_iff. intros t.
    rewrite andb_true_iff, bool_decide_eq_true. tauto. }
  split; [|split].
  - intros s' E. unfold calculateAccountBalances.
    rewrite !aggregateSum_default, !F1, !F2, E. reflexivity.
  - intros E. unfold calculateAccountBalances.
    rewrite !aggregateSum_default, !F1, !F2, E. reflexivity.
  - intros userId resp Hr. unfold getAccountById, run in *.
    destruct (getAccountByIdBody userId aid s) as [[r0 s0]|e] eqn:E;
      [|discriminate Hr].
    cbn [fst snd] in *. injection Hr as ->.
    apply getAccountByIdBody_frame in E as (-> & a & _ & _ & ->).
    split; reflexivity.
Qed.

End BalanceChanges.

Section LedgerAfterCreate.
Import AccountService TransactionService.

Lemma createSplitTransactions_frame b t dto s u s' :
  createSplitTransactions b t dto s = Ok (u, s') ->
  exists f, s' = with_splitTransactions f s.
Proof.
  unfold createSplitTransactions.
  destruct (c_isSplit dto && negb (c_isTransfer dto)
            && (0 <? Z.of_nat (length (c_splits dto)))).
  - unfold bind. destruct (createSplits _ _ _ _ s) as [[total s1]|e] eqn:E; [|discriminate].
    apply createSplits_frame in E as [-> _].
    unfold throwIf. destruct (negb _); [discriminate|]. intros [= _ <-]. eauto.
  - destruct (c_isSplit dto && negb (c_isTransfer dto)); [discriminate|].
    intros [= _ <-]. exists (fun x => x). destruct s; reflexivity.
Qed.

(** The store after the creation of a transaction that is not a transfer:
    one row is appended to the ledger; the payees, the split rows and the
    budget entries may change, nothing else does. *)
Lemma createTransaction_single_store userId dto s r s' :
  createTransaction userId dto s = (Ok r, s') ->
  c_isTransfer dto = false ->
  exists t fp fs g a,
    r = One t
    /\ s' = with_budgetEntries g
              (with_splitTransactions fs
                 (with_transactions (fun ts => ts ++ [t]) (with_payees fp s)))
    /\ accounts s !! c_accountId dto = Some a
    /\ ownsBudget s userId (account_budgetId a) = true
    /\ id t = uuid (map id (transactions s))
    /\ date t = c_date dto /\ amount t = c_amount dto
    /\ isTransfer t = false /\ isSplit t = c_isSplit dto
    /\ accountId t = c_accountId dto
    /\ categoryId t = (if c_isSplit dto then None else c_categoryId dto)
    /\ budgetId t = account_budgetId a.
Proof.
  intros H%run_Ok Ht.
  destruct (createTransaction_single_inv _ _ _ _ _ H Ht)
    as (a & bg & fp & t & s3 & Ha & Hb & Hu & -> & Hrow & _ & _ & Hs & Hc).
  destruct Hrow as (H1 & H2 & H3 & H4 & H5 & H6 & H7 & H8 & _).
  apply createSplitTransactions_frame in Hs as [fs ->].
  apply adjustForCreditCard_frame in Hc as [g ->].
  exists t, fp, fs, g, a. split; [reflexivity|]. split; [reflexivity|].
  split; [exact Ha|]. split.
  { unfold ownsBudget. rewrite Hb. apply bool_decide_eq_true. exact Hu. }
  repeat split; assumption.
Qed.

(** A transaction that is not a transfer is stored as one new row at the
    end of the ledger, under an id that was not in use, with the account,
    the amount and the date of the request.  Every other row stays, so each
    other account has the rows it had and therefore the balances it had;
    the accounts themselves are not written. *)
Theorem createTransaction_appends_row (userId : Id) (dto : CreateTransactionDto)
    (s s' : Store) (r : Created) :
  createTransaction userId dto s = (Ok r, s') ->
  c_isTransfer dto = false ->
  exists t,
    r = One t
    /\ transactions s' = transactions s ++ [t]
    /\ accountId t = c_accountId dto /\ amount t = c_amount dto
    /\ date t = c_date dto
    /\ isTransfer t = false /\ isSplit t = c_isSplit dto
    /\ findTransaction (id t) s = None
    /\ findTransaction (id t) s' = Some t
    /\ (forall aid, aid <> c_accountId dto ->
          filter (fun x => accountId x = aid) (transactions s')
          = filter (fun x => accountId x = aid) (transactions s)
          /\ calculateAccountBalances aid s' = calculateAccountBalances aid s)
    /\ accounts s' = accounts s.
Proof.
  intros H Ht.
  destruct (createTransaction_single_store _ _ _ _ _ H Ht)
    as (t & fp & fs & g & a & -> & -> & _ & _ & Hid & Hd & Hamt & Htr & Hsp & Hacc & _).
  exists t. split; [reflexivity|].
  cbn [with_budgetEntries with_splitTransactions with_transactions with_payees
       transactions accounts].
  split; [reflexivity|]. split; [exact Hacc|]. split; [exact Hamt|].
  split; [exact Hd|]. split; [exact Htr|]. split; [exact Hsp|].
  assert (Hfresh : forall y, y ∈ transactions s -> id y <> id t).
  { apply fresh_not_in. exact Hid. }
  split.
  { unfold findTransaction.
    destruct (find _ (transactions s)) as [y|] eqn:E; [|reflexivity].
    apply find_some in E as [Hin Hy%bool_decide_eq_true].
    exfalso. apply (Hfresh y); [apply list_elem_of_In; exact Hin|exact Hy]. }
  split.
  { unfold findTransaction.
    cbn [with_budgetEntries with_splitTransactions with_transactions with_payees
         transactions].
    apply (findTransaction_created s fp); [exact Hid|reflexivity]. }
  split; [|reflexivity].
  intros aid Hne. split.
  - rewrite filter_app, filter_cons, filter_nil.
    rewrite decide_False by congruence. apply app_nil_r.
  - rewrite (calculateAccountBalances_app _ s _ [t]) by reflexivity. cbv zeta.
    rewrite !filter_cons, !filter_nil.
    rewrite decide_False by congruence.
    rewrite decide_False by (intros [? _]; congruence).
    destruct (calculateAccountBalances aid s).
    cbn [map sumZ foldr balance clearedBalance unclearedBalance]. f_equal; lia.
Qed.

End LedgerAfterCreate.

(** ** Deleting transactions *)

Section DeleteTransaction.
Import AccountService TransactionService BudgetService.

Lemma handler_pair_frame (r : Result (unit * Store)) s u s' :
  r = Ok (u, s') ->
  (r = Ok (tt, s)
   \/ (exists k1 d1 k2 d2, r = Ok (tt, bump k2 d2 (bump k1 d1 s)))
   \/ (exists k d, r = Ok (tt, bump k d s))
   \/ exists e, r = Throw e) ->
  exists g, s' = with_budgetEntries g s.
Proof.
  intros -> [E|[(k1 & d1 & k2 & d2 & E)|[(k & d & E)|(e & E)]]]; try discriminate;
    injection E as -> ->.
  - exists (fun es => es). apply with_budgetEntries_id_sym.
  - exists (fun es => bumpM k2 d2 (bumpM k1 d1 es)). reflexivity.
  - exists (bumpM k d). reflexivity.
Qed.

Local Ltac frame_of eqn :=
  intros H; eapply handler_pair_frame; [exact H|]; rewrite eqn;
  repeat match goal with
         | |- context [if ?c then _ else _] => destruct c
         end;
  eauto 10.

Lemma revertSpending_frame b sc pc a y m s u s' :
  revertBudgetAdjustmentForCreditSpending b sc pc a y m s = Ok (u, s') ->
  exists g, s' = with_budgetEntries g s.
Proof. frame_of revertBudgetAdjustmentForCreditSpending_eq. Qed.

Lemma revertRefundToCategory_frame b sc pc a y m s u s' :
  revertCreditCardRefundToCategory b sc pc a y m s = Ok (u, s') ->
  exists g, s' = with_budgetEntries g s.
Proof. frame_of revertCreditCardRefundToCategory_eq. Qed.

Lemma revertRefundToTBB_frame b pc a y m s u s' :
  revertCreditCardRefundToTBB b pc a y m s = Ok (u, s') ->
  exists g, s' = with_budgetEntries g s.
Proof. frame_of revertCreditCardRefundToTBB_eq. Qed.

Lemma revertPayment_frame b pc a y m s u s' :
  revertCreditCardPayment b pc a y m s = Ok (u, s') ->
  exists g, s' = with_budgetEntries g s.
Proof. frame_of revertCreditCardPayment_eq. Qed.

Lemma revertOnDelete_frame t a1 a2 y m s u s' :
  revertOnDelete t a1 a2 y m s = Ok (u, s') ->
  exists g, s' = with_budgetEntries g s.
Proof.
  unfold revertOnDelete, ret.
  repeat match goal with
         | |- context [if ?c then _ else _] => destruct c
         | |- context [match ?o with Some _ => _ | None => _ end] => destruct o
         end;
    eauto using revertSpending_frame, revertRefundToCategory_frame,
                revertRefundToTBB_frame, revertPayment_frame;
    intros [= _ <-]; exists (fun es => es); apply with_budgetEntries_id_sym.
Qed.

(** The ids removed by [deleteTransaction]: the transaction and, for a
    transfer, the other row of its group. *)
Lemma deleteTransactionBody_inv userId tid s u s' :
  deleteTransactionBody userId tid s = Ok (u, s') ->
  exists e bg ids g,
    findTransaction tid s = Some e
    /\ budgets s !! budgetId e = Some bg /\ budget_userId bg = userId
    /\ (ids = [tid]
        \/ exists t', ids = [tid; id t'] /\ isTransfer e = true
                      /\ t' ∈ transactions s /\ id t' <> tid
                      /\ transferGroupId t' = transferGroupId e)
    /\ s' = with_transactions (filter (fun t => id t ∉ ids))
              (with_splitTransactions
                 (filter (fun sp => split_transactionId sp ∉ ids))
                 (with_budgetEntries g s)).
Proof.
  unfold deleteTransactionBody. unfold bind at 1. unfold gets at 1.
  destruct (findTransaction tid s) as [e|] eqn:He; [|discriminate].
  unfold bind at 1. unfold gets at 1.
  destruct (budgets s !! budgetId e) as [bg|] eqn:Hb; [|discriminate].
  unfold bind at 1. unfold throwIf.
  case_bool_decide as Hu; [discriminate|]. unfold ret at 1.
  unfold bind at 1. unfold gets at 1.
  set (paired := if isTransfer e && truthy (transferGroupId e)
                 then orNull (id <$> find (fun t => bool_decide (transferGroupId t
                                                               = transferGroupId e)
                                                   && bool_decide (id t <> tid))
                                          (transactions s))
                 else None).
  unfold bind at 1. unfold gets at 1. unfold bind at 1. unfold gets at 1.
  unfold bind at 1.
  destruct (revertOnDelete _ _ _ _ _ s) as [[u1 s1]|err] eqn:Hr; [|discriminate].
  apply revertOnDelete_frame in Hr as [g ->].
  unfold bind, modify. intros [= _ <-].
  exists e, bg, (tid :: match paired with Some p => [p] | None => [] end), g.
  split; [reflexivity|]. split; [exact Hb|].
  split. { destruct (decide (budget_userId bg = userId)); [assumption|contradiction]. }
  split; [|reflexivity].
  unfold paired. destruct (isTransfer e) eqn:Ht; [|left; reflexivity].
  destruct (truthy (transferGroupId e)); cbn [andb]; [|left; reflexivity].
  destruct (find _ (transactions s)) as [t'|] eqn:Hf; [|left; reflexivity].
  cbn [fmap option_fmap option_map]. unfold orNull.
  destruct (truthy (Some (id t'))); [|left; reflexivity].
  apply find_some in Hf as [Hin Hp]. apply andb_true_iff in Hp as [Hg Hn].
  apply bool_decide_eq_true in Hg, Hn.
  right. exists t'. split; [reflexivity|]. split; [reflexivity|].
  split; [apply list_elem_of_In; exact Hin|]. split; assumption.
Qed.

(** [deleteTransaction] answers 404 for an unknown id and 403 for a
    transaction of another user's budget, and then changes nothing.  When
    it succeeds the transaction is gone together with its split rows (no
    split row refers to it any more), and the only other row removed is the
    second row of the group when the transaction is a transfer: every other
    transaction and split row stays, in order.  Accounts, categories, payees
    and goals are never touched. *)
Theorem deleteTransaction_removes (userId tid : Id) (s : Store) :
  let r := fst (deleteTransaction userId tid s) in
  let s' := snd (deleteTransaction userId tid s) in
  (findTransaction tid s = None ->
   r = Throw (HttpError 404 TransactionNotFound) /\ s' = s)
  /\ (forall e bg, findTransaction tid s = Some e ->
        budgets s !! budgetId e = Some bg -> budget_userId bg <> userId ->
        r = Throw (HttpError 403 TransactionForbidden) /\ s' = s)
  /\ (r = Ok tt ->
      exists e ids,
        findTransaction tid s = Some e
        /\ (ids = [tid]
            \/ exists t', ids = [tid; id t'] /\ isTransfer e = true
                          /\ t' ∈ transactions s /\ id t' <> tid
                          /\ transferGroupId t' = transferGroupId e)
        /\ transactions s' = filter (fun t => id t ∉ ids) (transactions s)
        /\ splitTransactions s'
           = filter (fun sp => split_transactionId sp ∉ ids) (splitTransactions s)
        /\ findTransaction tid s' = None
        /\ (forall sp, sp ∈ splitTransactions s' -> split_transactionId sp <> tid)
        /\ accounts s' = accounts s /\ categories s' = categories s
        /\ categoryGroups s' = categoryGroups s /\ budgets s' = budgets s
        /\ payees s' = payees s /\ goals s' = goals s).
Proof.
  cbv zeta. unfold deleteTransaction, run. split; [|split].
  - intros Hn.
    assert (E : deleteTransactionBody userId tid s
                = Throw (HttpError 404 TransactionNotFound)).
    { unfold deleteTransactionBody. unfold bind at 1. unfold gets at 1.
      rewrite Hn. reflexivity. }
    rewrite E. split; reflexivity.
  - intros e bg He Hb Hu.
    assert (E : deleteTransactionBody userId tid s
                = Throw (HttpError 403 TransactionForbidden)).
    { unfold deleteTransactionBody.
      unfold bind at 1. unfold gets at 1. rewrite He.
      unfold bind at 1. unfold gets at 1. rewrite Hb.
      unfold bind at 1. unfold throwIf.
      rewrite bool_decide_eq_true_2 by assumption. reflexivity. }
    rewrite E. split; reflexivity.
  - destruct (deleteTransactionBody userId tid s) as [[u s1]|err] eqn:E;
      cbn [fst snd]; [|discriminate].
    intros _. apply deleteTransactionBody_inv in E
      as (e & bg & ids & g & He & _ & _ & Hids & ->).
    exists e, ids. split; [exact He|]. split; [exact Hids|].
    cbn [with_transactions with_splitTransactions with_budgetEntries transactions
         splitTransactions accounts categories categoryGroups budgets payees goals].
    split; [reflexivity|]. split; [reflexivity|].
    assert (Hin : tid ∈ ids).
    { destruct Hids as [->|(t' & -> & _)]; apply list_elem_of_here. }
    split.
    { unfold findTransaction. cbn [transactions].
      destruct (find _ _) as [x|] eqn:Hx; [|reflexivity].
      apply find_some in Hx as [Hx1 Hx2%bool_decide_eq_true].
      apply list_elem_of_In, list_elem_of_filter in Hx1 as [Hx1 _].
      rewrite Hx2 in Hx1. contradiction. }
    split.
    { intros sp Hsp%list_elem_of_filter. destruct Hsp as [Hsp _].
      intros Heq. rewrite Heq in Hsp. contradiction. }
    repeat split; reflexivity.
Qed.

End DeleteTransaction.

(** ** Creating and deleting a transaction *)

Section CreateDelete.
Import AccountService TransactionService BudgetService.

(** On an account without a linked payment category neither the creation
    nor the deletion of a transaction adjusts the budget. *)
Lemma adjustForCreditCard_no_card b t y m s a :
  accounts s !! accountId t = Some a -> ~ cardWithPayment a ->
  adjustForCreditCard b t y m s = Ok (tt, s).
Proof.
  intros Ha Hn. unfold adjustForCreditCard, bind, gets, ret. rewrite Ha.
  unfold cardWithPayment in Hn.
  destruct (bool_decide (account_type a = CREDIT_CARD)) eqn:Ht; [|reflexivity].
  destruct (truthy (paymentCategoryId a)) eqn:Hp; [|reflexivity].
  exfalso. apply Hn. split; [apply bool_decide_eq_true in Ht; exact Ht|reflexivity].
Qed.

Lemma revertOnDelete_no_card t a y m s :
  isTransfer t = false -> ~ cardWithPayment a ->
  revertOnDelete t (Some a) None y m s = Ok (tt, s).
Proof.
  intros NT Hn. unfold cardWithPayment in Hn.
  unfold revertOnDelete, getCcBudgetType.
  rewrite NT. cbn [negb andb mbind option_bind].
  destruct (bool_decide (account_type a = CREDIT_CARD)) eqn:Ht; cbn [negb andb];
    [|reflexivity].
  destruct (truthy (paymentCategoryId a)) eqn:Hp; cbn [negb andb].
  - exfalso. apply Hn.
    split; [apply bool_decide_eq_true in Ht; exact Ht|reflexivity].
  - destruct (isNegative (amount t) && truthy (categoryId t));
      [|destruct (isPositive (amount t))]; reflexivity.
Qed.

Lemma createSplitTransactions_rows b t dto s u s' :
  createSplitTransactions b t dto s = Ok (u, s') ->
  exists l, s' = with_splitTransactions (fun sps => sps ++ l) s
            /\ Forall (fun sp => split_transactionId sp = id t) l.
Proof.
  unfold createSplitTransactions.
  destruct (c_isSplit dto && negb (c_isTransfer dto)
            && (0 <? Z.of_nat (length (c_splits dto)))).
  - unfold bind. destruct (createSplits _ _ _ _ s) as [[total s1]|e] eqn:E; [|discriminate].
    apply createSplits_frame in E as [-> _].
    unfold throwIf. destruct (negb _); [discriminate|]. intros [= _ <-].
    eexists. split; [reflexivity|]. apply Forall_forall. intros sp Hsp.
    apply list_elem_of_In, in_map_iff in Hsp as (d & <- & _). reflexivity.
  - destruct (c_isSplit dto && negb (c_isTransfer dto)); [discriminate|].
    intros [= _ <-]. exists []. split; [|constructor].
    destruct s; unfold with_splitTransactions; cbn. rewrite app_nil_r. reflexivity.
Qed.

(** Creating a transaction and deleting it again leaves the books as they
    were.  For a transaction that is not a transfer, on an account without
    a linked payment category (every account that is not a credit card),
    whether plain or split, [deleteTransaction] of the created row succeeds
    and restores the ledger and the split rows; the budget entries are
    written neither by the creation nor by the deletion, and the accounts,
    categories, groups and goals stay as they were. *)
Theorem create_delete_round_trip (userId : Id) (dto : CreateTransactionDto)
    (s s1 : Store) (t : Transaction) :
  createTransaction userId dto s = (Ok (One t), s1) ->
  c_isTransfer dto = false ->
  splitsLinked s ->
  (forall a, accounts s !! c_accountId dto = Some a -> ~ cardWithPayment a) ->
  exists s2,
    deleteTransaction userId (id t) s1 = (Ok tt, s2)
    /\ transactions s2 = transactions s
    /\ splitTransactions s2 = splitTransactions s
    /\ budgetEntries s1 = budgetEntries s /\ budgetEntries s2 = budgetEntries s
    /\ accounts s2 = accounts s /\ categories s2 = categories s
    /\ categoryGroups s2 = categoryGroups s /\ goals s2 = goals s.
Proof.
  intros H NT Hl Hns. apply run_Ok in H.
  destruct (createTransaction_single_inv _ _ _ _ _ H NT)
    as (a & bg & fp & t' & s3 & Ha & Hb & Hu & [= <-] & Hrow & _ & _ & Hs & Hc).
  destruct Hrow as (Hid & Hd & _ & Htr & _ & Hacc & _ & Hbid & _).
  apply createSplitTransactions_rows in Hs as (l & -> & Hrows).
  match type of Hc with
  | adjustForCreditCard _ _ _ _ ?x = _ => set (s3 := x) in *
  end.
  assert (Ha3 : accounts s3 !! accountId t = Some a) by (rewrite Hacc; exact Ha).
  rewrite (adjustForCreditCard_no_card _ _ _ _ _ a Ha3 (Hns a Ha)) in Hc.
  injection Hc as <-.
  assert (Hfind : findTransaction (id t) s3 = Some t).
  { unfold findTransaction. apply (findTransaction_created s fp); [exact Hid|].
    reflexivity. }
  assert (Hb1 : budgets s3 !! budgetId t = Some bg) by (rewrite Hbid; exact Hb).
  unfold deleteTransaction, run.
  rewrite (deleteTransactionBody_single userId t bg s3 Hfind Hb1 Hu Htr).
  rewrite Ha3, (revertOnDelete_no_card t a _ _ s3 Htr (Hns a Ha)).
  eexists. split; [reflexivity|].
  cbn [transactions splitTransactions accounts categories categoryGroups goals
       budgetEntries with_transactions with_splitTransactions with_budgetEntries].
  assert (Hfresh : forall x, x ∈ transactions s -> id x <> id t)
    by (apply fresh_not_in; exact Hid).
  split.
  { unfold s3.
    cbn [transactions with_transactions with_splitTransactions with_budgetEntries
         with_payees].
    rewrite filter_app, filter_all.
    - rewrite filter_cons, decide_False, filter_nil, app_nil_r; [reflexivity|].
      intros N. apply N. left.
    - intros x Hx N. apply list_elem_of_singleton in N. exact (Hfresh x Hx N). }
  split.
  { unfold s3.
    cbn [splitTransactions with_transactions with_splitTransactions
         with_budgetEntries with_payees].
    rewrite filter_app, filter_all.
    - rewrite filter_none; [apply app_nil_r|].
      intros sp Hsp N. apply N. rewrite Forall_forall in Hrows.
      rewrite (Hrows sp Hsp). left.
    - intros sp Hsp N. apply list_elem_of_singleton in N.
      destruct (Hl sp Hsp) as (x & Hx & Hxid).
      apply (Hfresh x Hx). congruence. }
  repeat split; reflexivity.
Qed.

End CreateDelete.

(** ** Updating transactions *)

Section UpdateTransaction.
Import AccountService TransactionService BudgetService.

Local Ltac frame_from eqn :=
  intros H; eapply handler_pair_frame; [exact H|]; rewrite eqn;
  repeat match goal with
         | |- context [if ?c then _ else _] => destruct c
         end;
  eauto 10.

Lemma adjustSpending_frame b sc pc a y m s u s' :
  adjustBudgetsForCreditSpending b sc pc a y m s = Ok (u, s') ->
  exists g, s' = with_budgetEntries g s.
Proof. frame_from adjustBudgetsForCreditSpending_eq. Qed.

Lemma handleRefundToCategory_frame b sc pc a y m s u s' :
  handleCreditCardRefundToCategory b sc pc a y m s = Ok (u, s') ->
  exists g, s' = with_budgetEntries g s.
Proof. frame_from handleCreditCardRefundToCategory_eq. Qed.

Lemma handleRefundToTBB_frame b pc a y m s u s' :
  handleCreditCardRefundToTBB b pc a y m s = Ok (u, s') ->
  exists g, s' = with_budgetEntries g s.
Proof. frame_from handleCreditCardRefundToTBB_eq. Qed.

Lemma revertOld_frame b ty e ea y m s u s' :
  revertOld b ty e ea y m s = Ok (u, s') -> exists g, s' = with_budgetEntries g s.
Proof.
  unfold revertOld, ret.
  destruct (bool_decide (ty <> NONE)), (truthy (paymentCategoryId ea)), ty;
    eauto using revertSpending_frame, revertRefundToCategory_frame,
                revertRefundToTBB_frame;
    intros [= _ <-]; exists (fun es => es); apply with_budgetEntries_id_sym.
Qed.

Lemma applyNew_frame b ty e ea y m s u s' :
  applyNew b ty e ea y m s = Ok (u, s') -> exists g, s' = with_budgetEntries g s.
Proof.
  unfold applyNew, ret.
  destruct (bool_decide (ty <> NONE)), (truthy (paymentCategoryId ea)), ty;
    eauto using adjustSpending_frame, handleRefundToCategory_frame,
                handleRefundToTBB_frame;
    intros [= _ <-]; exists (fun es => es); apply with_budgetEntries_id_sym.
Qed.

Lemma findTransaction_id tid s e : findTransaction tid s = Some e -> id e = tid.
Proof.
  unfold findTransaction. intros [_ H%bool_decide_eq_true]%find_some. exact H.
Qed.

(** What a successful [updateTransaction] does to the store. *)
Lemma updateTransactionBody_inv userId tid dto s t' s' :
  updateTransactionBody userId tid dto s = Ok (t', s') ->
  exists e bg data fp g,
    findTransaction tid s = Some e
    /\ budgets s !! budgetId e = Some bg /\ budget_userId bg = userId
    /\ upd_date data = u_date dto /\ upd_amount data = u_amount dto
    /\ upd_memo data = u_memo dto /\ upd_cleared data = u_cleared dto
    /\ upd_approved data = u_approved dto
    /\ (isSplit e = true -> u_amount dto = None /\ upd_category data = None)
    /\ t' = applyUpdate data e
    /\ s' = with_budgetEntries g
              (with_transactions
                 (map (fun t => if bool_decide (id t = tid)
                                then applyUpdate data t else t))
                 (with_payees fp s)).
Proof.
  intros H. unfold updateTransactionBody in H.
  unfold bind at 1, gets at 1 in H.
  destruct (findTransaction tid s) as [e|] eqn:Ef; [|discriminate H].
  unfold bind at 1, gets at 1 in H.
  destruct (accounts s !! accountId e) as [ea|] eqn:Ea; [|discriminate H].
  unfold bind at 1, gets at 1 in H.
  destruct (budgets s !! budgetId e) as [bg|] eqn:Eb; [|discriminate H].
  inv_bind H as u0 s0 E0. apply throwIf_Ok in E0 as [Hu [= -> ->]].
  cbv zeta in H.
  inv_bind H as payee s1 Ep.
  assert (Hs1 : exists fp, s1 = with_payees fp s).
  { destruct (bool_decide (is_Some (u_payeeId dto))
              || bool_decide (is_Some (u_payeeName dto))).
    - inv_bind Ep as p sp Er. unfold ret in Ep. injection Ep as _ <-.
      eapply resolvePayee_frame, Er.
    - unfold ret in Ep. injection Ep as _ <-. exists (fun ps => ps).
      symmetry. apply with_payees_id. }
  destruct Hs1 as [fp ->]. clear Ep.
  inv_bind H as category s2 Ec.
  assert (Hs2 : s2 = with_payees fp s /\ (isSplit e = true -> category = None)).
  { destruct (u_categoryId dto) as [c|];
      [|unfold ret in Ec; injection Ec as <- <-; auto].
    destruct (isSplit e); cbn [negb] in Ec;
      [unfold ret in Ec; injection Ec as <- <-; auto|].
    destruct (truthy c); [|unfold ret in Ec; injection Ec as <- <-; split; [auto|discriminate]].
    inv_bind Ec as uc sc Evc. apply validateCategory_Ok in Evc as [_ [= _ ->]].
    unfold ret in Ec. injection Ec as <- <-. split; [auto|discriminate]. }
  destruct Hs2 as [-> Hcat]. clear Ec.
  inv_bind H as account s3 Eacc.
  assert (Hs3 : s3 = with_payees fp s).
  { destruct (u_accountId dto) as [aid|].
    - destruct (bool_decide (aid <> accountId e)).
      + unfold bind at 1, gets at 1 in Eacc.
        destruct (accounts (with_payees fp s) !! aid) as [na|]; [|discriminate Eacc].
        inv_bind Eacc as ub sb Eb'. apply throwIf_Ok in Eb' as [_ [= _ ->]].
        unfold ret in Eacc. injection Eacc as _ <-. reflexivity.
      + unfold ret in Eacc. injection Eacc as _ <-. reflexivity.
    - unfold ret in Eacc. injection Eacc as _ <-. reflexivity. }
  subst s3. clear Eacc.
  inv_bind H as u4 s4 E4. apply throwIf_Ok in E4 as [Hsplit [= _ ->]].
  inv_bind H as updated s5 Eu.
  unfold updateRow in Eu. unfold bind at 1, gets at 1 in Eu.
  inv_bind Eu as u6 s6 E6. apply throwIf_Ok in E6 as [_ [= _ ->]].
  unfold bind, modify, ret in Eu. injection Eu as <- <-.
  set (data := {| upd_date := u_date dto; upd_amount := u_amount dto;
                  upd_memo := u_memo dto; upd_cleared := u_cleared dto;
                  upd_approved := u_approved dto; upd_payee := payee;
                  upd_category := category; upd_account := fst account |}) in *.
  inv_bind H as u7 s7 E7. apply revertOld_frame in E7 as [g1 ->].
  inv_bind H as u8 s8 E8. apply applyNew_frame in E8 as [g2 ->].
  unfold ret in H. injection H as <- <-.
  exists e, bg, data, fp, (fun es => g2 (g1 es)).
  split; [reflexivity|]. split; [exact Eb|].
  split. { apply bool_decide_eq_false in Hu.
           destruct (decide (budget_userId bg = userId)); [assumption|contradiction]. }
  do 5 (split; [reflexivity|]).
  split.
  { intros Hs. split; [|exact (Hcat Hs)]. rewrite Hs, andb_true_r in Hsplit.
    apply bool_decide_eq_false in Hsplit.
    destruct (u_amount dto); [exfalso; apply Hsplit; eauto|reflexivity]. }
  split; reflexivity.
Qed.

(** [updateTransaction] changes one row and keeps what identifies it.  A
    successful update leaves the id, the transfer flag, the transfer account
    and group, the split flag and the budget of the row as they were, and
    the amount and category of a split header as well; the ledger keeps its
    rows and their order, every row with another id (the second row of a
    transfer included) is unchanged, and so are the split rows.  An unknown
    id is answered with 404, and a new amount for a split transaction is
    always refused; a refused update changes nothing. *)
Theorem updateTransaction_keeps_row (userId tid : Id) (dto : UpdateTransactionDto)
    (s : Store) :
  let r := fst (updateTransaction userId tid dto s) in
  let s' := snd (updateTransaction userId tid dto s) in
  (findTransaction tid s = None ->
   r = Throw (HttpError 404 TransactionNotFound) /\ s' = s)
  /\ (forall e, findTransaction tid s = Some e -> isSplit e = true ->
        is_Some (u_amount dto) -> isThrow r = true /\ s' = s)
  /\ (forall t', r = Ok t' ->
        exists e,
          findTransaction tid s = Some e
          /\ id t' = tid /\ isTransfer t' = isTransfer e
          /\ transferAccountId t' = transferAccountId e
          /\ transferGroupId t' = transferGroupId e
          /\ isSplit t' = isSplit e /\ budgetId t' = budgetId e
          /\ (isSplit e = true ->
              amount t' = amount e /\ categoryId t' = categoryId e)
          /\ map id (transactions s') = map id (transactions s)
          /\ (forall x, x ∈ transactions s -> id x <> tid -> x ∈ transactions s')
          /\ (forall x, x ∈ transactions s' -> id x <> tid -> x ∈ transactions s)
          /\ splitTransactions s' = splitTransactions s
          /\ accounts s' = accounts s /\ categories s' = categories s).
Proof.
  cbv zeta. unfold updateTransaction, run.
  destruct (updateTransactionBody userId tid dto s) as [[t1 s1]|err] eqn:E;
    cbn [fst snd isThrow isOk negb].
  - apply updateTransactionBody_inv in E
      as (e & bg & data & fp & g & He & _ & _ & _ & Hamt & _ & _ & _ & Hsp & -> & ->).
    split; [intros Hn; congruence|]. split.
    { intros e' He' Hs [v Hv]. rewrite He in He'. injection He' as <-.
      destruct (Hsp Hs) as [Hnone _]. congruence. }
    intros t' [= <-]. exists e. split; [exact He|].
    cbn [applyUpdate id isTransfer transferAccountId transferGroupId isSplit
         budgetId].
    split; [exact (findTransaction_id _ _ _ He)|].
    do 5 (split; [reflexivity|]).
    split.
    { intros Hs. destruct (Hsp Hs) as [Hnone Hcat].
      cbn [applyUpdate amount categoryId]. rewrite Hamt, Hnone, Hcat. split; reflexivity. }
    cbn [with_budgetEntries with_transactions with_payees transactions
         splitTransactions accounts categories].
    split.
    { rewrite map_map. apply map_ext. intros x.
      destruct (bool_decide (id x = tid)); reflexivity. }
    split.
    { intros x Hx Hne. apply list_elem_of_In, in_map_iff. exists x.
      rewrite bool_decide_eq_false_2 by assumption.
      split; [reflexivity|apply list_elem_of_In; exact Hx]. }
    split.
    { intros x Hx Hne. apply list_elem_of_In, in_map_iff in Hx as (x0 & Hx0 & Hin).
      destruct (bool_decide (id x0 = tid)) eqn:Hd.
      - apply bool_decide_eq_true in Hd. subst x. cbn [applyUpdate id] in Hne.
        contradiction.
      - subst x0. apply list_elem_of_In. exact Hin. }
    repeat split; reflexivity.
  - split.
    { intros Hn. revert E. unfold updateTransactionBody.
      unfold bind at 1, gets at 1. rewrite Hn. intros [= <-]. split; reflexivity. }
    split; [intros; split; reflexivity|]. intros t' [=].
Qed.

End UpdateTransaction.

(** ** One classification of credit-card transactions *)

Section CardClassification.
Import AccountService TransactionService BudgetService.

(** The three places that adjust the budget for a transaction on a credit
    card agree.  The adjustment written out in [createTransaction] is the
    one [updateTransaction] applies for the type that [getCcBudgetType]
    gives to the row, and the reversal written out in [deleteTransaction]
    is the one [updateTransaction] applies for that type; [getCcBudgetType]
    gives NONE to every transfer and never answers PAYMENT. *)
Theorem card_adjustments_agree (t : Transaction) (a : Account) (b : Id)
    (y m : Z) (s : Store) :
  accounts s !! accountId t = Some a ->
  adjustForCreditCard b t y m s
  = applyNew b (getCcBudgetType t (Some a)) t a y m s
  /\ (isTransfer t = false ->
      revertOnDelete t (Some a) None y m s
      = revertOld (budgetId t) (getCcBudgetType t (Some a)) t a y m s)
  /\ (isTransfer t = true -> getCcBudgetType t (Some a) = NONE)
  /\ getCcBudgetType t (Some a) <> PAYMENT.
Proof.
  intros Ha.
  assert (Habs : isNegative (amount t) = false -> Z.abs (amount t) = amount t).
  { unfold isNegative. intros H%Z.ltb_ge. lia. }
  assert (Hpos : isPositive (amount t) = negb (isNegative (amount t))).
  { unfold isPositive, isNegative. destruct (Z.ltb_spec (amount t) 0);
      [apply Z.leb_gt|apply Z.leb_le]; assumption. }
  split; [|split; [|split]].
  - unfold adjustForCreditCard, applyNew, getCcBudgetType.
    unfold bind at 1. unfold gets at 1. rewrite Ha. unfold ret. rewrite Hpos.
    destruct (bool_decide (account_type a = CREDIT_CARD)); cbn [negb]; [|reflexivity].
    destruct (truthy (paymentCategoryId a)); cbn [negb]; [|reflexivity].
    destruct (isTransfer t); cbn [negb andb]; [reflexivity|].
    destruct (isNegative (amount t)) eqn:Hn; cbn [negb andb].
    + destruct (truthy (categoryId t)); cbn [negb andb orb]; [|reflexivity].
      destruct (bool_decide (categoryId t <> paymentCategoryId a)) eqn:Hd;
        cbn [negb andb orb]; reflexivity.
    + rewrite (Habs eq_refl).
      destruct (truthy (categoryId t)); cbn [negb andb orb]; [|reflexivity].
      destruct (bool_decide (categoryId t <> paymentCategoryId a)) eqn:Hd;
        cbn [negb andb orb].
      * reflexivity.
      * assert (He : bool_decide (categoryId t = paymentCategoryId a) = true).
        { apply bool_decide_eq_true. apply bool_decide_eq_false in Hd.
          destruct (decide (categoryId t = paymentCategoryId a));
            [assumption|contradiction]. }
        rewrite He. reflexivity.
  - intros NT. unfold revertOnDelete, revertOld, getCcBudgetType. unfold ret.
    rewrite NT, Hpos. cbn [negb andb mbind option_bind].
    destruct (bool_decide (account_type a = CREDIT_CARD)); cbn [negb andb]; [|reflexivity].
    destruct (truthy (paymentCategoryId a)) eqn:Hp; cbn [negb andb].
    2:{ destruct (isNegative (amount t) && truthy (categoryId t)); [reflexivity|].
        destruct (negb (isNegative (amount t))); reflexivity. }
    destruct (isNegative (amount t)) eqn:Hn; cbn [negb andb].
    + destruct (truthy (categoryId t)); cbn [negb andb orb]; [|reflexivity].
      destruct (bool_decide (categoryId t <> paymentCategoryId a)) eqn:Hd;
        cbn [negb andb orb]; rewrite ?Hp; reflexivity.
    + rewrite (Habs eq_refl).
      destruct (truthy (categoryId t)); cbn [negb andb orb]; rewrite ?Hp; [|reflexivity].
      destruct (bool_decide (categoryId t <> paymentCategoryId a)) eqn:Hd;
        cbn [negb andb orb]; rewrite ?Hp.
      * reflexivity.
      * assert (He : bool_decide (categoryId t = paymentCategoryId a) = true).
        { apply bool_decide_eq_true. apply bool_decide_eq_false in Hd.
          destruct (decide (categoryId t = paymentCategoryId a));
            [assumption|contradiction]. }
        rewrite He, ?Hp. reflexivity.
  - intros Htr. unfold getCcBudgetType. rewrite Htr. cbn [negb andb].
    destruct (negb (bool_decide _)); [reflexivity|].
    destruct (negb (truthy _)); reflexivity.
  - unfold getCcBudgetType.
    repeat match goal with
           | |- context [if ?c then _ else _] => destruct c
           end; discriminate.
Qed.

End CardClassification.

(** ** Payees *)

Section Payees.
Import PayeeService.

Lemma find_key_none b n (l : list Payee) :
  find (fun p => bool_decide (payee_budgetId p = b) && bool_decide (payee_name p = n)) l
  = None ->
  (b, n) ∉ map payeeKey l.
Proof.
  intros Hn Hin. apply list_elem_of_In, in_map_iff in Hin as (q & Hq & Hin).
  pose proof (find_none _ _ Hn q Hin) as Hf. cbv beta in Hf.
  unfold payeeKey in Hq. injection Hq as Hb Hname.
  rewrite !bool_decide_eq_true_2 in Hf by assumption. discriminate.
Qed.

Lemma find_key_some b n (l : list Payee) c :
  find (fun p => bool_decide (payee_budgetId p = b) && bool_decide (payee_name p = n)) l
  = Some c ->
  c ∈ l /\ payeeKey c = (b, n).
Proof.
  intros [Hin Hp]%find_some. apply andb_true_iff in Hp as [Hb Hname].
  apply bool_decide_eq_true in Hb, Hname. split; [apply list_elem_of_In; exact Hin|].
  unfold payeeKey. congruence.
Qed.

(** [findOrCreatePayeeByName] returns a payee of the budget whose name is
    the trimmed, non-empty name of the request, and that payee is stored.
    It never stores a second payee with the same name in a budget: the
    uniqueness of names per budget and of ids is preserved, and a second
    call with the same arguments returns the same payee and adds nothing.
    A name that is empty after trimming is refused with 400. *)
Theorem findOrCreatePayeeByName_unique (b : Id) (n : string) (s : Store) :
  (String.eqb (trim n) "" = true ->
   findOrCreatePayeeByName b n s = Throw (HttpError 400 PayeeNameEmpty))
  /\ (String.eqb (trim n) "" = false ->
      exists p s',
        findOrCreatePayeeByName b n s = Ok (p, s')
        /\ payee_budgetId p = b /\ payee_name p = trim n
        /\ p ∈ payees s'
        /\ (payees s' = payees s \/ (payees s' = payees s ++ [p]
                                     /\ (b, trim n) ∉ map payeeKey (payees s)))
        /\ (payeeNamesUnique s -> payeeNamesUnique s')
        /\ (payeeIdsUnique s -> payeeIdsUnique s')
        /\ findOrCreatePayeeByName b n s' = Ok (p, s')).
Proof.
  unfold findOrCreatePayeeByName, bind, throwIf, throw, ret, gets, modify.
  split; [intros ->; reflexivity|]. intros ->.
  destruct (find _ (payees s)) as [c|] eqn:Hf.
  - destruct (find_key_some _ _ _ _ Hf) as [Hin Hk]. injection Hk as Hb Hn.
    exists c, s. rewrite Hf. repeat split; auto.
  - pose proof (find_key_none _ _ _ Hf) as Hfresh.
    eexists _, _. split; [reflexivity|].
    cbn [payee_budgetId payee_name with_payees payees].
    split; [reflexivity|]. split; [reflexivity|].
    split. { apply elem_of_app. right. apply list_elem_of_here. }
    split. { right. split; [reflexivity|exact Hfresh]. }
    split.
    { unfold payeeNamesUnique. cbn [with_payees payees]. intros Hnd.
      rewrite map_app. apply NoDup_app. split; [exact Hnd|].
      split; [|apply NoDup_singleton].
      intros k Hk Hk'. apply list_elem_of_singleton in Hk'. subst k.
      apply Hfresh. exact Hk. }
    split.
    { unfold payeeIdsUnique. cbn [with_payees payees]. intros Hnd.
      rewrite map_app. apply NoDup_app. split; [exact Hnd|].
      split; [|apply NoDup_singleton].
      intros k Hk Hk'. apply list_elem_of_singleton in Hk'. subst k.
      cbn [payee_id] in Hk. exact (uuid_fresh _ Hk). }
    rewrite find_app_fresh.
    + reflexivity.
    + intros q Hq. apply (find_none _ _ Hf q), list_elem_of_In, Hq.
    + cbn [payee_budgetId payee_name]. rewrite !bool_decide_eq_true_2 by reflexivity.
      reflexivity.
Qed.

Lemma NoDup_map_inj {A K} (key : A -> K) (l : list A) x y :
  NoDup (map key l) -> x ∈ l -> y ∈ l -> key x = key y -> x = y.
Proof.
  induction l as [|a l IH]; intros Hnd Hx Hy Hk.
  - apply elem_of_nil in Hx. destruct Hx.
  - cbn [map] in Hnd. apply NoDup_cons in Hnd as [Ha Hnd].
    apply elem_of_cons in Hx as [->|Hx], Hy as [->|Hy].
    + reflexivity.
    + exfalso. apply Ha. rewrite Hk. apply list_elem_of_In, in_map, list_elem_of_In, Hy.
    + exfalso. apply Ha. rewrite <- Hk. apply list_elem_of_In, in_map, list_elem_of_In, Hx.
    + apply IH; assumption.
Qed.

Lemma NoDup_map_update {A K} (key : A -> K) (idf : A -> Id) (f : A -> A)
    (pid : Id) (k' : K) (l : list A) :
  NoDup (map idf l) -> NoDup (map key l) ->
  (forall x, x ∈ l -> idf x = pid -> key (f x) = k') ->
  (forall x, x ∈ l -> key x = k' -> idf x = pid) ->
  NoDup (map key (map (fun x => if bool_decide (idf x = pid) then f x else x) l)).
Proof.
  induction l as [|a l IH]; intros Hid Hk Hf Hc; [constructor|].
  cbn [map] in *. apply NoDup_cons in Hid as [Hida Hid], Hk as [Hka Hk].
  apply NoDup_cons. split.
  - intros Hin. apply list_elem_of_In, in_map_iff in Hin as (z & Hz & Hin).
    apply in_map_iff in Hin as (y & <- & Hy). apply list_elem_of_In in Hy.
    destruct (bool_decide (idf a = pid)) eqn:Ha, (bool_decide (idf y = pid)) eqn:Hy'.
    + apply bool_decide_eq_true in Ha, Hy'. apply Hida. rewrite Ha, <- Hy'.
      apply list_elem_of_In, in_map, list_elem_of_In, Hy.
    + apply bool_decide_eq_true in Ha. apply bool_decide_eq_false in Hy'.
      apply Hy'. apply Hc; [apply list_elem_of_further, Hy|].
      rewrite Hz. apply Hf; [apply list_elem_of_here|exact Ha].
    + apply bool_decide_eq_false in Ha. apply bool_decide_eq_true in Hy'.
      apply Ha. apply Hc; [apply list_elem_of_here|].
      rewrite <- Hz. apply Hf; [apply list_elem_of_further, Hy|exact Hy'].
    + apply Hka. rewrite <- Hz. apply list_elem_of_In, in_map, list_elem_of_In, Hy.
  - apply IH; try assumption.
    + intros x Hx. apply Hf, list_elem_of_further, Hx.
    + intros x Hx. apply Hc, list_elem_of_further, Hx.
Qed.

Lemma getPayeeById_Ok userId pid s p s' :
  getPayeeById userId pid s = Ok (p, s') ->
  s' = s /\ p ∈ payees s /\ payee_id p = pid
  /\ ownsBudget s userId (payee_budgetId p) = true.
Proof.
  unfold getPayeeById, bind, gets, throw, throwIf, ret, ownsBudget.
  destruct (find _ (payees s)) as [q|] eqn:Hf; [|discriminate].
  apply find_some in Hf as [Hin Hq%bool_decide_eq_true].
  destruct (budgets s !! payee_budgetId q) as [bg|] eqn:Hb; [|discriminate].
  case_bool_decide as Hu; [discriminate|]. intros [= <- <-].
  rewrite Hb. split; [reflexivity|]. split; [apply list_elem_of_In; exact Hin|].
  split; [exact Hq|]. apply bool_decide_eq_true.
  destruct (decide (budget_userId bg = userId)); [assumption|contradiction].
Qed.

(** What a successful [updatePayee] does. *)
Lemma updatePayeeBody_inv userId pid name s p s' :
  updatePayeeBody userId pid name s = Ok (p, s') ->
  exists e,
    e ∈ payees s /\ payee_id e = pid
    /\ ownsBudget s userId (payee_budgetId e) = true
    /\ trim name <> EmptyString
    /\ (forall q, q ∈ payees s -> payeeNamesUnique s ->
                  payeeKey q = (payee_budgetId e, trim name) -> payee_id q = pid)
    /\ p = rename (trim name) e
    /\ s' = with_payees (map (fun q => if bool_decide (payee_id q = pid)
                                       then rename (trim name) q else q)) s.
Proof.
  unfold updatePayeeBody. unfold bind at 1. unfold throwIf at 1.
  destruct (String.eqb (trim name) "") eqn:Hn; [discriminate|].
  unfold ret at 1. unfold bind at 1.
  destruct (getPayeeById userId pid s) as [[e s1]|err] eqn:Hg; [|discriminate].
  apply getPayeeById_Ok in Hg as (-> & Hin & Hid & Ho).
  unfold bind at 1. unfold gets at 1. unfold bind at 1. unfold throwIf.
  destruct (find _ (payees s)) as [c|] eqn:Hf.
  - case_bool_decide as Hc; [discriminate|].
    unfold ret at 1. unfold bind, modify, ret. intros [= <- <-].
    exists e. split; [exact Hin|]. split; [exact Hid|]. split; [exact Ho|].
    split. { intros E. rewrite E in Hn. discriminate. }
    split; [|split; reflexivity].
    intros q Hq Hnd Hk. destruct (find_key_some _ _ _ _ Hf) as [Hcin Hck].
    assert (q = c).
    { apply (NoDup_map_inj payeeKey (payees s)); [exact Hnd|exact Hq|exact Hcin|].
      congruence. }
    subst q. destruct (decide (payee_id c = pid)); [assumption|contradiction].
  - unfold ret at 1. unfold bind, modify, ret. intros [= <- <-].
    exists e. split; [exact Hin|]. split; [exact Hid|]. split; [exact Ho|].
    split. { intros E. rewrite E in Hn. discriminate. }
    split; [|split; reflexivity].
    intros q Hq _ Hk. exfalso. apply (find_key_none _ _ _ Hf).
    rewrite <- Hk. apply list_elem_of_In, in_map, list_elem_of_In, Hq.
Qed.

(** Renaming a payee keeps the payee table well formed.  A successful
    [updatePayee] stores the trimmed, non-empty name on the payee with the
    given id, changes no id and no budget and no other payee, and keeps the
    names unique within each budget; when another payee of the same budget
    already carries the name the request is refused with 409 and nothing
    changes. *)
Theorem updatePayee_keeps_names_unique (userId pid : Id) (name : string)
    (s : Store) :
  payeeIdsUnique s -> payeeNamesUnique s ->
  let r := fst (updatePayee userId pid name s) in
  let s' := snd (updatePayee userId pid name s) in
  (forall p, r = Ok p ->
     payee_id p = pid /\ payee_name p = trim name /\ trim name <> EmptyString
     /\ p ∈ payees s'
     /\ map payee_id (payees s') = map payee_id (payees s)
     /\ map payee_budgetId (payees s') = map payee_budgetId (payees s)
     /\ (forall q, q ∈ payees s -> payee_id q <> pid -> q ∈ payees s')
     /\ payeeIdsUnique s' /\ payeeNamesUnique s')
  /\ (forall e q, e ∈ payees s -> payee_id e = pid ->
        ownsBudget s userId (payee_budgetId e) = true ->
        trim name <> EmptyString ->
        q ∈ payees s -> payee_id q <> pid ->
        payee_budgetId q = payee_budgetId e -> payee_name q = trim name ->
        r = Throw (HttpError 409 PayeeNameExists) /\ s' = s).
Proof.
  intros Hids Hnames. cbv zeta. unfold updatePayee, run. split.
  - destruct (updatePayeeBody userId pid name s) as [[p0 s1]|err] eqn:E;
      cbn [fst snd]; [|discriminate].
    intros p [= <-].
    apply updatePayeeBody_inv in E as (e & Hin & Hid & _ & Hne & Hconf & -> & ->).
    cbn [rename payee_id payee_name with_payees payees].
    split; [exact Hid|]. split; [reflexivity|]. split; [exact Hne|].
    split.
    { apply list_elem_of_In, in_map_iff. exists e.
      rewrite bool_decide_eq_true_2 by assumption.
      split; [reflexivity|apply list_elem_of_In; exact Hin]. }
    assert (Hidmap : map payee_id
                       (map (fun q => if bool_decide (payee_id q = pid)
                                      then rename (trim name) q else q) (payees s))
                     = map payee_id (payees s)).
    { rewrite map_map. apply map_ext. intros q.
      destruct (bool_decide (payee_id q = pid)); reflexivity. }
    split; [exact Hidmap|].
    split.
    { rewrite map_map. apply map_ext. intros q.
      destruct (bool_decide (payee_id q = pid)); reflexivity. }
    split.
    { intros q Hq Hqne. apply list_elem_of_In, in_map_iff. exists q.
      rewrite bool_decide_eq_false_2 by assumption.
      split; [reflexivity|apply list_elem_of_In; exact Hq]. }
    split; [unfold payeeIdsUnique; cbn [with_payees payees]; rewrite Hidmap; exact Hids|].
    unfold payeeNamesUnique. cbn [with_payees payees].
    apply (NoDup_map_update payeeKey payee_id (rename (trim name)) pid
             (payee_budgetId e, trim name)); try assumption.
    + intros x Hx Hxid. unfold payeeKey. cbn [rename payee_budgetId payee_name].
      f_equal. f_equal.
      apply (NoDup_map_inj payee_id (payees s)); [exact Hids|exact Hx|exact Hin|].
      congruence.
    + intros x Hx Hk. apply (Hconf x Hx Hnames Hk).
  - intros e q He Heid Ho Hne Hq Hqid Hqb Hqn.
    assert (E : updatePayeeBody userId pid name s
                = Throw (HttpError 409 PayeeNameExists)).
    { unfold updatePayeeBody. unfold bind at 1. unfold throwIf at 1.
      destruct (String.eqb_spec (trim name) ""); [contradiction|].
      unfold ret at 1. unfold bind at 1.
      assert (Hg : getPayeeById userId pid s = Ok (e, s)).
      { unfold getPayeeById, bind, gets, throw, throwIf, ret.
        destruct (find _ (payees s)) as [e'|] eqn:Hf.
        - apply find_some in Hf as [Hin' Hid'%bool_decide_eq_true].
          assert (e' = e).
          { apply (NoDup_map_inj payee_id (payees s)); try assumption;
              [apply list_elem_of_In; exact Hin'|congruence]. }
          subst e'. unfold ownsBudget in Ho.
          destruct (budgets s !! payee_budgetId e) as [bg|]; [|discriminate].
          apply bool_decide_eq_true in Ho.
          rewrite bool_decide_eq_false_2 by (intros ?; contradiction). reflexivity.
        - exfalso. pose proof (find_none _ _ Hf e (proj1 (list_elem_of_In _ _) He)) as Hx.
          cbv beta in Hx. rewrite bool_decide_eq_true_2 in Hx by assumption.
          discriminate. }
      rewrite Hg. unfold bind at 1. unfold gets at 1. unfold bind at 1. unfold throwIf.
      destruct (find _ (payees s)) as [c|] eqn:Hf.
      - destruct (find_key_some _ _ _ _ Hf) as [Hcin Hck].
        assert (c = q).
        { apply (NoDup_map_inj payeeKey (payees s)); try assumption.
          rewrite Hck. unfold payeeKey. congruence. }
        subst c. rewrite bool_decide_eq_true_2 by assumption. reflexivity.
      - exfalso. apply (find_key_none _ _ _ Hf).
        apply list_elem_of_In, in_map_iff. exists q.
        split; [unfold payeeKey; congruence|apply list_elem_of_In; exact Hq]. }
    rewrite E. split; reflexivity.
Qed.

End Payees.

(** ** Goals: upsert, read, delete *)

Section GoalRoundTrip.
Import GoalService.

Lemma categoryOwned_goals f s userId b gid cid :
  categoryOwned (with_goals f s) userId b gid cid = categoryOwned s userId b gid cid.
Proof. reflexivity. Qed.





End GoalRoundTrip.

(** ** Categories and category groups *)

Section Categories.
Import CategoryService CategoryGroupService.

Lemma getCategoryGroupById_eq userId b gid s :
  getCategoryGroupById userId b gid s =
  match budgets s !! b with
  | None => Throw (HttpError 404 BudgetNotFound)
  | Some bg =>
      if bool_decide (budget_userId bg <> userId)
      then Throw (HttpError 403 BudgetForbidden)
      else match categoryGroups s !! gid with
           | None => Throw (HttpError 404 CategoryGroupNotFound)
           | Some g => if bool_decide (group_budgetId g <> b)
                       then Throw (HttpError 404 CategoryGroupNotFound)
                       else Ok (g, s)
           end
  end.
Proof.
  unfold getCategoryGroupById. unfold bind at 1. rewrite getBudgetById_eq.
  destruct (budgets s !! b) as [bg|]; [|reflexivity].
  case_bool_decide; [reflexivity|]. unfold bind, gets, throw, ret.
  destruct (categoryGroups s !! gid) as [g|]; [|reflexivity].
  case_bool_decide; reflexivity.
Qed.

Lemma getCategoryGroupById_owned userId b gid s :
  (exists g, getCategoryGroupById userId b gid s = Ok (g, s)
             /\ categoryGroups s !! gid = Some g /\ group_budgetId g = b
             /\ groupOwned s userId b gid = true)
  \/ (exists e, getCategoryGroupById userId b gid s = Throw e
                /\ groupOwned s userId b gid = false).
Proof.
  rewrite getCategoryGroupById_eq. unfold groupOwned, ownsBudget.
  destruct (budgets s !! b) as [bg|]; [|right; eauto].
  destruct (decide (budget_userId bg = userId)) as [U|U].
  2:{ rewrite bool_decide_eq_true_2 by exact U.
      rewrite (bool_decide_eq_false_2 _ U). right; eauto. }
  rewrite (bool_decide_eq_false_2 (budget_userId bg <> userId)) by tauto.
  rewrite (bool_decide_eq_true_2 _ U).
  destruct (categoryGroups s !! gid) as [g|]; [|right; eauto].
  destruct (decide (group_budgetId g = b)) as [G|G].
  2:{ rewrite bool_decide_eq_true_2 by exact G.
      rewrite (bool_decide_eq_false_2 _ G). right; eauto. }
  rewrite (bool_decide_eq_false_2 (group_budgetId g <> b)) by tauto.
  rewrite (bool_decide_eq_true_2 _ G). left. eauto 10.
Qed.

(** A new group and a new category are ready for use.  [createCategoryGroup]
    by the owner stores a group of the budget under a fresh id, and
    [createCategory] in a group of the caller's budget stores a category of
    that group under a fresh id; the new category belongs to the budget, can
    be read back with [getCategoryById], and existing categories keep their
    budget. *)
Theorem createCategory_in_budget (userId b gid : Id) (name : string) (s : Store) :
  (ownsBudget s userId b = true ->
   exists g s',
     createCategoryGroup userId b name s = (Ok g, s')
     /\ categoryGroups s !! fst g = None
     /\ categoryGroups s' = <[fst g := snd g]> (categoryGroups s)
     /\ group_name (snd g) = name /\ group_budgetId (snd g) = b
     /\ groupOwned s' userId b (fst g) = true
     /\ categories s' = categories s)
  /\ (groupOwned s userId b gid = true ->
      exists c s',
        createCategory userId b gid name s = (Ok c, s')
        /\ categories s !! fst c = None
        /\ categories s' = <[fst c := snd c]> (categories s)
        /\ category_name (snd c) = name /\ categoryGroupId (snd c) = gid
        /\ categoryInBudget s' (fst c) b = true
        /\ getCategoryById userId b gid (fst c) s' = Ok (snd c, s')
        /\ (forall c' b', categoryInBudget s c' b' = true ->
                          categoryInBudget s' c' b' = true)
        /\ budgetEntries s' = budgetEntries s)
  /\ (groupOwned s userId b gid = false ->
      isThrow (fst (createCategory userId b gid name s)) = true
      /\ snd (createCategory userId b gid name s) = s).
Proof.
  split; [|split].
  - intros Ho. unfold createCategoryGroup, run, createCategoryGroupBody.
    unfold bind at 1. rewrite getBudgetById_eq. pose proof Ho as Ho'.
    unfold ownsBudget in Ho.
    destruct (budgets s !! b) as [bg|] eqn:Hb; [|discriminate].
    apply bool_decide_eq_true in Ho.
    rewrite bool_decide_eq_false_2 by (intros ?; contradiction).
    unfold bind, gets, modify, ret. eexists _, _. split; [reflexivity|].
    cbn [fst snd with_categoryGroups categoryGroups categories group_name
         group_budgetId].
    split; [apply keys_fresh|]. split; [reflexivity|]. split; [reflexivity|].
    split; [reflexivity|]. split; [|reflexivity].
    unfold groupOwned. change (ownsBudget (with_categoryGroups _ s) userId b)
      with (ownsBudget s userId b). rewrite Ho'.
    cbn [with_categoryGroups categoryGroups]. rewrite lookup_insert_eq.
    apply bool_decide_eq_true. reflexivity.
  - intros Ho. unfold createCategory, run, createCategoryBody.
    unfold bind at 1.
    destruct (getCategoryGroupById_owned userId b gid s)
      as [(g & -> & Hg & Hgb & _)|(e & _ & Hf)]; [|congruence].
    unfold bind, gets, modify, ret. eexists _, _. split; [reflexivity|].
    cbn [fst snd with_categories categories category_name categoryGroupId
         budgetEntries].
    assert (Hfresh : categories s !! uuid (keys (categories s)) = None)
      by apply keys_fresh.
    split; [exact Hfresh|]. split; [reflexivity|]. split; [reflexivity|].
    split; [reflexivity|].
    split.
    { unfold categoryInBudget, categoryBudgetId.
      cbn [with_categories categories categoryGroups]. rewrite lookup_insert_eq.
      cbn [categoryGroupId]. rewrite Hg. apply bool_decide_eq_true. exact Hgb. }
    split.
    { unfold getCategoryById. unfold bind at 1.
      rewrite getCategoryGroupById_eq.
      cbn [with_categories budgets categoryGroups].
      unfold groupOwned, ownsBudget in Ho.
      destruct (budgets s !! b) as [bg|]; [|discriminate].
      rewrite Hg in *. apply andb_true_iff in Ho as [Hu _].
      apply bool_decide_eq_true in Hu.
      rewrite bool_decide_eq_false_2 by (intros ?; contradiction).
      rewrite bool_decide_eq_false_2 by (intros ?; contradiction).
      unfold bind, gets, throw, ret. cbn [with_categories categories].
      rewrite lookup_insert_eq. cbn [categoryGroupId].
      rewrite bool_decide_eq_false_2 by (intros N; apply N; reflexivity).
      reflexivity. }
    split; [|reflexivity].
    intros c' b'. apply categoryInBudget_mono; [|reflexivity].
    cbn [with_categories categories]. apply insert_subseteq. exact Hfresh.
  - intros Ho. unfold createCategory, run.
    assert (E : exists e, createCategoryBody userId b gid name s = Throw e).
    { unfold createCategoryBody. unfold bind at 1.
      destruct (getCategoryGroupById_owned userId b gid s)
        as [(g & _ & _ & _ & Ht)|(e & -> & _)]; [congruence|eauto]. }
    destruct E as [e ->]. split; reflexivity.
Qed.

Lemma count_zero_none {K A} `{Countable K} (P : K * A -> Prop)
    `{!forall x, Decision (P x)} (m : gmap K A) :
  (0 <? Z.of_nat (length (filter P (map_to_list m)))) = false ->
  forall k v, m !! k = Some v -> ~ P (k, v).
Proof.
  intros Hc k v Hk HP.
  assert (Hin : (k, v) ∈ filter P (map_to_list m)).
  { apply list_elem_of_filter. split; [exact HP|]. apply elem_of_map_to_list, Hk. }
  destruct (filter P (map_to_list m)); [apply elem_of_nil in Hin; exact Hin|].
  cbn [length] in Hc. apply Z.ltb_ge in Hc. lia.
Qed.

Lemma count_pos_some {K A} `{Countable K} (P : K * A -> Prop)
    `{!forall x, Decision (P x)} (m : gmap K A) k v :
  m !! k = Some v -> P (k, v) ->
  (0 <? Z.of_nat (length (filter P (map_to_list m)))) = true.
Proof.
  intros Hk HP. destruct (0 <? _) eqn:E; [reflexivity|].
  exfalso. exact (count_zero_none P m E k v Hk HP).
Qed.

(** [deleteCategory] never leaves a reference to the deleted category
    behind.  A category that has a budget entry in any month is refused
    with 400 and nothing changes.  After a successful deletion the category
    is gone, the other categories and all budget entries are as before, and
    nothing refers to the category: no budget entry, no goal, no split row,
    no transaction and no account link; the ledger keeps its rows and their
    amounts. *)
Theorem deleteCategory_no_dangling (userId b gid cid : Id) (s : Store) :
  let r := fst (deleteCategory userId b gid cid s) in
  let s' := snd (deleteCategory userId b gid cid s) in
  (categoryOwned s userId b gid cid = true ->
   (exists y m, is_Some (budgetEntries s !! (cid, y, m))) ->
   r = Throw (HttpError 400 CategoryHasEntries) /\ s' = s)
  /\ (isThrow r = true -> s' = s)
  /\ (r = Ok tt ->
      categoryOwned s userId b gid cid = true
      /\ categories s' = delete cid (categories s)
      /\ budgetEntries s' = budgetEntries s
      /\ (forall y m, budgetEntries s' !! (cid, y, m) = None)
      /\ goals s' = goals s /\ goals s' !! cid = None
      /\ splitTransactions s' = splitTransactions s
      /\ (forall sp, sp ∈ splitTransactions s' -> split_categoryId sp <> cid)
      /\ (forall t, t ∈ transactions s' -> categoryId t <> Some cid)
      /\ (forall i a, accounts s' !! i = Some a -> paymentCategoryId a <> Some cid)
      /\ map id (transactions s') = map id (transactions s)
      /\ map amount (transactions s') = map amount (transactions s)
      /\ map accountId (transactions s') = map accountId (transactions s)).
Proof.
  cbv zeta. unfold deleteCategory, run.
  destruct (getCategoryById_eq userId b gid cid s) as [(c & Hc & Ho)|(e & Hc & Ho)].
  2:{ assert (E : deleteCategoryBody userId b gid cid s = Throw e).
      { unfold deleteCategoryBody. unfold bind at 1. rewrite Hc. reflexivity. }
      rewrite E. cbn [fst snd]. split; [congruence|]. split; [reflexivity|discriminate]. }
  assert (E : deleteCategoryBody userId b gid cid s =
              if 0 <? Z.of_nat (entryCount cid s)
              then Throw (HttpError 400 CategoryHasEntries)
              else if bool_decide (is_Some (goals s !! cid))
                      || existsb (fun sp => bool_decide (split_categoryId sp = cid))
                                 (splitTransactions s)
              then Throw (HttpError 500 StoreFailure)
              else Ok (tt, with_categories (delete cid)
                             (with_accounts (fmap (clearPaymentCategory cid))
                                (with_transactions (map (clearCategory cid)) s)))).
  { unfold deleteCategoryBody. unfold bind at 1. rewrite Hc.
    unfold bind, gets, throwIf, throw, ret, modify.
    destruct (0 <? Z.of_nat (entryCount cid s)); [reflexivity|].
    destruct (bool_decide _ || existsb _ _); reflexivity. }
  rewrite E. clear E. unfold entryCount.
  destruct (0 <? Z.of_nat _) eqn:Hcount; cbn [fst snd isThrow isOk negb].
  { split; [auto|]. split; [reflexivity|discriminate]. }
  split.
  { intros _ (y & m & [v Hv]). exfalso.
    exact (count_zero_none _ _ Hcount (cid, y, m) v Hv eq_refl). }
  destruct (bool_decide (is_Some (goals s !! cid))) eqn:Hgoal; cbn [orb fst snd isThrow isOk negb].
  { split; [reflexivity|discriminate]. }
  destruct (existsb _ (splitTransactions s)) eqn:Hsplit; cbn [fst snd isThrow isOk negb].
  { split; [reflexivity|discriminate]. }
  split; [discriminate|]. intros _.
  cbn [with_categories with_accounts with_transactions categories budgetEntries goals
       splitTransactions transactions accounts].
  split; [exact Ho|]. split; [reflexivity|]. split; [reflexivity|].
  split.
  { intros y m. destruct (budgetEntries s !! (cid, y, m)) as [v|] eqn:Hv; [|reflexivity].
    exfalso. exact (count_zero_none _ _ Hcount (cid, y, m) v Hv eq_refl). }
  split; [reflexivity|].
  split.
  { apply bool_decide_eq_false in Hgoal.
    destruct (goals s !! cid); [exfalso; apply Hgoal; eauto|reflexivity]. }
  split; [reflexivity|].
  split.
  { intros sp Hsp Heq.
    assert (Hex : existsb (fun sp => bool_decide (split_categoryId sp = cid))
                          (splitTransactions s) = true).
    { apply existsb_exists. exists sp. split; [apply list_elem_of_In; exact Hsp|].
      apply bool_decide_eq_true. exact Heq. }
    congruence. }
  split.
  { intros t Ht. apply list_elem_of_In, in_map_iff in Ht as (t0 & <- & _).
    cbn [clearCategory categoryId].
    destruct (bool_decide (categoryId t0 = Some cid)) eqn:Hd; [discriminate|].
    apply bool_decide_eq_false in Hd. exact Hd. }
  split.
  { intros i a Hi. rewrite lookup_fmap in Hi.
    destruct (accounts s !! i) as [a0|]; [|discriminate]. injection Hi as <-.
    cbn [clearPaymentCategory paymentCategoryId].
    destruct (bool_decide (paymentCategoryId a0 = Some cid)) eqn:Hd; [discriminate|].
    apply bool_decide_eq_false in Hd. exact Hd. }
  repeat split; rewrite map_map; apply map_ext; intros t; reflexivity.
Qed.

(** [deleteCategoryGroup] never orphans a category: a group that still
    holds a category is refused with 400 and nothing changes, and after a
    successful deletion the group is gone, no category refers to it, and
    the categories and the other groups are as before. *)
Theorem deleteCategoryGroup_only_empty (userId b gid : Id) (s : Store) :
  let r := fst (deleteCategoryGroup userId b gid s) in
  let s' := snd (deleteCategoryGroup userId b gid s) in
  (groupOwned s userId b gid = true ->
   (exists c row, categories s !! c = Some row /\ categoryGroupId row = gid) ->
   r = Throw (HttpError 400 GroupHasCategories) /\ s' = s)
  /\ (groupOwned s userId b gid = true ->
      (forall c row, categories s !! c = Some row -> categoryGroupId row <> gid) ->
      r = Ok tt)
  /\ (isThrow r = true -> s' = s)
  /\ (r = Ok tt ->
      groupOwned s userId b gid = true
      /\ categoryGroups s' = delete gid (categoryGroups s)
      /\ categories s' = categories s
      /\ (forall c row, categories s' !! c = Some row -> categoryGroupId row <> gid)
      /\ (forall c b', categoryInBudget s c b' = true ->
                       categoryInBudget s' c b' = true)).
Proof.
  cbv zeta. unfold deleteCategoryGroup, run.
  destruct (getCategoryGroupById_owned userId b gid s)
    as [(g & Hg & Hl & Hb & Ho)|(e & Hg & Ho)].
  2:{ assert (E : deleteCategoryGroupBody userId b gid s = Throw e).
      { unfold deleteCategoryGroupBody. unfold bind at 1. rewrite Hg. reflexivity. }
      rewrite E. cbn [fst snd]. split; [congruence|]. split; [congruence|].
      split; [reflexivity|discriminate]. }
  assert (E : deleteCategoryGroupBody userId b gid s =
              if 0 <? Z.of_nat (categoriesCount gid s)
              then Throw (HttpError 400 GroupHasCategories)
              else Ok (tt, with_categoryGroups (delete gid) s)).
  { unfold deleteCategoryGroupBody. unfold bind at 1. rewrite Hg.
    unfold bind, gets, throwIf, throw, ret, modify.
    destruct (0 <? Z.of_nat (categoriesCount gid s)); reflexivity. }
  rewrite E. clear E. unfold categoriesCount.
  destruct (0 <? Z.of_nat _) eqn:Hcount; cbn [fst snd isThrow isOk negb].
  { split; [auto|]. split.
    { intros _ Hnone. exfalso.
      destruct (filter _ (map_to_list (categories s))) as [|[c row] l] eqn:Hf;
        [discriminate|].
      assert (Hin : (c, row) ∈ filter (fun c => categoryGroupId (snd c) = gid)
                                      (map_to_list (categories s)))
        by (rewrite Hf; apply list_elem_of_here).
      apply list_elem_of_filter in Hin as [Hp Hin].
      apply elem_of_map_to_list in Hin. exact (Hnone c row Hin Hp). }
    split; [reflexivity|discriminate]. }
  pose proof (count_zero_none _ _ Hcount) as Hnone. cbn [snd] in Hnone.
  split.
  { intros _ (c & row & Hc & Hr). exfalso. exact (Hnone c row Hc Hr). }
  split; [reflexivity|]. split; [discriminate|]. intros _.
  cbn [with_categoryGroups categoryGroups categories].
  split; [exact Ho|]. split; [reflexivity|]. split; [reflexivity|].
  split; [exact Hnone|].
  intros c b'. unfold categoryInBudget, categoryBudgetId.
  cbn [with_categoryGroups categoryGroups categories].
  destruct (categories s !! c) as [row|] eqn:Hrow; [|discriminate].
  rewrite lookup_delete_ne by (intros Heq; exact (Hnone c row Hrow (eq_sym Heq))).
  auto.
Qed.

End Categories.

(** ** Listing transactions *)

Section Listings.
Import AccountService TransactionService.

Lemma getTransactions_eq userId b acc s :
  getTransactions userId b acc s
  = (match budgets s !! b with
     | None => Throw (HttpError 404 BudgetNotFound)
     | Some bg =>
         if bool_decide (budget_userId bg <> userId)
         then Throw (HttpError 403 BudgetForbidden)
         else if truthy acc
              then match getAccountByIdBody userId (idOf acc) s with
                   | Ok _ => Throw (HttpError 500 UnknownInclude)
                   | Throw e => Throw e
                   end
              else Throw (HttpError 500 UnknownInclude)
     end, s).
Proof.
  unfold getTransactions, run, getTransactionsBody. unfold bind at 1.
  rewrite getBudgetById_eq.
  destruct (budgets s !! b) as [bg|]; [|reflexivity].
  case_bool_decide; [reflexivity|].
  destruct (truthy acc).
  - unfold bind at 1. unfold bind at 1.
    destruct (getAccountByIdBody userId (idOf acc) s) as [[r0 s0]|e]; reflexivity.
  - reflexivity.
Qed.

(** [getTransactions] never returns a list and never writes.  An unknown
    budget is answered with 404 and a budget of another user with 403; when
    an account id is given, an unknown account is answered with 404 and an
    account of another user with 403.  In every other case, that is for
    every request of the owner that passes these checks, the query for the
    rows is refused by the client, because it includes a relation [splits]
    that the Transaction model does not have. *)
Theorem getTransactions_never_returns (userId b : Id) (acc : option Id) (s : Store) :
  let r := fst (getTransactions userId b acc s) in
  snd (getTransactions userId b acc s) = s
  /\ isThrow r = true
  /\ (budgets s !! b = None -> r = Throw (HttpError 404 BudgetNotFound))
  /\ (forall bg, budgets s !! b = Some bg -> budget_userId bg <> userId ->
        r = Throw (HttpError 403 BudgetForbidden))
  /\ (ownsBudget s userId b = true ->
      (truthy acc = false -> r = Throw (HttpError 500 UnknownInclude))
      /\ (truthy acc = true -> accounts s !! idOf acc = None ->
          r = Throw (HttpError 404 AccountNotFound))
      /\ (forall a bg, truthy acc = true -> accounts s !! idOf acc = Some a ->
            budgets s !! account_budgetId a = Some bg -> budget_userId bg <> userId ->
            r = Throw (HttpError 403 AccountForbidden))
      /\ (forall a, truthy acc = true -> accounts s !! idOf acc = Some a ->
            ownsBudget s userId (account_budgetId a) = true ->
            r = Throw (HttpError 500 UnknownInclude))).
Proof.
  cbv zeta. rewrite getTransactions_eq. cbn [fst snd]. unfold ownsBudget.
  split; [reflexivity|].
  destruct (budgets s !! b) as [bg|] eqn:Hb.
  2:{ split; [reflexivity|]. split; [reflexivity|]. split; discriminate. }
  destruct (decide (budget_userId bg = userId)) as [U|U].
  2:{ rewrite bool_decide_eq_true_2 by exact U.
      rewrite (bool_decide_eq_false_2 _ U).
      split; [reflexivity|]. split; [discriminate|]. split; [reflexivity|].
      discriminate. }
  rewrite (bool_decide_eq_false_2 (budget_userId bg <> userId)) by tauto.
  rewrite (bool_decide_eq_true_2 _ U).
  assert (E : getAccountByIdBody userId (idOf acc) s
              = match accounts s !! idOf acc with
                | None => Throw (HttpError 404 AccountNotFound)
                | Some a =>
                    match budgets s !! account_budgetId a with
                    | None => Throw (HttpError 500 StoreFailure)
                    | Some bg' =>
                        if bool_decide (budget_userId bg' <> userId)
                        then Throw (HttpError 403 AccountForbidden)
                        else Ok (withBalances (idOf acc) a s, s)
                    end
                end).
  { unfold getAccountByIdBody, bind, gets, throw, throwIf, ret.
    destruct (accounts s !! idOf acc) as [a|]; [|reflexivity].
    destruct (budgets s !! account_budgetId a) as [bg'|]; [|reflexivity].
    case_bool_decide; reflexivity. }
  rewrite E. clear E.
  destruct (truthy acc) eqn:Ht.
  - destruct (accounts s !! idOf acc) as [a|] eqn:Ha.
    + destruct (budgets s !! account_budgetId a) as [bg'|] eqn:Hb'.
      * destruct (decide (budget_userId bg' = userId)) as [U'|U'].
        -- rewrite (bool_decide_eq_false_2 (budget_userId bg' <> userId)) by tauto.
           split; [reflexivity|]. split; [discriminate|].
           split; [intros bg0 [= <-] N; contradiction|].
           intros _. split; [discriminate|]. split; [discriminate|].
           split; [|reflexivity].
           intros a0 bg0 _ [= <-] Hb0 N. rewrite Hb' in Hb0.
           injection Hb0 as <-. contradiction.
        -- rewrite (bool_decide_eq_true_2 (budget_userId bg' <> userId)) by exact U'.
           split; [reflexivity|]. split; [discriminate|].
           split; [intros bg0 [= <-] N; contradiction|].
           intros _. split; [discriminate|]. split; [discriminate|].
           split; [reflexivity|].
           intros a0 _ [= <-]. rewrite Hb'. intros Ho.
           apply bool_decide_eq_true in Ho. contradiction.
      * split; [reflexivity|]. split; [discriminate|].
        split; [intros bg0 [= <-] N; contradiction|].
        intros _. split; [discriminate|]. split; [discriminate|].
        split; [intros a0 bg0 _ [= <-] Hb0; rewrite Hb' in Hb0; discriminate|].
        intros a0 _ [= <-]. rewrite Hb'. discriminate.
    + split; [reflexivity|]. split; [discriminate|].
      split; [intros bg0 [= <-] N; contradiction|].
      intros _. split; [discriminate|]. split; [reflexivity|].
      split; [intros a0 bg0 _ [=]|intros a0 _ [=]].
  - split; [reflexivity|]. split; [discriminate|].
    split; [intros bg0 [= <-] N; contradiction|].
    intros _. split; [reflexivity|]. split; [discriminate|].
    split; [intros a0 bg0 [=]|intros a0 [=]].
Qed.

End Listings.

Section AccountListing.
Import AccountService.

Lemma getAllAccountsForBudget_eq userId b s :
  getAllAccountsForBudget userId b s =
  if ownsBudget s userId b
  then (Ok (map (fun a => withBalances (fst a) (snd a) s)
              (filter (fun a => account_budgetId (snd a) = b
                                /\ isClosed (snd a) = false)
                      (map_to_list (accounts s)))), s)
  else (match budgets s !! b with
        | None => Throw (HttpError 404 BudgetNotFound)
        | Some _ => Throw (HttpError 403 BudgetForbidden)
        end, s).
Proof.
  unfold getAllAccountsForBudget, run, getAllAccountsForBudgetBody, ownsBudget.
  unfold bind at 1. rewrite getBudgetById_eq.
  destruct (budgets s !! b) as [bg|]; [|reflexivity].
  destruct (decide (budget_userId bg = userId)) as [U|U].
  - rewrite (bool_decide_eq_false_2 (budget_userId bg <> userId)) by tauto.
    rewrite (bool_decide_eq_true_2 _ U). reflexivity.
  - rewrite bool_decide_eq_true_2 by exact U.
    rewrite (bool_decide_eq_false_2 _ U). reflexivity.
Qed.

Lemma listed_iff b s i :
  i ∈ map resp_id
        (map (fun a => withBalances (fst a) (snd a) s)
           (filter (fun a => account_budgetId (snd a) = b /\ isClosed (snd a) = false)
                   (map_to_list (accounts s))))
  <-> exists a, accounts s !! i = Some a /\ account_budgetId a = b
                /\ isClosed a = false.
Proof.
  rewrite map_map. cbn [withBalances resp_id]. split.
  - intros Hin. apply list_elem_of_In, in_map_iff in Hin as ([i' a] & <- & Hin).
    apply list_elem_of_In, list_elem_of_filter in Hin as [[Hb Hc] Hin].
    apply elem_of_map_to_list in Hin. exists a. auto.
  - intros (a & Ha & Hb & Hc). apply list_elem_of_In, in_map_iff. exists (i, a).
    split; [reflexivity|]. apply list_elem_of_In, list_elem_of_filter.
    split; [split; assumption|]. apply elem_of_map_to_list. exact Ha.
Qed.

(** [getAllAccountsForBudget] lists the open accounts of the budget, each
    once: an account is listed exactly when it is stored, belongs to the
    budget and is not closed, and every listed account carries the balances
    calculated from the ledger.  The budget must be the caller's.  The
    order of the list (by name) is not part of the model, and nothing
    below depends on it. *)
Theorem getAllAccountsForBudget_lists (userId b : Id) (s : Store) :
  let r := fst (getAllAccountsForBudget userId b s) in
  snd (getAllAccountsForBudget userId b s) = s
  /\ (isOk r = true <-> ownsBudget s userId b = true)
  /\ (forall l, r = Ok l ->
        NoDup (map resp_id l)
        /\ (forall i, i ∈ map resp_id l
                      <-> exists a, accounts s !! i = Some a
                                    /\ account_budgetId a = b /\ isClosed a = false)
        /\ Forall (fun x => resp_budgetId x = b /\ resp_isClosed x = false
                            /\ resp_balances x
                               = calculateAccountBalances (resp_id x) s) l).
Proof.
  cbv zeta. rewrite getAllAccountsForBudget_eq.
  destruct (ownsBudget s userId b); cbn [fst snd isOk].
  - split; [reflexivity|]. split; [tauto|]. intros l [= <-].
    split.
    { rewrite map_map. cbn [withBalances resp_id].
      apply (sublist_NoDup _ (map fst (map_to_list (accounts s)))).
      - apply (NoDup_fst_map_to_list (accounts s)).
      - apply (fmap_sublist fst), sublist_filter. }
    split; [intros i; apply listed_iff|].
    apply Forall_forall. intros x Hx.
    apply list_elem_of_In, in_map_iff in Hx as ([i a] & <- & Hin).
    apply list_elem_of_In, list_elem_of_filter in Hin as [[Hb Hc] _].
    cbn [withBalances resp_budgetId resp_isClosed resp_balances resp_id fst snd] in *.
    auto.
  - destruct (budgets s !! b); cbn [fst snd isOk];
      (split; [reflexivity|]); (split; [split; discriminate|]); discriminate.
Qed.






End AccountListing.

(** ** Requests that [createTransaction] refuses *)

Section CreateRejected.
Import AccountService TransactionService.

Lemma createTransactionBody_transfer_throw userId dto s a e :
  accounts s !! c_accountId dto = Some a ->
  ownsBudget s userId (account_budgetId a) = true ->
  c_isTransfer dto = true ->
  validateTransfer (account_budgetId a) a dto s = Throw e ->
  createTransactionBody userId dto s = Throw e.
Proof.
  intros Ha Ho Ht Hv. unfold createTransactionBody.
  unfold bind at 1. unfold gets at 1.
  unfold bind at 1. unfold gets at 1. rewrite Ha.
  unfold bind at 1. unfold gets at 1.
  unfold ownsBudget in Ho.
  destruct (budgets s !! account_budgetId a) as [bg|]; [|discriminate].
  apply bool_decide_eq_true in Ho.
  unfold bind at 1. unfold throwIf at 1.
  rewrite bool_decide_eq_false_2 by (intros ?; contradiction).
  unfold ret at 1. rewrite Ht.
  unfold bind at 1. unfold bind at 1. rewrite Hv. reflexivity.
Qed.

(** [createTransaction] refuses a request before it writes.  An unknown
    source account is answered with 404 and an account of another user with
    403; a transfer without a destination or onto its own account with 400,
    and a transfer to an unknown account or to an account of another budget
    with 404; a split transaction without split rows, or with a category on
    its header, is refused.  Whenever the request is refused the store is
    unchanged. *)
Theorem createTransaction_rejects (userId : Id) (dto : CreateTransactionDto)
    (s : Store) :
  let r := fst (createTransaction userId dto s) in
  let s' := snd (createTransaction userId dto s) in
  (isThrow r = true -> s' = s)
  /\ (accounts s !! c_accountId dto = None ->
      r = Throw (HttpError 404 SourceAccountNotFound))
  /\ (forall a bg, accounts s !! c_accountId dto = Some a ->
        budgets s !! account_budgetId a = Some bg -> budget_userId bg <> userId ->
        r = Throw (HttpError 403 SourceAccountForbidden))
  /\ (forall a, accounts s !! c_accountId dto = Some a ->
        ownsBudget s userId (account_budgetId a) = true ->
        c_isTransfer dto = true ->
        (truthy (c_transferAccountId dto) = false ->
         r = Throw (HttpError 400 TransferAccountRequired))
        /\ (truthy (c_transferAccountId dto) = true ->
            idOf (c_transferAccountId dto) = c_accountId dto ->
            r = Throw (HttpError 400 TransferSameAccount))
        /\ (truthy (c_transferAccountId dto) = true ->
            idOf (c_transferAccountId dto) <> c_accountId dto ->
            (forall d, accounts s !! idOf (c_transferAccountId dto) = Some d ->
                       account_budgetId d <> account_budgetId a) ->
            r = Throw (HttpError 404 TransferDestinationNotFound)))
  /\ (c_isTransfer dto = false -> c_isSplit dto = true ->
      c_splits dto = [] \/ truthy (c_categoryId dto) = true ->
      isThrow r = true).
Proof.
  cbv zeta. unfold createTransaction, run.
  split.
  { destruct (createTransactionBody userId dto s) as [[x s1]|e]; cbn [fst snd];
      [discriminate|reflexivity]. }
  split.
  { intros Hn.
    assert (E : createTransactionBody userId dto s
                = Throw (HttpError 404 SourceAccountNotFound)).
    { unfold createTransactionBody. unfold bind at 1. unfold gets at 1.
      unfold bind at 1. unfold gets at 1. rewrite Hn. reflexivity. }
    rewrite E. reflexivity. }
  split.
  { intros a bg Ha Hb Hu.
    assert (E : createTransactionBody userId dto s
                = Throw (HttpError 403 SourceAccountForbidden)).
    { unfold createTransactionBody. unfold bind at 1. unfold gets at 1.
      unfold bind at 1. unfold gets at 1. rewrite Ha.
      unfold bind at 1. unfold gets at 1. rewrite Hb.
      unfold bind at 1. unfold throwIf at 1.
      rewrite bool_decide_eq_true_2 by assumption. reflexivity. }
    rewrite E. reflexivity. }
  split.
  { intros a Ha Ho Ht.
    pose proof (createTransactionBody_transfer_throw userId dto s a) as Hthrow.
    split; [|split].
    - intros Hn. rewrite (Hthrow (HttpError 400 TransferAccountRequired));
        try assumption; [reflexivity|].
      unfold validateTransfer. unfold bind at 1. unfold throwIf at 1.
      rewrite Hn. reflexivity.
    - intros Hy Heq. rewrite (Hthrow (HttpError 400 TransferSameAccount));
        try assumption; [reflexivity|].
      unfold validateTransfer. unfold bind at 1. unfold throwIf at 1.
      rewrite Hy. cbn [negb]. unfold ret at 1. unfold bind at 1. unfold throwIf at 1.
      rewrite bool_decide_eq_true_2 by assumption. reflexivity.
    - intros Hy Hne Hd. rewrite (Hthrow (HttpError 404 TransferDestinationNotFound));
        try assumption; [reflexivity|].
      unfold validateTransfer. unfold bind at 1. unfold throwIf at 1.
      rewrite Hy. cbn [negb]. unfold ret at 1. unfold bind at 1. unfold throwIf at 1.
      rewrite bool_decide_eq_false_2 by assumption.
      unfold ret at 1. unfold bind at 1. unfold gets at 1.
      destruct (accounts s !! idOf (c_transferAccountId dto)) as [d|] eqn:Hdest;
        [|reflexivity].
      unfold bind at 1. unfold throwIf at 1.
      rewrite bool_decide_eq_true_2 by (apply Hd; reflexivity). reflexivity. }
  intros NT Hs Hbad.
  destruct (createTransactionBody userId dto s) as [[x s1]|e] eqn:E; cbn [fst];
    [|reflexivity].
  exfalso.
  destruct (createTransaction_single_inv _ _ _ _ _ E NT)
    as (a & bg & fp & t & s3 & _ & _ & _ & _ & _ & Hhdr & _ & Hsp & _).
  destruct Hbad as [Hnil|Hcat].
  - unfold createSplitTransactions in Hsp.
    rewrite Hs, NT, Hnil in Hsp. cbn in Hsp. discriminate.
  - rewrite Hs, Hcat in Hhdr. discriminate.
Qed.

End CreateRejected.

(** ** Updating an account *)

Section UpdateAccount.
Import AccountService.



End UpdateAccount.

(** ** Examples of the further properties *)

Section FurtherExamples.
Import BudgetService BudgetView AccountService TransactionService.

(** A credit card of budget [b], where the group of payment categories
    exists already. *)
Lemma createAccount_payment_category_witness :
  exists resp s' pc c,
    createAccount "u" cardDto (newDate 2024 3) cardStore = (Ok resp, s')
    /\ resp_paymentCategoryId resp = Some pc
    /\ categories s' !! pc = Some c
    /\ category_name c = "Amex Payments"
    /\ categoryGroupId c = "pg"
    /\ categoryGroups s' = categoryGroups cardStore.
Proof.
  destruct (createAccount_payment_category "u" cardDto (newDate 2024 3) cardStore
              eq_refl)
    as (resp & s' & a & E & _ & _ & _ & _ & _ & Hp & _ & Hcard & _).
  destruct (Hcard eq_refl) as (pc & c & g & P1 & _ & _ & P4 & P5 & P6 & P7 & _ & _ & P10).
  exists resp, s', pc, c. split; [exact E|].
  split; [rewrite <- Hp; exact P1|]. split; [exact P4|]. split; [exact P5|].
  assert (G : categoryGroups s' = categoryGroups cardStore).
  { apply P10. vm_compute. eexists. reflexivity. }
  split; [|exact G].
  rewrite G in P6. unfold cardStore in P6. cbn [categoryGroups] in P6.
  apply lookup_insert_Some in P6 as [[E1 <-]|[_ P6]].
  - discriminate P7.
  - apply lookup_singleton_Some in P6 as [E1 _]. symmetry. exact E1.
Defined.

Lemma transactionsLinked_cardStore : transactionsLinked cardStore.
Proof. intros t Ht. inversion Ht. Qed.

(** The card is created with a balance of -120, all of it cleared. *)
Lemma createAccount_initial_balance_witness :
  exists resp s' t,
    createAccount "u" cardDto (newDate 2024 3) cardStore = (Ok resp, s')
    /\ resp_balances resp = mkBalances (-120) (-120) 0
    /\ transactions s' = [t] /\ amount t = -120 /\ cleared t = CLEARED.
Proof.
  destruct (createAccount_initial_balance "u" cardDto (newDate 2024 3) cardStore
              eq_refl transactionsLinked_cardStore)
    as (resp & s' & E & Hb & _ & _ & Ht & _).
  destruct (Ht ltac:(discriminate)) as (t & T1 & T2 & T3 & _).
  exists resp, s', t. split; [exact E|]. split; [exact Hb|].
  split; [exact T1|]. split; [exact T2|exact T3].
Defined.

End FurtherExamples.

Section LedgerExamples.
Import BudgetService BudgetView AccountService TransactionService.

(** A deposit of 25 on the account of [balanceStore]: the ledger grows by
    one row of 25 on that account. *)
Lemma createTransaction_appends_row_witness :
  exists t s',
    createTransaction "u" (plainDto "acc" 25 None) balanceStore = (Ok (One t), s')
    /\ transactions s' = transactions balanceStore ++ [t]
    /\ accountId t = "acc" /\ amount t = 25.
Proof.
  assert (E : exists r s', createTransaction "u" (plainDto "acc" 25 None) balanceStore
                           = (Ok r, s')) by (eexists _, _; vm_compute; reflexivity).
  destruct E as (r & s' & E).
  destruct (createTransaction_appends_row "u" _ _ _ _ E eq_refl)
    as (t & -> & Hrows & Hacc & Hamt & _).
  exists t, s'. split; [exact E|]. split; [exact Hrows|].
  split; [exact Hacc|exact Hamt].
Defined.

Lemma splitsLinked_cardStore : splitsLinked cardStore.
Proof. intros sp Hsp. inversion Hsp. Qed.

(** A split outflow of 100 from checking, created and deleted again. *)
Lemma create_delete_round_trip_witness :
  exists t s1 s2,
    createTransaction "u" (splitDto "chk" (-100) twoSplits) cardStore
    = (Ok (One t), s1)
    /\ length (splitTransactions s1) = 2%nat
    /\ deleteTransaction "u" (id t) s1 = (Ok tt, s2)
    /\ transactions s2 = [] /\ splitTransactions s2 = [].
Proof.
  assert (E : exists t s1,
             createTransaction "u" (splitDto "chk" (-100) twoSplits) cardStore
             = (Ok (One t), s1)) by (eexists _, _; vm_compute; reflexivity).
  destruct E as (t & s1 & E).
  assert (L : length (splitTransactions (snd (createTransaction "u"
                (splitDto "chk" (-100) twoSplits) cardStore))) = 2%nat)
    by (vm_compute; reflexivity).
  rewrite E in L. cbn [snd] in L.
  destruct (create_delete_round_trip "u" _ _ _ _ E eq_refl splitsLinked_cardStore)
    as (s2 & D & T & S & _).
  - intros a Ha [Hc _]. vm_compute in Ha. injection Ha as <-. discriminate Hc.
  - exists t, s1, s2. split; [exact E|]. split; [exact L|]. split; [exact D|].
    split; [exact T|exact S].
Defined.

(** A refund of 30 on the card without a category is a refund to the
    budget, in all three places. *)
Lemma card_adjustments_agree_witness :
  getCcBudgetType cardRefund (Some visa) = REFUND_TO_TBB
  /\ adjustForCreditCard "b" cardRefund 2024 4 cardStore
     = applyNew "b" REFUND_TO_TBB cardRefund visa 2024 4 cardStore
  /\ revertOnDelete cardRefund (Some visa) None 2024 4 cardStore
     = revertOld "b" REFUND_TO_TBB cardRefund visa 2024 4 cardStore.
Proof.
  assert (G : getCcBudgetType cardRefund (Some visa) = REFUND_TO_TBB) by reflexivity.
  destruct (card_adjustments_agree cardRefund visa "b" 2024 4 cardStore eq_refl)
    as (H1 & H2 & _).
  split; [exact G|]. rewrite G in H1, H2. split; [exact H1|]. exact (H2 eq_refl).
Defined.

End LedgerExamples.

Section TableExamples.
Import BudgetService BudgetView AccountService TransactionService.
Import PayeeService GoalService CategoryService CategoryGroupService.

Lemma payeeStore_unique : payeeIdsUnique payeeStore /\ payeeNamesUnique payeeStore.
Proof.
  split; unfold payeeIdsUnique, payeeNamesUnique, payeeStore; cbn [payees map];
    apply (bool_decide_unpack _); vm_compute; exact I.
Qed.

(** Renaming Grocer to Market is accepted; renaming it to Baker, the name
    of the other payee, is refused with 409, also when the new name comes
    with a no-break space in front. *)
Lemma updatePayee_keeps_names_unique_witness :
  (exists p, fst (updatePayee "u" "p1" " Market " payeeStore) = Ok p
             /\ payee_name p = "Market"
             /\ payeeNamesUnique (snd (updatePayee "u" "p1" " Market " payeeStore)))
  /\ fst (updatePayee "u" "p1" (String.append nbsp "Baker") payeeStore)
     = Throw (HttpError 409 PayeeNameExists)
  /\ snd (updatePayee "u" "p1" (String.append nbsp "Baker") payeeStore) = payeeStore.
Proof.
  destruct payeeStore_unique as [U1 U2].
  destruct (updatePayee_keeps_names_unique "u" "p1" " Market " payeeStore U1 U2)
    as [Hok _].
  destruct (updatePayee_keeps_names_unique "u" "p1" (String.append nbsp "Baker")
              payeeStore U1 U2) as [_ Hrej].
  split.
  - eexists. split; [vm_compute; reflexivity|].
    match goal with
    | |- payee_name ?p = _ /\ _ =>
        destruct (Hok p ltac:(vm_compute; reflexivity)) as (_ & _ & _ & _ & _ & _ & _ & _ & N)
    end.
    split; [reflexivity|exact N].
  - apply (Hrej (mkPayee "p1" "Grocer" "b") (mkPayee "p2" "Baker" "b")).
    + apply list_elem_of_here.
    + reflexivity.
    + reflexivity.
    + vm_compute. discriminate.
    + apply list_elem_of_further, list_elem_of_here.
    + discriminate.
    + reflexivity.
    + vm_compute. reflexivity.
Defined.



(** A second payee named Baker is not created: the call returns the stored
    one, also when the name comes with a no-break space in front. *)
Lemma findOrCreatePayeeByName_unique_witness :
  findOrCreatePayeeByName "b" " Baker" payeeStore
  = Ok (mkPayee "p2" "Baker" "b", payeeStore)
  /\ findOrCreatePayeeByName "b" (String.append nbsp "Baker") payeeStore
     = Ok (mkPayee "p2" "Baker" "b", payeeStore)
  /\ findOrCreatePayeeByName "b" (String.append "  " nbsp) payeeStore
     = Throw (HttpError 400 PayeeNameEmpty).
Proof.
  destruct (findOrCreatePayeeByName_unique "b" (String.append "  " nbsp) payeeStore)
    as [H1 _].
  split; [vm_compute; reflexivity|]. split; [vm_compute; reflexivity|].
  apply H1. vm_compute. reflexivity.
Defined.

(** Groceries has a budget entry and cannot be deleted; Rent has none and
    can. *)
Lemma deleteCategory_no_dangling_witness :
  fst (deleteCategory "u" "b" "g" "A" moveStore)
  = Throw (HttpError 400 CategoryHasEntries)
  /\ snd (deleteCategory "u" "b" "g" "A" moveStore) = moveStore
  /\ fst (deleteCategory "u" "b" "g" "B" moveStore) = Ok tt
  /\ categories (snd (deleteCategory "u" "b" "g" "B" moveStore)) !! "B" = None.
Proof.
  destruct (deleteCategory_no_dangling "u" "b" "g" "A" moveStore) as [H1 _].
  destruct (deleteCategory_no_dangling "u" "b" "g" "B" moveStore) as (_ & _ & H3).
  cbv zeta in H1, H3.
  destruct H1 as [R1 R2]; [reflexivity|exists 2024, 4; eexists; reflexivity|].
  assert (E : fst (deleteCategory "u" "b" "g" "B" moveStore) = Ok tt)
    by (vm_compute; reflexivity).
  destruct (H3 E) as (_ & C & _).
  split; [exact R1|]. split; [exact R2|]. split; [exact E|].
  rewrite C. apply lookup_delete_eq.
Defined.

(** The group of [moveStore] holds two categories and cannot be deleted. *)
Lemma deleteCategoryGroup_only_empty_witness :
  fst (deleteCategoryGroup "u" "b" "g" moveStore)
  = Throw (HttpError 400 GroupHasCategories)
  /\ snd (deleteCategoryGroup "u" "b" "g" moveStore) = moveStore.
Proof.
  destruct (deleteCategoryGroup_only_empty "u" "b" "g" moveStore) as [H1 _].
  apply H1; [reflexivity|].
  exists "A", (mkCategory "Groceries" "g"). split; reflexivity.
Defined.

End TableExamples.

Section BudgetExamples.
Import BudgetService BudgetView AccountService TransactionService.



(** The stored balance columns of the account of [balanceStore] hold 999;
    the response carries the balances of its three rows. *)
Lemma calculateAccountBalances_from_rows_witness :
  exists resp,
    fst (getAccountById "u" "acc" balanceStore) = Ok resp
    /\ resp_balances resp = calculateAccountBalances "acc" balanceStore
    /\ resp_balances resp = mkBalances 65 105 (-40)
    /\ calculateAccountBalances "other" balanceStore = mkBalances 0 0 0.
Proof.
  destruct (calculateAccountBalances_from_rows "acc" balanceStore) as (_ & _ & H3).
  destruct (calculateAccountBalances_from_rows "other" balanceStore) as (_ & H2 & _).
  assert (E : exists resp, fst (getAccountById "u" "acc" balanceStore) = Ok resp)
    by (eexists; vm_compute; reflexivity).
  destruct E as [resp E]. destruct (H3 "u" resp E) as [B _].
  exists resp. split; [exact E|]. split; [exact B|].
  split; [rewrite B; vm_compute; reflexivity|].
  apply H2. reflexivity.
Defined.

(** The owner asks for the transactions of the budget of [cardStore], and
    for those of its checking account. *)
Lemma getTransactions_never_returns_witness :
  getTransactions "u" "b" None cardStore
  = (Throw (HttpError 500 UnknownInclude), cardStore)
  /\ getTransactions "u" "b" (Some "chk") cardStore
     = (Throw (HttpError 500 UnknownInclude), cardStore)
  /\ fst (getTransactions "u" "b" (Some "nope") cardStore)
     = Throw (HttpError 404 AccountNotFound).
Proof.
  pose proof (getTransactions_never_returns "u" "b" None cardStore) as (S1 & _ & _ & _ & H1).
  pose proof (getTransactions_never_returns "u" "b" (Some "chk") cardStore)
    as (S2 & _ & _ & _ & H2).
  pose proof (getTransactions_never_returns "u" "b" (Some "nope") cardStore)
    as (_ & _ & _ & _ & H3).
  cbv zeta in *.
  destruct (H1 eq_refl) as (G1 & _).
  destruct (H2 eq_refl) as (_ & _ & _ & G2).
  destruct (H3 eq_refl) as (_ & G3 & _).
  split; [|split].
  - destruct (getTransactions "u" "b" None cardStore) as [r0 s0].
    cbn [fst snd] in *. rewrite S1, (G1 eq_refl). reflexivity.
  - destruct (getTransactions "u" "b" (Some "chk") cardStore) as [r0 s0].
    cbn [fst snd] in *. rewrite S2.
    rewrite (G2 (mkAccount "Checking" CHECKING true 0 0 0 false "b" None None None)
               eq_refl eq_refl eq_refl). reflexivity.
  - apply G3; reflexivity.
Defined.

End BudgetExamples.
